(** * Time-tracker: goal evaluation and time/streak aggregation

    A shallow embedding of the aggregation functions of the main process
    (main.js) and of the goal evaluation engine, together with the part of
    the JavaScript run time they rest on: the calendar arithmetic of [Date]
    (ECMA-262, section "Date Objects") and the binary64 arithmetic of
    [Number] for the progress percentage.

    Conventions of the embedding.
    - A time value (milliseconds since the epoch) and every integral
      [Number] the code counts with (minutes, completions, days) is a [Z].
      The sums, differences, comparisons, [Math.min] and [Math.max] the
      aggregators apply to them are exact on integers below 2^53.
    - The progress percentage is computed by a binary64 division and
      multiplication; these are the Standard Library's [SFdiv] and [SFmul]
      at precision 53 and maximal exponent 1024.
    - The local time zone adjustment is a constant [tza] (milliseconds east
      of UTC); daylight-saving transitions are outside the model.
    - A [Date] object is used by the code as a mutable cell holding a time
      value; every function below copies its argument first
      ([new Date(date)]), so a [Date] is its time value.
    - [new Date()] reads the clock: the functions that call it take the
      current instant [now] as an argument.
    - The request handlers of the main process load the data file, change
      it and save it: a handler is a function from the data file to its
      answer and the data file after the call. The results of
      [generateId()] and [Date.now()] are arguments of the handler.
    - [String(n)] of an integral [Number] is the decimal numeral of the
      Standard Library. *)

From Stdlib Require Import ZArith Lia Bool List String Ascii.
From Stdlib Require Import Floats.SpecFloat.
From Stdlib Require Import Decimal DecimalString DecimalZ DecimalPos.
From stdpp Require Import base option list gmap strings.

Open Scope Z_scope.

(** ** Calendar arithmetic of ECMA-262 *)

Module JsDate.

Definition msPerDay : Z := 86400000.

Definition Day (t : Z) : Z := t / msPerDay.
Definition TimeWithinDay (t : Z) : Z := t mod msPerDay.

Definition DaysInYear (y : Z) : Z :=
  if negb (y mod 4 =? 0) then 365
  else if negb (y mod 100 =? 0) then 366
  else if negb (y mod 400 =? 0) then 365
  else 366.

Definition DayFromYear (y : Z) : Z :=
  365 * (y - 1970) + (y - 1969) / 4 - (y - 1901) / 100 + (y - 1601) / 400.

Definition TimeFromYear (y : Z) : Z := msPerDay * DayFromYear y.

(** The largest [y] with [TimeFromYear y <= t]: an estimate from the mean
    length of a Gregorian year, corrected by at most one year. *)
Definition YearFromTime (t : Z) : Z :=
  let d := Day t in
  let y := 1970 + (400 * d) / 146097 in
  if DayFromYear (y + 1) <=? d then y + 1
  else if DayFromYear y <=? d then y
  else y - 1.

Definition InLeapYear (t : Z) : Z :=
  if DaysInYear (YearFromTime t) =? 366 then 1 else 0.

Definition DayWithinYear (t : Z) : Z := Day t - DayFromYear (YearFromTime t).

Definition MonthFromTime (t : Z) : Z :=
  let d := DayWithinYear t in
  let l := InLeapYear t in
  if d <? 31 then 0
  else if d <? 59 + l then 1
  else if d <? 90 + l then 2
  else if d <? 120 + l then 3
  else if d <? 151 + l then 4
  else if d <? 181 + l then 5
  else if d <? 212 + l then 6
  else if d <? 243 + l then 7
  else if d <? 273 + l then 8
  else if d <? 304 + l then 9
  else if d <? 334 + l then 10
  else 11.

(** Number of days of the year before the first day of month [m]. *)
Definition monthStart (m leap : Z) : Z :=
  if m =? 0 then 0
  else if m =? 1 then 31
  else if m =? 2 then 59 + leap
  else if m =? 3 then 90 + leap
  else if m =? 4 then 120 + leap
  else if m =? 5 then 151 + leap
  else if m =? 6 then 181 + leap
  else if m =? 7 then 212 + leap
  else if m =? 8 then 243 + leap
  else if m =? 9 then 273 + leap
  else if m =? 10 then 304 + leap
  else 334 + leap.

Definition DateFromTime (t : Z) : Z :=
  DayWithinYear t - monthStart (MonthFromTime t) (InLeapYear t) + 1.

Definition WeekDay (t : Z) : Z := (Day t + 4) mod 7.

Definition MakeTime (hour min sec ms : Z) : Z :=
  hour * 3600000 + min * 60000 + sec * 1000 + ms.

Definition MakeDay (year month date : Z) : Z :=
  let ym := year + month / 12 in
  let mn := month mod 12 in
  let leap := if DaysInYear ym =? 366 then 1 else 0 in
  DayFromYear ym + monthStart mn leap + date - 1.

Definition MakeDate (day time : Z) : Z := day * msPerDay + time.

(** *** Methods of [Date], in a zone [tza] milliseconds east of UTC *)
Section Zone.
Variable tza : Z.

Definition LocalTime (t : Z) : Z := t + tza.
Definition UTC (t : Z) : Z := t - tza.

Definition getFullYear (t : Z) : Z := YearFromTime (LocalTime t).
Definition getMonth (t : Z) : Z := MonthFromTime (LocalTime t).
Definition getDate (t : Z) : Z := DateFromTime (LocalTime t).
Definition getDay (t : Z) : Z := WeekDay (LocalTime t).

(** [d.setDate(dt)] *)
Definition setDate (t dt : Z) : Z :=
  let lt := LocalTime t in
  UTC (MakeDate (MakeDay (YearFromTime lt) (MonthFromTime lt) dt)
                (TimeWithinDay lt)).

(** [d.setHours(h, m, s, ms)] *)
Definition setHours (t h m s ms : Z) : Z :=
  UTC (MakeDate (Day (LocalTime t)) (MakeTime h m s ms)).

(** [new Date(year, month, date, h, m, s, ms)]; a year from 0 to 99 is
    read as 1900 + year. *)
Definition newDate (year month date h m s ms : Z) : Z :=
  let yr := if (0 <=? year) && (year <=? 99) then 1900 + year else year in
  UTC (MakeDate (MakeDay yr month date) (MakeTime h m s ms)).
End Zone.

(** *** [toISOString] and the date-only form of [Date.parse] *)

Definition digitChar (n : Z) : ascii := ascii_of_nat (48 + Z.to_nat (n mod 10)).

Fixpoint digits (width : nat) (n : Z) : string :=
  match width with
  | O => EmptyString
  | S w => digits w (n / 10) +:+ String (digitChar n) EmptyString
  end.

Definition yearString (y : Z) : string :=
  if (0 <=? y) && (y <=? 9999) then digits 4 y
  else if y <? 0 then "-" +:+ digits 6 (- y)
  else "+" +:+ digits 6 y.

(** [d.toISOString().split('T')[0]]: the calendar date of the time value
    itself, that is, in UTC. *)
Definition isoDatePart (t : Z) : string :=
  yearString (YearFromTime t) +:+ "-" +:+ digits 2 (MonthFromTime t + 1)
    +:+ "-" +:+ digits 2 (DateFromTime t).

Definition digitVal (c : ascii) : option Z :=
  let n := nat_of_ascii c in
  if (48 <=? n)%nat && (n <=? 57)%nat then Some (Z.of_nat n - 48) else None.

Fixpoint number (acc : Z) (s : string) : option Z :=
  match s with
  | EmptyString => Some acc
  | String c s' =>
      match digitVal c with
      | Some d => number (10 * acc + d) s'
      | None => None
      end
  end.

Definition DaysInMonth (y m : Z) : Z :=
  if m =? 1 then (if DaysInYear y =? 366 then 29 else 28)
  else if (m =? 3) || (m =? 5) || (m =? 8) || (m =? 10) then 30
  else 31.

Definition fields (y m d : option Z) : option Z :=
  match y, m, d with
  | Some y, Some m, Some d =>
      if (1 <=? m) && (m <=? 12) && (1 <=? d) && (d <=? DaysInMonth y (m - 1))
      then Some (MakeDate (MakeDay y (m - 1) d) 0)
      else None
  | _, _, _ => None
  end.

(** [new Date(s)] for a date-only string [YYYY-MM-DD] (or with an expanded
    year, [+YYYYYY-MM-DD]): midnight UTC of that date; [None] is the
    invalid date. The engine passes it the strings of [toISOString] only. *)
Definition parseDate (s : string) : option Z :=
  match s with
  | String sg rest =>
      if Ascii.eqb sg "+" || Ascii.eqb sg "-" then
        if (String.length rest =? 12)%nat
           && Ascii.eqb (default " "%char (String.get 6 rest)) "-"
           && Ascii.eqb (default " "%char (String.get 9 rest)) "-"
        then fields (option_map (fun y => if Ascii.eqb sg "-" then - y else y)
                                (number 0 (String.substring 0 6 rest)))
                    (number 0 (String.substring 7 2 rest))
                    (number 0 (String.substring 10 2 rest))
        else None
      else
        if (String.length s =? 10)%nat
           && Ascii.eqb (default " "%char (String.get 4 s)) "-"
           && Ascii.eqb (default " "%char (String.get 7 s)) "-"
        then fields (number 0 (String.substring 0 4 s))
                    (number 0 (String.substring 5 2 s))
                    (number 0 (String.substring 8 2 s))
        else None
  | EmptyString => None
  end.

End JsDate.

Import JsDate.


(** ** Numbers: the binary64 arithmetic behind the progress percentage *)

Module JsNumber.

Definition prec : Z := 53.
Definition emax : Z := 1024.

(** The [Number] nearest to an integer. *)
Definition ofZ (z : Z) : spec_float := binary_normalize prec emax z 0 false.

Definition div (x y : spec_float) : spec_float := SFdiv prec emax x y.
Definition mul (x y : spec_float) : spec_float := SFmul prec emax x y.

(** An integral [Number], or one of the three values that are not. The
    sign of a zero is not kept. *)
Inductive integral : Type :=
| NaN
| PosInf
| NegInf
| Int (z : Z).

(** [Math.round(x)]: the integer nearest to [x], the upper one of two
    equally near, that is, the floor of [x + 1/2]. *)
Definition Math_round (x : spec_float) : integral :=
  match x with
  | S754_nan => NaN
  | S754_infinity false => PosInf
  | S754_infinity true => NegInf
  | S754_zero _ => Int 0
  | S754_finite s m e =>
      let n := if s then Z.neg m else Z.pos m in
      Int (if 0 <=? e then n * 2 ^ e else (2 * n + 2 ^ (- e)) / 2 ^ (- e + 1))
  end.

(** [Math.floor(x)] *)
Definition Math_floor (x : spec_float) : integral :=
  match x with
  | S754_nan => NaN
  | S754_infinity false => PosInf
  | S754_infinity true => NegInf
  | S754_zero _ => Int 0
  | S754_finite s m e =>
      let n := if s then Z.neg m else Z.pos m in
      Int (if 0 <=? e then n * 2 ^ e else n / 2 ^ (- e))
  end.

(** [Math.min(a, x)] for an integer [a] *)
Definition Math_min (a : Z) (x : integral) : integral :=
  match x with
  | NaN => NaN
  | PosInf => Int a
  | NegInf => NegInf
  | Int z => Int (Z.min a z)
  end.

(** [Math.min(100, Math.round((current / target) * 100))] *)
Definition percentage (current target : Z) : integral :=
  Math_min 100 (Math_round (mul (div (ofZ current) (ofZ target)) (ofZ 100))).

End JsNumber.

Import JsNumber.

(** ** Date helper functions (main.js and the goal engine define the same) *)

Section DateHelpers.
Variable tza : Z.

(** [getISODate(date)]: [d.toISOString().split('T')[0]] *)
Definition getISODate (date : Z) : string := isoDatePart date.

Definition getDayStart (date : Z) : Z := setHours tza date 0 0 0 0.

Definition getDayEnd (date : Z) : Z := setHours tza date 23 59 59 999.

Definition getWeekStart (date : Z) : Z :=
  let d := date in
  let day := getDay tza d in
  let diff := getDate tza d - day + (if day =? 0 then -6 else 1) in
  let d := setDate tza d diff in
  let d := setHours tza d 0 0 0 0 in
  d.

Definition getWeekEnd (date : Z) : Z :=
  let start := getWeekStart date in
  let end_ := start in
  let end_ := setDate tza end_ (getDate tza end_ + 6) in
  let end_ := setHours tza end_ 23 59 59 999 in
  end_.

Definition getMonthStart (date : Z) : Z :=
  newDate tza (getFullYear tza date) (getMonth tza date) 1 0 0 0 0.

Definition getMonthEnd (date : Z) : Z :=
  newDate tza (getFullYear tza date) (getMonth tza date + 1) 0 23 59 59 999.

Definition getYearStart (date : Z) : Z :=
  newDate tza (getFullYear tza date) 0 1 0 0 0 0.

Definition getYearEnd (date : Z) : Z :=
  newDate tza (getFullYear tza date) 11 31 23 59 59 999.

(** [getPeriodRange(period, date)]: the pair [(start, end)] *)
Definition getPeriodRange (period : string) (date : Z) : Z * Z :=
  if String.eqb period "day" then (getDayStart date, getDayEnd date)
  else if String.eqb period "week" then (getWeekStart date, getWeekEnd date)
  else if String.eqb period "month" then (getMonthStart date, getMonthEnd date)
  else if String.eqb period "year" then (getYearStart date, getYearEnd date)
  else (getDayStart date, getDayEnd date).
End DateHelpers.

(** ** Data model *)

(** A recorded interval; [end_ = None] is [end: null], a running timer. *)
Record TimeEntry : Type := mkEntry {
  start : Z;
  end_ : option Z
}.

(** An activity, with the fields the aggregators read. [entries] and
    [checks] are [None] when the property is missing. *)
Record Activity : Type := mkActivity {
  a_type : string;
  entries : option (list TimeEntry);
  checks : option (gmap string bool)
}.

(** [goal.config]; a missing [activityId] is [None]. *)
Record GoalConfig : Type := mkConfig {
  activityId : option string;
  period : string;
  targetMinutes : Z;
  targetCount : Z;
  targetDays : Z
}.

(** A goal; [config = None] is a goal object without a [config]. *)
Record Goal : Type := mkGoal {
  g_type : string;
  config : option GoalConfig
}.

Record EvaluationResult : Type := mkResult {
  achieved : bool;
  current : Z;
  target : Z;
  progressPercentage : integral;
  unit : string
}.

(** How a call ends: with a value, with the [TypeError] of reading a
    property of [undefined], or not within the steps granted to its loops. *)
Inductive outcome (A : Type) : Type :=
| Returns (a : A)
| TypeError
| OutOfFuel.
Arguments Returns {A} a.
Arguments TypeError {A}.
Arguments OutOfFuel {A}.

#[global] Instance outcome_bind : MBind outcome := fun A B k x =>
  match x with
  | Returns a => k a
  | TypeError => TypeError
  | OutOfFuel => OutOfFuel
  end.

(** [checks[dateStr] === true] *)
Definition isChecked (checks : gmap string bool) (dateStr : string) : bool :=
  match checks !! dateStr with
  | Some true => true
  | _ => false
  end.

(** The body shared by the reducer of main.js and the inner loop of the goal
    engine: what one entry adds to the running total. *)
Definition addOverlap (rangeStart rangeEnd total : Z) (entry : TimeEntry) : Z :=
  match end_ entry with
  | None => total
  | Some entryEnd =>
      let entryStart := start entry in
      if (entryEnd <? rangeStart) || (entryStart >? rangeEnd) then total
      else
        let overlapStart := Z.max entryStart rangeStart in
        let overlapEnd := Z.min entryEnd rangeEnd in
        total + (overlapEnd - overlapStart)
  end.

(** ** The aggregators of the main process (main.js) *)

Module Main.
Section Main.
Variable tza : Z.

(** [calculateTimeInRange(entries, rangeStart, rangeEnd)] *)
Definition calculateTimeInRange (entries : option (list TimeEntry))
    (rangeStart rangeEnd : Z) : Z :=
  match entries with
  | None => 0
  | Some [] => 0
  | Some es => fold_left (addOverlap rangeStart rangeEnd) es 0
  end.

Record CheckCount : Type := mkCount { checked : Z; total : Z }.

(** The [while (current <= endDate)] loop of [countChecksInRange]. *)
Fixpoint countLoop (fuel : nat) (checks : gmap string bool)
    (current endDate checked total : Z) : outcome CheckCount :=
  match fuel with
  | O => OutOfFuel
  | S fuel' =>
      if current <=? endDate then
        let dateStr := getISODate current in
        let total := total + 1 in
        let checked := if isChecked checks dateStr then checked + 1 else checked in
        let current := setDate tza current (getDate tza current + 1) in
        countLoop fuel' checks current endDate checked total
      else Returns (mkCount checked total)
  end.

(** [countChecksInRange(checks, startDate, endDate)] *)
Definition countChecksInRange (fuel : nat) (checks : option (gmap string bool))
    (startDate endDate : Z) : outcome CheckCount :=
  match checks with
  | None => Returns (mkCount 0 0)
  | Some c => countLoop fuel c startDate endDate 0 0
  end.
End Main.
End Main.

(** ** The goal evaluation engine *)

Module Goals.
Section Goals.
Variable tza : Z.

(** [Object.keys(activities)]; the aggregators below do not depend on the
    order of the keys. *)
Definition keys (activities : gmap string Activity) : list string :=
  map fst (map_to_list activities).

(** [calculateTimeInRange(activities, activityIds, rangeStart, rangeEnd)] *)
Definition calculateTimeInRange (activities : gmap string Activity)
    (activityIds : list string) (rangeStart rangeEnd : Z) : Z :=
  let idsToCheck :=
    match activityIds with
    | [] => keys activities
    | _ => activityIds
    end in
  fold_left (fun totalMs id =>
    match activities !! id with
    | None => totalMs
    | Some activity =>
        if negb (String.eqb (a_type activity) "time") then totalMs
        else match entries activity with
             | None => totalMs
             | Some es => fold_left (addOverlap rangeStart rangeEnd) es totalMs
             end
    end) idsToCheck 0.

(** The [while (current <= endDate)] loop of [countChecksInRange]. *)
Fixpoint countLoop (fuel : nat) (checks : gmap string bool)
    (current endDate count : Z) : outcome Z :=
  match fuel with
  | O => OutOfFuel
  | S fuel' =>
      if current <=? endDate then
        let dateStr := getISODate current in
        let count := if isChecked checks dateStr then count + 1 else count in
        let current := setDate tza current (getDate tza current + 1) in
        countLoop fuel' checks current endDate count
      else Returns count
  end.

(** The [for (const id of idsToCheck)] loop of [countChecksInRange]. *)
Fixpoint countIds (fuel : nat) (activities : gmap string Activity)
    (ids : list string) (startDate endDate count : Z) : outcome Z :=
  match ids with
  | [] => Returns count
  | id :: ids' =>
      match activities !! id with
      | None => countIds fuel activities ids' startDate endDate count
      | Some activity =>
          if negb (String.eqb (a_type activity) "check")
          then countIds fuel activities ids' startDate endDate count
          else match checks activity with
               | None => countIds fuel activities ids' startDate endDate count
               | Some c =>
                   count' ← countLoop fuel c startDate endDate count;
                   countIds fuel activities ids' startDate endDate count'
               end
      end
  end.

(** [countChecksInRange(activities, activityIds, startDate, endDate)] *)
Definition countChecksInRange (fuel : nat) (activities : gmap string Activity)
    (activityIds : list string) (startDate endDate : Z) : outcome Z :=
  let idsToCheck :=
    match activityIds with
    | [] => List.filter (fun id =>
              match activities !! id with
              | Some a => String.eqb (a_type a) "check"
              | None => false
              end) (keys activities)
    | _ => activityIds
    end in
  countIds fuel activities idsToCheck startDate endDate 0.

(** [dayHasActivity(activities, activityIds, dateStr, streakType)]; a
    comparison with the time value of an invalid date is false. *)
Definition dayHasActivity (activities : gmap string Activity)
    (activityIds : list string) (dateStr : string) (streakType : string) : bool :=
  let date := parseDate dateStr in
  let dayStart := option_map (getDayStart tza) date in
  let dayEnd := option_map (getDayEnd tza) date in
  let idsToCheck :=
    match activityIds with
    | [] => keys activities
    | _ => activityIds
    end in
  if String.eqb streakType "time" then
    existsb (fun id =>
      match activities !! id with
      | None => false
      | Some activity =>
          if negb (String.eqb (a_type activity) "time") then false
          else match entries activity with
               | None => false
               | Some es =>
                   existsb (fun entry =>
                     match end_ entry, dayStart, dayEnd with
                     | Some entryEnd, Some ds, Some de =>
                         (ds <=? entryEnd) && (start entry <=? de)
                     | _, _, _ => false
                     end) es
               end
      end) idsToCheck
  else
    existsb (fun id =>
      match activities !! id with
      | None => false
      | Some activity =>
          if negb (String.eqb (a_type activity) "check") then false
          else match checks activity with
               | None => false
               | Some c => isChecked c dateStr
               end
      end) idsToCheck.

(** The [while (true)] loop of [calculateStreak]; [today] is the instant
    the function was called at. *)
Fixpoint streakLoop (fuel : nat) (activities : gmap string Activity)
    (activityIds : list string) (streakType : string)
    (today current streak : Z) : outcome Z :=
  match fuel with
  | O => OutOfFuel
  | S fuel' =>
      let dateStr := getISODate current in
      if dayHasActivity activities activityIds dateStr streakType then
        let streak := streak + 1 in
        let current := setDate tza current (getDate tza current - 1) in
        let daysDiff := (today - current) / (1000 * 60 * 60 * 24) in
        if daysDiff >? 365 then Returns streak
        else streakLoop fuel' activities activityIds streakType today current streak
      else
        if streak =? 0 then
          let current := setDate tza current (getDate tza current - 1) in
          let yesterdayStr := getISODate current in
          if dayHasActivity activities activityIds yesterdayStr streakType then
            let streak := streak + 1 in
            let current := setDate tza current (getDate tza current - 1) in
            streakLoop fuel' activities activityIds streakType today current streak
          else Returns streak
        else Returns streak
  end.

(** [calculateStreak(activities, activityIds, streakType)], called at the
    instant [now]. *)
Definition calculateStreak (fuel : nat) (now : Z) (activities : gmap string Activity)
    (activityIds : list string) (streakType : string) : outcome Z :=
  let today := now in
  streakLoop fuel activities activityIds streakType today today 0.

(** [config.activityId ? [config.activityId] : []]; the empty string is
    falsy as a missing id is. *)
Definition idList (cfg : GoalConfig) : list string :=
  match activityId cfg with
  | Some id => if String.eqb id "" then [] else [id]
  | None => []
  end.

(** [goal.config], whose properties the evaluators read. *)
Definition configOf (goal : Goal) : outcome GoalConfig :=
  match config goal with
  | Some cfg => Returns cfg
  | None => TypeError
  end.

(** [evaluateTimeGoal(goal, activities)]; [Math.floor(totalMs / 60000)] of
    an integer is the floor quotient. *)
Definition evaluateTimeGoal (now : Z) (goal : Goal)
    (activities : gmap string Activity) : outcome EvaluationResult :=
  cfg ← configOf goal;
  let '(start, end_) := getPeriodRange tza (period cfg) now in
  let activityIds := idList cfg in
  let totalMs := calculateTimeInRange activities activityIds start end_ in
  let currentMinutes := totalMs / 60000 in
  let targetMinutes := targetMinutes cfg in
  let progressPercentage :=
    Math_min 100 (Math_round (mul (div (ofZ currentMinutes) (ofZ targetMinutes)) (ofZ 100))) in
  Returns {| achieved := currentMinutes >=? targetMinutes;
             current := currentMinutes;
             target := targetMinutes;
             progressPercentage := progressPercentage;
             unit := "minutes" |}.

(** [evaluateCountGoal(goal, activities)] *)
Definition evaluateCountGoal (fuel : nat) (now : Z) (goal : Goal)
    (activities : gmap string Activity) : outcome EvaluationResult :=
  cfg ← configOf goal;
  let '(start, end_) := getPeriodRange tza (period cfg) now in
  let activityIds := idList cfg in
  currentCount ← countChecksInRange fuel activities activityIds start end_;
  let targetCount := targetCount cfg in
  let progressPercentage :=
    Math_min 100 (Math_round (mul (div (ofZ currentCount) (ofZ targetCount)) (ofZ 100))) in
  Returns {| achieved := currentCount >=? targetCount;
             current := currentCount;
             target := targetCount;
             progressPercentage := progressPercentage;
             unit := "completions" |}.

(** [evaluateStreakGoal(goal, activities)] *)
Definition evaluateStreakGoal (fuel : nat) (now : Z) (goal : Goal)
    (activities : gmap string Activity) : outcome EvaluationResult :=
  cfg ← configOf goal;
  let activityIds := idList cfg in
  let activity :=
    match idList cfg with
    | id :: _ => activities !! id
    | [] => None
    end in
  let streakType :=
    match activity with
    | Some a => a_type a
    | None => "check"
    end in
  currentStreak ← calculateStreak fuel now activities activityIds streakType;
  let targetStreak := targetDays cfg in
  let progressPercentage :=
    Math_min 100 (Math_round (mul (div (ofZ currentStreak) (ofZ targetStreak)) (ofZ 100))) in
  Returns {| achieved := currentStreak >=? targetStreak;
             current := currentStreak;
             target := targetStreak;
             progressPercentage := progressPercentage;
             unit := "days" |}.

(** [evaluateGoal(goal, activities)] *)
Definition evaluateGoal (fuel : nat) (now : Z) (goal : Goal)
    (activities : gmap string Activity) : outcome EvaluationResult :=
  if String.eqb (g_type goal) "time" then evaluateTimeGoal now goal activities
  else if String.eqb (g_type goal) "count" then evaluateCountGoal fuel now goal activities
  else if String.eqb (g_type goal) "streak" then evaluateStreakGoal fuel now goal activities
  else Returns {| achieved := false;
                  current := 0;
                  target := 0;
                  progressPercentage := Int 0;
                  unit := "unknown" |}.
End Goals.
End Goals.

(** ** Vocabulary of the statements *)

(** A value that is a number (not NaN) of sign [s]; a zero counts for its
    own sign. *)
Definition signed (s : bool) (x : spec_float) : Prop :=
  match x with
  | S754_nan => False
  | S754_zero s' | S754_infinity s' | S754_finite s' _ _ => s' = s
  end.

Definition finite (x : spec_float) : Prop :=
  match x with
  | S754_finite _ _ _ => True
  | _ => False
  end.

(** An integral [Number] that every integer below 2^53 in absolute value
    is: the range in which the engine's counts live. *)
Definition safe (z : Z) : Prop := - 2 ^ 53 < z < 2 ^ 53.

(** The test by which an entry is skipped as lying outside the range. *)
Definition skipTest (rangeStart rangeEnd entryStart entryEnd : Z) : bool :=
  (entryEnd <? rangeStart) || (entryStart >? rangeEnd).

(** A closed entry that the skip test lets through. *)
Definition counted (rangeStart rangeEnd : Z) (entry : TimeEntry) : bool :=
  match end_ entry with
  | Some entryEnd => negb (skipTest rangeStart rangeEnd (start entry) entryEnd)
  | None => false
  end.

(** The term such an entry is accumulated with. *)
Definition overlapTerm (rangeStart rangeEnd : Z) (entry : TimeEntry) : Z :=
  match end_ entry with
  | Some entryEnd => Z.min entryEnd rangeEnd - Z.max (start entry) rangeStart
  | None => 0
  end.

Definition sumZ (l : list Z) : Z := foldr Z.add 0 l.

(** The sum of overlaps as the specification words it: over every counted
    entry, the clipped end minus the clipped start. *)
Definition sumOverlap (entries : list TimeEntry) (rangeStart rangeEnd : Z) : Z :=
  sumZ (map (overlapTerm rangeStart rangeEnd) (List.filter (counted rangeStart rangeEnd) entries)).

(** An entry that does not end before it starts. *)
Definition ordered (entry : TimeEntry) : Prop :=
  match end_ entry with
  | Some entryEnd => start entry <= entryEnd
  | None => True
  end.

(** What an activity of the engine's snapshot adds to a time total. *)
Definition activityTime (activities : gmap string Activity)
    (rangeStart rangeEnd : Z) (id : string) : Z :=
  match activities !! id with
  | Some a =>
      if String.eqb (a_type a) "time"
      then Main.calculateTimeInRange (entries a) rangeStart rangeEnd
      else 0
  | None => 0
  end.

(** The instants a day-by-day walk from [startDate] visits up to [endDate]. *)
Definition iterations (startDate endDate : Z) : nat :=
  if startDate <=? endDate then Z.to_nat ((endDate - startDate) / msPerDay + 1) else O.

Fixpoint walk (n : nat) (t : Z) : list Z :=
  match n with
  | O => []
  | S n' => t :: walk n' (t + msPerDay)
  end.

Definition visited (startDate endDate : Z) : list Z :=
  walk (iterations startDate endDate) startDate.

(** The number of visited instants whose date string, as [dateString]
    renders it, is checked. *)
Definition countChecked (dateString : Z -> string) (checks : gmap string bool)
    (startDate endDate : Z) : Z :=
  Z.of_nat (length (List.filter (fun t => isChecked checks (dateString t))
                                (visited startDate endDate))).

(** The local calendar date of an instant, as [YYYY-MM-DD]. *)
Definition localDateString (tza : Z) (t : Z) : string := isoDatePart (LocalTime tza t).

(** The number of leading days, among [cap] days from day [j] on, that
    qualify one after the other. *)
Fixpoint runLength (q : Z -> bool) (j : Z) (cap : nat) : Z :=
  match cap with
  | O => 0
  | S cap' => if q j then 1 + runLength q (j + 1) cap' else 0
  end.

(** Whether the day [k] days before [today] has activity, as the streak
    walk asks it. *)
Definition qualifies (tza : Z) (activities : gmap string Activity)
    (activityIds : list string) (streakType : string) (today : Z) (k : Z) : bool :=
  Goals.dayHasActivity tza activities activityIds
    (getISODate (today - k * msPerDay)) streakType.

(** The minutes a time goal counts: the floor of the milliseconds in the
    period over 60000. *)
Definition minutesTracked (tza now : Z) (activities : gmap string Activity)
    (cfg : GoalConfig) : Z :=
  Goals.calculateTimeInRange activities (Goals.idList cfg)
    (fst (getPeriodRange tza (period cfg) now))
    (snd (getPeriodRange tza (period cfg) now)) / 60000.

(** The neutral result of an unknown goal type. *)
Definition neutral : EvaluationResult :=
  {| achieved := false; current := 0; target := 0;
     progressPercentage := Int 0; unit := "unknown" |}.

(** ** All goals, and the vocabulary of their edge cases *)

(** One turn of the loop of [evaluateAllGoals]: [results[goalId] =
    evaluateGoal(goal, activities)]; an evaluation that throws ends the
    loop. *)
Definition evaluateInto (tza : Z) (fuel : nat) (now : Z) (activities : gmap string Activity)
    (results : outcome (gmap string EvaluationResult)) (entry : string * Goal)
    : outcome (gmap string EvaluationResult) :=
  results ← results;
  r ← Goals.evaluateGoal tza fuel now (snd entry) activities;
  Returns (<[fst entry := r]> results).

(** [evaluateAllGoals(goals, activities)]: the loop over
    [Object.entries(goals)]. *)
Definition evaluateAllGoals (tza : Z) (fuel : nat) (now : Z) (goals : gmap string Goal)
    (activities : gmap string Activity) : outcome (gmap string EvaluationResult) :=
  fold_left (evaluateInto tza fuel now activities) (map_to_list goals) (Returns ∅).

(** What a check activity of the snapshot adds to a count. *)
Definition activityChecks (activities : gmap string Activity)
    (startDate endDate : Z) (id : string) : Z :=
  match activities !! id with
  | Some a =>
      if String.eqb (a_type a) "check"
      then match checks a with
           | Some c => countChecked getISODate c startDate endDate
           | None => 0
           end
      else 0
  | None => 0
  end.

(** An activity the time aggregator does not count: missing, or not of
    type time, or without entries. *)
Definition untimed (activities : gmap string Activity) (id : string) : Prop :=
  match activities !! id with
  | None => True
  | Some a => a_type a <> "time" \/ entries a = None \/ entries a = Some []
  end.

(** An activity the check counter does not count. *)
Definition unchecked (activities : gmap string Activity) (id : string) : Prop :=
  match activities !! id with
  | None => True
  | Some a => a_type a <> "check" \/ checks a = None \/ checks a = Some ∅
  end.

(** ** The store and the request handlers of the main process *)

Module Store.

(** An activity as the data file holds it. *)
Record StoredActivity : Type := mkStored {
  s_id : string;
  s_name : string;
  s_type : string;
  s_entries : option (list TimeEntry);
  s_checks : option (gmap string bool)
}.

(** The fields of a stored activity that the aggregators read. *)
Definition view (a : StoredActivity) : Activity :=
  mkActivity (s_type a) (s_entries a) (s_checks a).

(** What a handler answers; a field the answer does not have is [None].
    [newId] is the [id] of the answer of create-activity. *)
Record reply : Type := mkReply {
  success : bool;
  error : option string;
  data : option (gmap string StoredActivity);
  newId : option string;
  checked : option bool
}.

Definition failure (message : string) : reply :=
  mkReply false (Some message) None None None.

Definition succeeded (d : gmap string StoredActivity) : reply :=
  mkReply true None (Some d) None None.

(** [isActivityRunning(activity)] *)
Definition isActivityRunning (activity : option StoredActivity) : bool :=
  match activity with
  | None => false
  | Some a =>
      if negb (String.eqb (s_type a) "time") then false
      else match s_entries a with
           | None => false
           | Some es =>
               match last es with
               | None => false
               | Some lastEntry =>
                   match end_ lastEntry with
                   | None => true
                   | Some _ => false
                   end
               end
           end
  end.

(** The handlers. Each loads the data, and saves it when it succeeds: the
    second component is the data file after the call. [id] is the result of
    [generateId()] and [now] that of [Date.now()]. *)

Definition createActivity (id name type : string) (d : gmap string StoredActivity)
    : outcome (reply * gmap string StoredActivity) :=
  let d' := <[id := mkStored id name type
                       (if String.eqb type "time" then Some [] else None)
                       (if String.eqb type "check" then Some ∅ else None)]> d in
  Returns (mkReply true None (Some d') (Some id) None, d').

Definition startActivity (now : Z) (activityId : string) (d : gmap string StoredActivity)
    : outcome (reply * gmap string StoredActivity) :=
  match d !! activityId with
  | None => Returns (failure "Activity not found", d)
  | Some activity =>
      if negb (String.eqb (s_type activity) "time")
      then Returns (failure "Not a time-based activity", d)
      else if isActivityRunning (Some activity)
      then Returns (failure "Activity already running", d)
      else match s_entries activity with
           | None => TypeError
           | Some es =>
               let activity' :=
                 mkStored (s_id activity) (s_name activity) (s_type activity)
                          (Some (es ++ [mkEntry now None])) (s_checks activity) in
               let d' := <[activityId := activity']> d in
               Returns (succeeded d', d')
           end
  end.

Definition stopActivity (now : Z) (activityId : string) (d : gmap string StoredActivity)
    : outcome (reply * gmap string StoredActivity) :=
  match d !! activityId with
  | None => Returns (failure "Activity not found", d)
  | Some activity =>
      if negb (String.eqb (s_type activity) "time")
      then Returns (failure "Not a time-based activity", d)
      else if negb (isActivityRunning (Some activity))
      then Returns (failure "Activity not running", d)
      else match s_entries activity with
           | None => TypeError
           | Some es =>
               match last es with
               | None => TypeError
               | Some lastEntry =>
                   let es' := removelast es ++ [mkEntry (start lastEntry) (Some now)] in
                   let activity' :=
                     mkStored (s_id activity) (s_name activity) (s_type activity)
                              (Some es') (s_checks activity) in
                   let d' := <[activityId := activity']> d in
                   Returns (succeeded d', d')
               end
           end
  end.

(** [dateStr || getISODate()] *)
Definition dateOrToday (now : Z) (dateStr : option string) : string :=
  match dateStr with
  | Some s => if String.eqb s "" then getISODate now else s
  | None => getISODate now
  end.

Definition toggleCheck (now : Z) (activityId : string) (dateStr : option string)
    (d : gmap string StoredActivity) : outcome (reply * gmap string StoredActivity) :=
  match d !! activityId with
  | None => Returns (failure "Activity not found", d)
  | Some activity =>
      if negb (String.eqb (s_type activity) "check")
      then Returns (failure "Not a check-based activity", d)
      else
        let date := dateOrToday now dateStr in
        let checks := default ∅ (s_checks activity) in
        let value := negb (isChecked checks date) in
        let activity' :=
          mkStored (s_id activity) (s_name activity) (s_type activity)
                   (s_entries activity) (Some (<[date := value]> checks)) in
        let d' := <[activityId := activity']> d in
        Returns (mkReply true None (Some d') None (Some value), d')
  end.

Definition renameActivity (activityId newName : string) (d : gmap string StoredActivity)
    : outcome (reply * gmap string StoredActivity) :=
  match d !! activityId with
  | None => Returns (failure "Activity not found", d)
  | Some activity =>
      let activity' :=
        mkStored (s_id activity) newName (s_type activity)
                 (s_entries activity) (s_checks activity) in
      let d' := <[activityId := activity']> d in
      Returns (succeeded d', d')
  end.

Definition deleteActivity (activityId : string) (d : gmap string StoredActivity)
    : outcome (reply * gmap string StoredActivity) :=
  match d !! activityId with
  | None => Returns (failure "Activity not found", d)
  | Some _ =>
      let d' := delete activityId d in
      Returns (succeeded d', d')
  end.

Definition resetActivity (activityId : string) (d : gmap string StoredActivity)
    : outcome (reply * gmap string StoredActivity) :=
  match d !! activityId with
  | None => Returns (failure "Activity not found", d)
  | Some activity =>
      let activity' :=
        if String.eqb (s_type activity) "time"
        then mkStored (s_id activity) (s_name activity) (s_type activity)
                      (Some []) (s_checks activity)
        else mkStored (s_id activity) (s_name activity) (s_type activity)
                      (s_entries activity) (Some ∅) in
      let d' := <[activityId := activity']> d in
      Returns (succeeded d', d')
  end.

(** A request to the main process, with what the handler reads from the
    environment. *)
Inductive request : Type :=
| Create (id name type : string)
| Start (now : Z) (activityId : string)
| Stop (now : Z) (activityId : string)
| Toggle (now : Z) (activityId : string) (dateStr : option string)
| Rename (activityId newName : string)
| Delete (activityId : string)
| Reset (activityId : string).

Definition handle (req : request) (d : gmap string StoredActivity)
    : outcome (reply * gmap string StoredActivity) :=
  match req with
  | Create id name type => createActivity id name type d
  | Start now activityId => startActivity now activityId d
  | Stop now activityId => stopActivity now activityId d
  | Toggle now activityId dateStr => toggleCheck now activityId dateStr d
  | Rename activityId newName => renameActivity activityId newName d
  | Delete activityId => deleteActivity activityId d
  | Reset activityId => resetActivity activityId d
  end.

(** The activity a request is about. *)
Definition subject (req : request) : string :=
  match req with
  | Create id _ _ => id
  | Start _ activityId | Stop _ activityId | Toggle _ activityId _
  | Rename activityId _ | Delete activityId | Reset activityId => activityId
  end.

(** The data file after a sequence of requests. *)
Fixpoint run (reqs : list request) (d : gmap string StoredActivity)
    : outcome (gmap string StoredActivity) :=
  match reqs with
  | [] => Returns d
  | req :: reqs' => rd ← handle req d; run reqs' (snd rd)
  end.

(** An entry that has been stopped. *)
Definition closed (e : TimeEntry) : Prop := end_ e <> None.

(** At most one entry of the activity is open, and it is the last one. *)
Definition oneTimer (a : StoredActivity) : Prop :=
  match s_entries a with
  | Some es => Forall closed (removelast es)
  | None => True
  end.

(** An activity of type time has a list of entries. *)
Definition hasEntries (a : StoredActivity) : Prop :=
  s_type a = "time" -> s_entries a <> None.

Definition consistent (d : gmap string StoredActivity) : Prop :=
  forall id a, d !! id = Some a -> oneTimer a /\ hasEntries a.

(** An entry whose time stamps are not after [T] and in order. *)
Definition stamped (T : Z) (e : TimeEntry) : Prop :=
  start e <= T /\ match end_ e with
                  | Some entryEnd => start e <= entryEnd /\ entryEnd <= T
                  | None => True
                  end.

Definition stampedStore (T : Z) (d : gmap string StoredActivity) : Prop :=
  forall id a es, d !! id = Some a -> s_entries a = Some es -> Forall (stamped T) es.

(** The reading of [Date.now()] that a request writes into an entry. *)
Definition clock (req : request) : option Z :=
  match req with
  | Start now _ | Stop now _ => Some now
  | _ => None
  end.

(** The clock readings of the requests do not decrease, from [T] on. *)
Fixpoint timely (T : Z) (reqs : list request) : Prop :=
  match reqs with
  | [] => True
  | req :: reqs' =>
      match clock req with
      | Some now => T <= now /\ timely now reqs'
      | None => timely T reqs'
      end
  end.

End Store.

Import Store.

(** ** The daily progress of the main process *)

(** What [getDailyProgress] reports of one activity: of an activity of type
    time its [time] and whether it is [running], of any other one whether
    it is [checked]. *)
Inductive DailyEntry : Type :=
| DailyTime (id name : string) (time : Z) (running : bool)
| DailyCheck (id name : string) (checked : bool).

Record DailyProgress : Type := mkDaily {
  dp_period : string;
  dp_date : string;
  dp_activities : gmap string DailyEntry
}.

(** [getDailyProgress(data, date)]: the loop over
    [Object.entries(data.activities)] fills one entry per activity, under
    its key. *)
Definition getDailyProgress (tza : Z) (d : gmap string StoredActivity) (date : Z)
    : DailyProgress :=
  let dayStart := getDayStart tza date in
  let dayEnd := getDayEnd tza date in
  let dateStr := getISODate date in
  mkDaily "day" dateStr
    (map_imap (fun id activity =>
       Some (if String.eqb (s_type activity) "time"
             then DailyTime id (s_name activity)
                    (Main.calculateTimeInRange (s_entries activity) dayStart dayEnd)
                    (isActivityRunning (Some activity))
             else DailyCheck id (s_name activity)
                    (match s_checks activity with
                     | Some c => isChecked c dateStr
                     | None => false
                     end))) d).

(** ** The renderer's helpers (main.js, renderer part) *)

Module Renderer.

(** [String(n)] of an integral [Number] below 10^21 in absolute value: its
    decimal digits. *)
Definition numberString (n : Z) : string := NilZero.string_of_int (Z.to_int n).

Fixpoint filler (c : ascii) (n : nat) : string :=
  match n with
  | O => EmptyString
  | S n' => String c (filler c n')
  end.

(** [s.padStart(targetLength, c)] for a filler of one character. *)
Definition padStart (targetLength : nat) (c : ascii) (s : string) : string :=
  filler c (targetLength - String.length s) +:+ s.

(** [if (ms < 0 || !ms) ms = 0], for an integral [ms]. *)
Definition orZero (ms : Z) : Z := if (ms <? 0) || (ms =? 0) then 0 else ms.

(** [formatTime(ms)]; [Math.floor] of the quotient of two integers is the
    floor quotient, and [%] is the remainder of the truncating division. *)
Definition formatTime (ms : Z) : string :=
  let ms := orZero ms in
  let totalMinutes := ms / 60000 in
  let hours := totalMinutes / 60 in
  let minutes := Z.rem totalMinutes 60 in
  numberString hours +:+ "h " +:+ numberString minutes +:+ "m".

(** [formatTimeLive(ms)] *)
Definition formatTimeLive (ms : Z) : string :=
  let ms := orZero ms in
  let totalSeconds := ms / 1000 in
  let hours := totalSeconds / 3600 in
  let minutes := Z.rem totalSeconds 3600 / 60 in
  let seconds := Z.rem totalSeconds 60 in
  padStart 2 "0" (numberString hours) +:+ ":" +:+ padStart 2 "0" (numberString minutes)
    +:+ ":" +:+ padStart 2 "0" (numberString seconds).

(** [formatTimeCompact(ms)] *)
Definition formatTimeCompact (ms : Z) : string :=
  let ms := orZero ms in
  let totalMinutes := ms / 60000 in
  let hours := totalMinutes / 60 in
  let minutes := Z.rem totalMinutes 60 in
  if hours >? 0 then
    numberString hours +:+ "h" +:+ (if minutes >? 0 then numberString minutes +:+ "m" else "")
  else numberString minutes +:+ "m".

(** [calculateTotalTime(entries)], called at the instant [now]:
    [entry.end || Date.now()] reads the clock for an entry whose end is
    null or 0. *)
Definition calculateTotalTime (now : Z) (entries : option (list TimeEntry)) : Z :=
  match entries with
  | None => 0
  | Some [] => 0
  | Some es =>
      fold_left (fun total entry =>
                   let end_ := match end_ entry with
                               | Some e => if e =? 0 then now else e
                               | None => now
                               end in
                   total + (end_ - start entry)) es 0
  end.

(** [Math.max(x, y)] and [Math.min(x, y)] on Numbers: NaN if one of them is,
    and the zero of positive sign is the greater zero. *)
Definition Math_max2 (x y : spec_float) : spec_float :=
  match SFcompare x y with
  | None => S754_nan
  | Some Lt => y
  | Some Gt => x
  | Some Eq => match x with S754_zero true => y | _ => x end
  end.

Definition Math_min2 (x y : spec_float) : spec_float :=
  match SFcompare x y with
  | None => S754_nan
  | Some Lt => x
  | Some Gt => y
  | Some Eq => match x with S754_zero false => y | _ => x end
  end.

(** [getGoalProgress(evaluation)]; [None] is a missing evaluation. *)
Definition getGoalProgress (evaluation : option EvaluationResult) : spec_float :=
  match evaluation with
  | None => S754_zero false
  | Some ev =>
      let progress := mul (div (ofZ (current ev)) (ofZ (target ev))) (ofZ 100) in
      Math_min2 (ofZ 100) (Math_max2 (S754_zero false) progress)
  end.

(** [x >= y] on Numbers. *)
Definition geNumber (x y : spec_float) : bool :=
  match SFcompare x y with
  | Some Gt | Some Eq => true
  | _ => false
  end.

(** [getGoalProgressClass(percentage)] *)
Definition getGoalProgressClass (percentage : spec_float) : string :=
  if geNumber percentage (ofZ 100) then "achieved"
  else if geNumber percentage (ofZ 50) then "in-progress"
  else "low".

(** [formatGoalCurrent(goal, evaluation)] *)
Definition formatGoalCurrent (goal : Goal) (evaluation : option EvaluationResult) : string :=
  match evaluation with
  | None => "0"
  | Some ev =>
      if String.eqb (g_type goal) "time" then formatTime (current ev * 60000)
      else numberString (current ev)
  end.

(** [formatGoalTarget(goal)]; reading a property of a missing [config]
    throws. *)
Definition formatGoalTarget (goal : Goal) : outcome string :=
  if String.eqb (g_type goal) "time" then
    cfg ← Goals.configOf goal; Returns (formatTime (targetMinutes cfg * 60000))
  else if String.eqb (g_type goal) "count" then
    cfg ← Goals.configOf goal; Returns (numberString (targetCount cfg) +:+ " completions")
  else if String.eqb (g_type goal) "streak" then
    cfg ← Goals.configOf goal; Returns (numberString (targetDays cfg) +:+ " days")
  else Returns "".

(** [d.setMonth(month)] and [d.setFullYear(year)], in the zone [tza]. *)
Definition setMonth (tza t month : Z) : Z :=
  let lt := LocalTime tza t in
  UTC tza (MakeDate (MakeDay (YearFromTime lt) month (DateFromTime lt)) (TimeWithinDay lt)).

Definition setFullYear (tza t year : Z) : Z :=
  let lt := LocalTime tza t in
  UTC tza (MakeDate (MakeDay year (MonthFromTime lt) (DateFromTime lt)) (TimeWithinDay lt)).

(** [navigatePeriod(direction)]: the new value of [currentDate]. *)
Definition navigatePeriod (tza : Z) (currentPeriod : string) (currentDate direction : Z) : Z :=
  if String.eqb currentPeriod "day" then
    setDate tza currentDate (getDate tza currentDate + direction)
  else if String.eqb currentPeriod "week" then
    setDate tza currentDate (getDate tza currentDate + direction * 7)
  else if String.eqb currentPeriod "month" then
    setMonth tza currentDate (getMonth tza currentDate + direction)
  else if String.eqb currentPeriod "year" then
    setFullYear tza currentDate (getFullYear tza currentDate + direction)
  else currentDate.

End Renderer.

Import Renderer.

(** A string of decimal digits only. *)
Definition isDigit (c : ascii) : bool :=
  (48 <=? Z.of_nat (nat_of_ascii c)) && (Z.of_nat (nat_of_ascii c) <=? 57).

Fixpoint allDigits (s : string) : bool :=
  match s with
  | EmptyString => true
  | String c s' => isDigit c && allDigits s'
  end.

(** The integer a string of digits, with an optional sign, denotes. *)
Definition decimalValue (s : string) : option Z :=
  option_map Z.of_int (NilZero.int_of_string s).

(** An entry that has not been stopped. *)
Definition isOpen (e : TimeEntry) : bool :=
  match end_ e with
  | None => true
  | Some _ => false
  end.

(** The time the open entries have been running for at the instant [now]. *)
Definition runningTime (now : Z) (es : list TimeEntry) : Z :=
  sumZ (map (fun e => now - start e) (List.filter isOpen es)).

(** ** Facts of the calendar arithmetic *)

Section DateFacts.

Lemma day_decomposition t : t = Day t * msPerDay + TimeWithinDay t.
Proof.
  unfold Day, TimeWithinDay. pose proof (Z.div_mod t msPerDay). unfold msPerDay in *. lia.
Qed.

Lemma TimeWithinDay_range t : 0 <= TimeWithinDay t < msPerDay.
Proof. unfold TimeWithinDay. apply Z.mod_pos_bound. reflexivity. Qed.

Lemma Day_shift t k : Day (t + k * msPerDay) = Day t + k.
Proof. unfold Day. rewrite Z.div_add by discriminate. reflexivity. Qed.

(** [YearFromTime] meets its definition in ECMA-262: the year whose first
    day is the last one not after [t]. *)
Lemma YearFromTime_spec t :
  DayFromYear (YearFromTime t) <= Day t < DayFromYear (YearFromTime t + 1).
Proof.
  unfold YearFromTime. generalize (Day t). intros d.
  destruct (Z.leb_spec (DayFromYear (1970 + 400 * d / 146097 + 1)) d) as [H1|H1].
  - split; [assumption|]. revert H1. unfold DayFromYear.
    Z.div_mod_to_equations. lia.
  - destruct (Z.leb_spec (DayFromYear (1970 + 400 * d / 146097)) d) as [H2|H2].
    + split; assumption.
    + replace (1970 + 400 * d / 146097 - 1 + 1) with (1970 + 400 * d / 146097) by lia.
      split; [|assumption]. revert H2. unfold DayFromYear.
      Z.div_mod_to_equations. lia.
Qed.

Lemma MonthFromTime_range t : 0 <= MonthFromTime t <= 11.
Proof.
  unfold MonthFromTime.
  repeat match goal with |- context [if ?b then _ else _] => destruct b end; lia.
Qed.

(** [MakeDay] inverts the decomposition of a time value into year, month
    and day of the month, also for a day of the month out of range. *)
Lemma MakeDay_of_time t k :
  MakeDay (YearFromTime t) (MonthFromTime t) (DateFromTime t + k) = Day t + k.
Proof.
  pose proof (MonthFromTime_range t) as Hm.
  unfold MakeDay.
  rewrite Z.div_small, Z.mod_small by lia.
  rewrite Z.add_0_r.
  unfold DateFromTime, DayWithinYear, InLeapYear. lia.
Qed.
End DateFacts.

Section ZoneFacts.
Variable tza : Z.

Lemma setDate_shift t k :
  setDate tza t (getDate tza t + k) = t + k * msPerDay.
Proof.
  unfold setDate, getDate, UTC, MakeDate.
  rewrite MakeDay_of_time.
  pose proof (day_decomposition (LocalTime tza t)) as H.
  unfold LocalTime in *. lia.
Qed.

Lemma setDate_next t : setDate tza t (getDate tza t + 1) = t + msPerDay.
Proof. rewrite setDate_shift. lia. Qed.

Lemma setDate_prev t : setDate tza t (getDate tza t - 1) = t - msPerDay.
Proof.
  replace (getDate tza t - 1) with (getDate tza t + -1) by lia.
  rewrite setDate_shift. lia.
Qed.

Lemma setHours_local t h m s ms :
  LocalTime tza (setHours tza t h m s ms)
  = MakeDate (Day (LocalTime tza t)) (MakeTime h m s ms).
Proof. unfold setHours, UTC, LocalTime. lia. Qed.

Lemma getDayStart_local t :
  LocalTime tza (getDayStart tza t) = Day (LocalTime tza t) * msPerDay.
Proof. unfold getDayStart. rewrite setHours_local. unfold MakeDate, MakeTime. lia. Qed.

Lemma getDayEnd_local t :
  LocalTime tza (getDayEnd tza t) = Day (LocalTime tza t) * msPerDay + (msPerDay - 1).
Proof. unfold getDayEnd. rewrite setHours_local. unfold MakeDate, MakeTime, msPerDay. lia. Qed.

Lemma getDayStart_le_End t : getDayStart tza t <= getDayEnd tza t.
Proof.
  pose proof (getDayStart_local t). pose proof (getDayEnd_local t).
  unfold LocalTime, msPerDay in *. lia.
Qed.

Lemma getDay_range t : 0 <= getDay tza t <= 6.
Proof.
  unfold getDay, WeekDay.
  pose proof (Z.mod_pos_bound (Day (LocalTime tza t) + 4) 7). lia.
Qed.

(** The week start is the local midnight that begins the day
    [(getDay + 6) mod 7] days before the day of [date]. *)
Lemma getWeekStart_local t :
  LocalTime tza (getWeekStart tza t)
  = (Day (LocalTime tza t) - (getDay tza t + 6) mod 7) * msPerDay.
Proof.
  unfold getWeekStart.
  replace (getDate tza t - getDay tza t + (if getDay tza t =? 0 then -6 else 1))
    with (getDate tza t + (- getDay tza t + (if getDay tza t =? 0 then -6 else 1))) by lia.
  rewrite setDate_shift.
  rewrite setHours_local.
  unfold LocalTime at 1.
  replace (t + (- getDay tza t + (if getDay tza t =? 0 then -6 else 1)) * msPerDay + tza)
    with (LocalTime tza t + (- getDay tza t + (if getDay tza t =? 0 then -6 else 1)) * msPerDay)
    by (unfold LocalTime; lia).
  rewrite Day_shift.
  unfold MakeDate, MakeTime.
  pose proof (getDay_range t) as Hr.
  generalize dependent (getDay tza t). intros g Hr.
  generalize (Day (LocalTime tza t)). intros d.
  unfold msPerDay.
  destruct (Z.eqb_spec g 0) as [E|N]; Z.div_mod_to_equations; lia.
Qed.
End ZoneFacts.

(** ** Facts of the binary64 arithmetic *)

Section NumberFacts.

Lemma iter_pos_invariant {A : Type} (P : A -> Prop) (f : A -> A) :
  (forall x, P x -> P (f x)) -> forall n x, P x -> P (SpecFloat.iter_pos f n x).
Proof.
  intros Hf. induction n as [n IH|n IH|]; simpl; intros x Hx; auto.
Qed.

Lemma shr_1_nonneg mrs : 0 <= shr_m mrs -> 0 <= shr_m (shr_1 mrs).
Proof.
  destruct mrs as [m r s]. destruct m as [|[q|q|]|[q|q|]]; simpl; lia.
Qed.

Lemma shr_nonneg mrs e n : 0 <= shr_m mrs -> 0 <= shr_m (fst (shr mrs e n)).
Proof.
  intros H. destruct n as [|n|n]; simpl; try assumption.
  apply (iter_pos_invariant (fun r => 0 <= shr_m r)); [apply shr_1_nonneg | assumption].
Qed.

Lemma shr_record_of_loc_m m l : shr_m (shr_record_of_loc m l) = m.
Proof. destruct l as [|[]]; reflexivity. Qed.

Lemma shr_fexp_nonneg p em m e l :
  0 <= m -> 0 <= shr_m (fst (shr_fexp p em m e l)).
Proof.
  intros H. unfold shr_fexp. apply shr_nonneg.
  rewrite shr_record_of_loc_m. assumption.
Qed.

Lemma round_nearest_even_nonneg m l : 0 <= m -> 0 <= round_nearest_even m l.
Proof.
  intros H. destruct l as [|[]]; simpl; try lia.
  destruct (Z.even m); lia.
Qed.

(** Rounding a non-negative mantissa yields a number of the given sign. *)
Lemma binary_round_aux_signed p em s m e l :
  0 <= m -> signed s (binary_round_aux p em s m e l).
Proof.
  intros H. unfold binary_round_aux.
  pose proof (shr_fexp_nonneg p em m e l H) as H1.
  destruct (shr_fexp p em m e l) as [mrs' e'].
  simpl in H1.
  pose proof (shr_fexp_nonneg p em _ e' loc_Exact
                (round_nearest_even_nonneg _ (loc_of_shr_record mrs') H1)) as H2.
  destruct (shr_fexp p em (round_nearest_even (shr_m mrs') (loc_of_shr_record mrs')) e' loc_Exact)
    as [mrs'' e''].
  simpl in H2.
  destruct (shr_m mrs'') as [|q|q]; simpl; [reflexivity | | lia].
  destruct (e'' <=? em - p); reflexivity.
Qed.

Lemma div_eucl_nonneg a b q r : 0 <= a -> 0 < b -> Z.div_eucl a b = (q, r) -> 0 <= q.
Proof.
  intros Ha Hb E.
  assert (q = a / b) as -> by (unfold Z.div; rewrite E; reflexivity).
  apply Z.div_pos; assumption.
Qed.

Lemma div_finite_signed sx mx ex sy my ey :
  signed (xorb sx sy) (div (S754_finite sx mx ex) (S754_finite sy my ey)).
Proof.
  unfold div, SFdiv, SFdiv_core_binary.
  match goal with |- context [Z.div_eucl ?a ?b] =>
    pose proof (div_eucl_nonneg a b) as Hq; destruct (Z.div_eucl a b) as [q r] end.
  apply binary_round_aux_signed.
  apply (Hq q r); [| reflexivity | reflexivity].
  match goal with |- 0 <= match ?s with _ => _ end => destruct s eqn:E end; try lia.
  apply Z.shiftl_nonneg. lia.
Qed.

Lemma mul_finite_signed sx mx ex sy my ey :
  signed (xorb sx sy) (mul (S754_finite sx mx ex) (S754_finite sy my ey)).
Proof. unfold mul, SFmul. apply binary_round_aux_signed. lia. Qed.

Lemma Math_round_signed_false x :
  signed false x ->
  Math_round x = PosInf \/ exists z, Math_round x = Int z /\ 0 <= z.
Proof.
  destruct x as [s|s| |s m e]; simpl; intros H; try contradiction; subst.
  - right. exists 0. split; [reflexivity | lia].
  - left. reflexivity.
  - right. eexists. split; [reflexivity |].
    destruct (Z.leb_spec 0 e).
    + apply Z.mul_nonneg_nonneg; [lia | apply Z.pow_nonneg; lia].
    + apply Z.div_pos; [| apply Z.pow_pos_nonneg; lia].
      assert (0 <= 2 ^ (- e)) by (apply Z.pow_nonneg; lia). lia.
Qed.

Lemma Math_round_signed_true x :
  signed true x ->
  Math_round x = NegInf \/ exists z, Math_round x = Int z /\ z <= 0.
Proof.
  destruct x as [s|s| |s m e]; simpl; intros H; try contradiction; subst.
  - right. exists 0. split; [reflexivity | lia].
  - left. reflexivity.
  - right. eexists. split; [reflexivity |].
    destruct (Z.leb_spec 0 e).
    + apply Z.mul_nonpos_nonneg; [lia | apply Z.pow_nonneg; lia].
    + assert (0 < 2 ^ (- e)) by (apply Z.pow_pos_nonneg; lia).
      assert (0 < 2 ^ (- e + 1)) by (apply Z.pow_pos_nonneg; lia).
      assert (2 ^ (- e + 1) = 2 * 2 ^ (- e)) as E
        by (apply (Z.pow_succ_r 2 (- e)); lia).
      assert ((2 * Z.neg m + 2 ^ (- e)) / 2 ^ (- e + 1) < 1)
        by (apply Z.div_lt_upper_bound; lia).
      lia.
Qed.

Lemma Math_round_not_NaN s x : signed s x -> Math_round x <> NaN.
Proof. destruct x as [[]|[]| |]; simpl; intros; try contradiction; discriminate. Qed.

Lemma digits2_pos_lower q : 2 ^ (Z.pos (digits2_pos q) - 1) <= Z.pos q.
Proof.
  induction q as [q IH|q IH|]; simpl digits2_pos.
  - rewrite Pos2Z.inj_succ.
    replace (Z.succ (Z.pos (digits2_pos q)) - 1) with (Z.succ (Z.pos (digits2_pos q) - 1)) by lia.
    rewrite Z.pow_succ_r by lia. lia.
  - rewrite Pos2Z.inj_succ.
    replace (Z.succ (Z.pos (digits2_pos q)) - 1) with (Z.succ (Z.pos (digits2_pos q) - 1)) by lia.
    rewrite Z.pow_succ_r by lia. lia.
  - simpl. lia.
Qed.

Lemma digits2_pos_safe q : Z.pos q < 2 ^ 53 -> Z.pos (digits2_pos q) <= 53.
Proof.
  intros H. destruct (Z.le_gt_cases (Z.pos (digits2_pos q)) 53) as [L|G]; [assumption|].
  pose proof (digits2_pos_lower q) as Hl.
  assert (2 ^ 53 <= 2 ^ (Z.pos (digits2_pos q) - 1)) by (apply Z.pow_le_mono_r; lia).
  lia.
Qed.

Lemma digits2_pos_shift q k :
  digits2_pos (Pos.iter xO q k) = (digits2_pos q + k)%positive.
Proof.
  induction k as [|k IH] using Pos.peano_ind.
  - simpl. lia.
  - rewrite Pos.iter_succ. simpl. rewrite IH. lia.
Qed.

(** A mantissa of 53 bits with an exponent in range is kept as it is. *)
Lemma binary_round_aux_canonical s m e :
  Z.pos (digits2_pos m) = 53 -> -1074 <= e <= 971 ->
  binary_round_aux 53 1024 s (Z.pos m) e loc_Exact = S754_finite s m e.
Proof.
  intros Hd He.
  assert (forall l, shr_fexp 53 1024 (Z.pos m) e l = (shr_record_of_loc (Z.pos m) l, e)) as Hs.
  { intros l. unfold shr_fexp, fexp, emin. simpl Zdigits2. rewrite Hd.
    replace (Z.max (53 + e - 53) (3 - 1024 - 53) - e) with 0 by lia. reflexivity. }
  unfold binary_round_aux. rewrite Hs. simpl. rewrite Hs. simpl.
  destruct (Z.leb_spec e (1024 - 53)) as [_|G]; [reflexivity | lia].
Qed.

Lemma binary_round_safe s q :
  Z.pos q < 2 ^ 53 ->
  finite (binary_round 53 1024 s q 0) /\ signed s (binary_round 53 1024 s q 0).
Proof.
  intros H. pose proof (digits2_pos_safe q H) as Hd.
  unfold binary_round, shl_align, fexp, emin.
  replace (Z.max (Z.pos (digits2_pos q) + 0 - 53) (3 - 1024 - 53))
    with (Z.pos (digits2_pos q) - 53) by lia.
  destruct (Z.pos (digits2_pos q) - 53 - 0) as [|k|k] eqn:E; try lia.
  - rewrite binary_round_aux_canonical by lia. simpl. auto.
  - rewrite binary_round_aux_canonical; [simpl; auto | | lia].
    rewrite digits2_pos_shift. lia.
Qed.

(** The [Number] of a safe integer: a zero, or finite of the integer's sign. *)
Lemma ofZ_zero : ofZ 0 = S754_zero false.
Proof. reflexivity. Qed.

Lemma ofZ_pos z : 0 < z < 2 ^ 53 -> finite (ofZ z) /\ signed false (ofZ z).
Proof.
  intros [H1 H2]. destruct z as [|q|q]; try lia.
  unfold ofZ, binary_normalize. apply (binary_round_safe false q). assumption.
Qed.

Lemma ofZ_neg z : - 2 ^ 53 < z < 0 -> finite (ofZ z) /\ signed true (ofZ z).
Proof.
  intros [H1 H2]. destruct z as [|q|q]; try lia.
  unfold ofZ, binary_normalize. apply (binary_round_safe true q). lia.
Qed.

Lemma ofZ_100 : ofZ 100 = S754_finite false 7036874417766400 (-46).
Proof. reflexivity. Qed.

(** [Math.min(100, _)] never yields the positive infinity and never an
    integer above 100. *)
Lemma Math_min_upper a x :
  Math_min a x <> PosInf /\ forall z, Math_min a x = Int z -> z <= a.
Proof.
  destruct x; simpl; split; try discriminate; intros z' E; inversion E; lia.
Qed.

Lemma ofZ_cases z :
  safe z ->
  (z = 0 /\ ofZ z = S754_zero false)
  \/ (exists m e, ofZ z = S754_finite (z <? 0) m e).
Proof.
  intros [H1 H2]. destruct (Z.lt_trichotomy z 0) as [N|[E|P]].
  - right. destruct (ofZ_neg z) as [F S]; [lia|].
    destruct (ofZ z) as [| | |s m e]; try contradiction. simpl in S. subst s.
    exists m, e. destruct (Z.ltb_spec z 0); [reflexivity | lia].
  - left. subst. split; reflexivity.
  - right. destruct (ofZ_pos z) as [F S]; [lia|].
    destruct (ofZ z) as [| | |s m e]; try contradiction. simpl in S. subst s.
    exists m, e. destruct (Z.ltb_spec z 0); [lia | reflexivity].
Qed.

Lemma div_signed c t :
  safe c -> safe t -> ~ (c = 0 /\ t = 0) ->
  signed (xorb (c <? 0) (t <? 0)) (div (ofZ c) (ofZ t)).
Proof.
  intros Hc Ht Hn.
  destruct (ofZ_cases c Hc) as [[Ec Oc]|(mc & ec & Oc)];
    destruct (ofZ_cases t Ht) as [[Et Ot]|(mt & et & Ot)];
    rewrite Oc, Ot.
  - tauto.
  - subst c. reflexivity.
  - subst t. reflexivity.
  - apply div_finite_signed.
Qed.

Lemma mul_100_signed s x : signed s x -> signed s (mul x (ofZ 100)).
Proof.
  rewrite ofZ_100. destruct x as [s'|s'| |s' m e]; simpl; intros H; try contradiction; subst.
  - apply xorb_false_r.
  - apply xorb_false_r.
  - pose proof (mul_finite_signed s m e false 7036874417766400 (-46)) as Hm.
    rewrite xorb_false_r in Hm. exact Hm.
Qed.

Lemma Math_min_not_NaN a x : x <> NaN -> Math_min a x <> NaN.
Proof. destruct x; simpl; intros H; try discriminate. contradiction. Qed.

(** The percentage is capped from above, for every pair of arguments. *)
Lemma percentage_upper c t :
  percentage c t <> PosInf /\ forall p, percentage c t = Int p -> p <= 100.
Proof. unfold percentage. apply Math_min_upper. Qed.

(** It is not a number exactly at [0 / 0]. *)
Lemma percentage_NaN_iff c t :
  safe c -> safe t -> (percentage c t = NaN <-> c = 0 /\ t = 0).
Proof.
  intros Hc Ht. split.
  - intros E. destruct (Z.eq_dec c 0) as [Ec|Nc]; destruct (Z.eq_dec t 0) as [Et|Nt];
      try (split; assumption); exfalso; revert E; unfold percentage;
      apply Math_min_not_NaN, (Math_round_not_NaN (xorb (c <? 0) (t <? 0))),
        mul_100_signed, div_signed; (assumption || tauto).
  - intros [-> ->]. reflexivity.
Qed.

(** With a non-negative count and a positive target it lies in [0, 100]. *)
Lemma percentage_range c t :
  0 <= c < 2 ^ 53 -> 0 < t < 2 ^ 53 ->
  exists p, percentage c t = Int p /\ 0 <= p <= 100.
Proof.
  intros Hc Ht.
  assert (signed false (mul (div (ofZ c) (ofZ t)) (ofZ 100))) as S.
  { apply mul_100_signed.
    replace false with (xorb (c <? 0) (t <? 0)).
    - apply div_signed; unfold safe; lia.
    - destruct (Z.ltb_spec c 0); destruct (Z.ltb_spec t 0); (reflexivity || lia). }
  unfold percentage.
  destruct (Math_round_signed_false _ S) as [E|(z & E & Hz)]; rewrite E; simpl.
  - exists 100. split; [reflexivity | lia].
  - exists (Z.min 100 z). split; [reflexivity | lia].
Qed.

(** A zero target: the quotient is infinite, unless the count is zero too. *)
Lemma percentage_zero_target c :
  safe c ->
  percentage c 0 = (if c =? 0 then NaN else if 0 <? c then Int 100 else NegInf).
Proof.
  intros Hc. unfold percentage.
  destruct (ofZ_cases c Hc) as [[Ec Oc]|(mc & ec & Oc)].
  - subst c. reflexivity.
  - rewrite Oc. rewrite ofZ_zero, ofZ_100.
    destruct (Z.eqb_spec c 0) as [E|N]; [subst; discriminate Oc|].
    destruct (Z.ltb_spec c 0); destruct (Z.ltb_spec 0 c); try lia; reflexivity.
Qed.
End NumberFacts.


(** ** The run-time model at sample points *)

Example isoDatePart_samples :
  isoDatePart 0 = "1970-01-01"
  /\ isoDatePart (-1) = "1969-12-31"
  /\ isoDatePart 951782400000 = "2000-02-29"
  /\ isoDatePart 1704967200000 = "2024-01-11"
  /\ isoDatePart 4107542399999 = "2100-02-28"
  /\ isoDatePart 4107542400000 = "2100-03-01"
  /\ isoDatePart 253402300800000 = "+010000-01-01".
Proof. vm_compute. repeat split; reflexivity. Qed.

Example parseDate_samples :
  parseDate "2024-01-11" = Some 1704931200000
  /\ parseDate (isoDatePart 951782400000) = Some 951782400000
  /\ parseDate (isoDatePart 253402300800000) = Some 253402300800000
  /\ parseDate "2023-02-29" = None
  /\ parseDate "today" = None.
Proof. vm_compute. repeat split; reflexivity. Qed.

Example weekday_samples :
  getDay 0 0 = 4
  /\ getDay 0 1704967200000 = 4
  /\ getDay 7200000 1705269600000 = 1
  /\ getDate 7200000 1705269600000 = 15
  /\ getMonthEnd 0 1707000000000 = 1709251199999.
Proof. vm_compute. repeat split; reflexivity. Qed.

(** The percentage follows the binary64 roundings: 29 / 200 * 100 is just
    below 14.5. *)
Example percentage_samples :
  percentage 1 3 = Int 33
  /\ percentage 2 3 = Int 67
  /\ percentage 1 200 = Int 1
  /\ percentage 29 200 = Int 14
  /\ percentage 5 (-1) = Int (-500)
  /\ percentage 7 0 = Int 100.
Proof. vm_compute. repeat split; reflexivity. Qed.

(** [Math.floor(totalMs / 60000)] is the floor quotient, also next to the
    multiples of 60000 and at the end of the safe range. *)
Example floor_quotient_samples :
  Math_floor (div (ofZ 3599999) (ofZ 60000)) = Int (3599999 / 60000)
  /\ Math_floor (div (ofZ (-600000)) (ofZ 60000)) = Int (-600000 / 60000)
  /\ Math_floor (div (ofZ (-1)) (ofZ 60000)) = Int (-1 / 60000)
  /\ Math_floor (div (ofZ 9007199254739999) (ofZ 60000)) = Int (9007199254739999 / 60000)
  /\ Math_floor (div (ofZ (-9007199254739999)) (ofZ 60000)) = Int (-9007199254739999 / 60000).
Proof. vm_compute. repeat split; reflexivity. Qed.

(** ** The time-range aggregator *)

Section Overlap.
Variables rangeStart rangeEnd : Z.

Lemma fold_addOverlap es acc :
  fold_left (addOverlap rangeStart rangeEnd) es acc
  = acc + sumOverlap es rangeStart rangeEnd.
Proof.
  revert acc. induction es as [|e es IH]; intros acc.
  - unfold sumOverlap, sumZ. simpl. lia.
  - simpl fold_left. rewrite IH. unfold sumOverlap. simpl List.filter.
    unfold addOverlap, counted, skipTest.
    destruct (end_ e) as [entryEnd|] eqn:E; [|reflexivity].
    destruct ((entryEnd <? rangeStart) || (start e >? rangeEnd)); simpl.
    + reflexivity.
    + assert (overlapTerm rangeStart rangeEnd e
              = Z.min entryEnd rangeEnd - Z.max (start e) rangeStart) as ->
        by (unfold overlapTerm; rewrite E; reflexivity).
      lia.
Qed.

Lemma calculateTimeInRange_sum es :
  Main.calculateTimeInRange (Some es) rangeStart rangeEnd
  = sumOverlap es rangeStart rangeEnd.
Proof.
  unfold Main.calculateTimeInRange. destruct es as [|e es]; [reflexivity|].
  rewrite fold_addOverlap. lia.
Qed.

Lemma sumOverlap_app es1 es2 :
  sumOverlap (es1 ++ es2) rangeStart rangeEnd
  = sumOverlap es1 rangeStart rangeEnd + sumOverlap es2 rangeStart rangeEnd.
Proof.
  unfold sumOverlap. rewrite List.filter_app, map_app.
  unfold sumZ. rewrite foldr_app.
  generalize (map (overlapTerm rangeStart rangeEnd)
                (List.filter (counted rangeStart rangeEnd) es2)).
  intros l2.
  induction (map (overlapTerm rangeStart rangeEnd)
               (List.filter (counted rangeStart rangeEnd) es1)) as [|x l1 IH]; simpl; lia.
Qed.

(** The engine's variant adds, activity by activity, what the reducer of
    main.js computes on the activity's entries. *)
Lemma engine_fold activities ids acc :
  fold_left (fun totalMs id =>
    match activities !! id with
    | None => totalMs
    | Some activity =>
        if negb (String.eqb (a_type activity) "time") then totalMs
        else match entries activity with
             | None => totalMs
             | Some es => fold_left (addOverlap rangeStart rangeEnd) es totalMs
             end
    end) ids acc
  = acc + sumZ (map (activityTime activities rangeStart rangeEnd) ids).
Proof.
  revert acc. induction ids as [|id ids IH]; intros acc; simpl.
  - unfold sumZ. simpl. lia.
  - rewrite IH. unfold sumZ. simpl. unfold activityTime at 2.
    destruct (activities !! id) as [a|]; [|lia].
    destruct (String.eqb (a_type a) "time"); simpl; [|lia].
    destruct (entries a) as [es|]; simpl; [|lia].
    rewrite fold_addOverlap.
    destruct es as [|e es]; [unfold sumOverlap, sumZ; simpl; lia|].
    rewrite fold_addOverlap. lia.
Qed.

Lemma overlapTerm_nonneg e :
  rangeStart <= rangeEnd -> ordered e -> counted rangeStart rangeEnd e = true ->
  0 <= overlapTerm rangeStart rangeEnd e.
Proof.
  unfold ordered, counted, overlapTerm, skipTest.
  destruct (end_ e) as [entryEnd|]; [|discriminate].
  intros Hr Ho Hc.
  destruct (Z.ltb_spec entryEnd rangeStart); [discriminate|].
  destruct (start e >? rangeEnd) eqn:G; [discriminate|].
  rewrite Z.gtb_ltb in G. apply Z.ltb_ge in G. lia.
Qed.

Lemma sumOverlap_nonneg es :
  rangeStart <= rangeEnd -> Forall ordered es ->
  0 <= sumOverlap es rangeStart rangeEnd.
Proof.
  intros Hr Ho. unfold sumOverlap.
  induction Ho as [|e es He Hes IH]; simpl.
  - unfold sumZ. simpl. lia.
  - destruct (counted rangeStart rangeEnd e) eqn:C; [|exact IH].
    pose proof (overlapTerm_nonneg e Hr He C).
    unfold sumZ in *. simpl. lia.
Qed.
End Overlap.

(** C2. The reducer of main.js returns the sum, over the closed entries
    that the skip test lets through, of the clipped end minus the clipped
    start; a missing entry list gives 0 and an open entry adds nothing; the
    engine's variant adds up the same sum per activity. For the entry from
    10 to 20, the range from 15 to 25 gives 5, the range from 0 to 5 gives 0,
    and a range that contains the entry gives 10. *)
Theorem calculateTimeInRange_is_sumOverlap :
  (forall es rangeStart rangeEnd,
     Main.calculateTimeInRange (Some es) rangeStart rangeEnd
     = sumOverlap es rangeStart rangeEnd)
  /\ (forall rangeStart rangeEnd, Main.calculateTimeInRange None rangeStart rangeEnd = 0)
  /\ (forall es1 es2 st rangeStart rangeEnd,
        Main.calculateTimeInRange (Some (es1 ++ mkEntry st None :: es2)) rangeStart rangeEnd
        = Main.calculateTimeInRange (Some (es1 ++ es2)) rangeStart rangeEnd)
  /\ (forall activities id ids rangeStart rangeEnd,
        Goals.calculateTimeInRange activities (id :: ids) rangeStart rangeEnd
        = sumZ (map (activityTime activities rangeStart rangeEnd) (id :: ids)))
  /\ (forall activities rangeStart rangeEnd,
        Goals.calculateTimeInRange activities [] rangeStart rangeEnd
        = sumZ (map (activityTime activities rangeStart rangeEnd) (Goals.keys activities)))
  /\ Main.calculateTimeInRange (Some [mkEntry 10 (Some 20)]) 15 25 = 5
  /\ Main.calculateTimeInRange (Some [mkEntry 10 (Some 20)]) 0 5 = 0
  /\ (forall rangeStart rangeEnd,
        rangeStart <= 10 -> 20 <= rangeEnd ->
        Main.calculateTimeInRange (Some [mkEntry 10 (Some 20)]) rangeStart rangeEnd = 10).
Proof.
  split; [|split; [|split; [|split; [|split; [|split; [|split]]]]]].
  - intros. apply calculateTimeInRange_sum.
  - reflexivity.
  - intros. rewrite !calculateTimeInRange_sum, !sumOverlap_app.
    f_equal.
  - intros. unfold Goals.calculateTimeInRange. rewrite engine_fold. lia.
  - intros. unfold Goals.calculateTimeInRange.
    destruct (Goals.keys activities) eqn:K; rewrite engine_fold; lia.
  - reflexivity.
  - reflexivity.
  - intros rangeStart rangeEnd H1 H2. rewrite calculateTimeInRange_sum.
    unfold sumOverlap, counted, overlapTerm, skipTest. simpl.
    destruct (Z.ltb_spec 20 rangeStart); [lia|].
    destruct (10 >? rangeEnd) eqn:G.
    + rewrite Z.gtb_ltb in G. apply Z.ltb_lt in G. lia.
    + simpl. unfold sumZ. simpl. lia.
Qed.

Lemma calculateTimeInRange_is_sumOverlap_witness :
  Main.calculateTimeInRange (Some [mkEntry 10 (Some 20)]) 0 30 = 10.
Proof.
  destruct calculateTimeInRange_is_sumOverlap as (_ & _ & _ & _ & _ & _ & _ & H).
  apply (H 0 30); lia.
Defined.

(** C3, counterexample. The entry that starts at 20 and ends at 10 passes
    the skip test of the range from 0 to 100, its term is -10, and so is the
    total. *)
Lemma calculateTimeInRange_negative_total :
  skipTest 0 100 20 10 = false
  /\ overlapTerm 0 100 (mkEntry 20 (Some 10)) = -10
  /\ Main.calculateTimeInRange (Some [mkEntry 20 (Some 10)]) 0 100 = -10
  /\ ~ (0 <= Main.calculateTimeInRange (Some [mkEntry 20 (Some 10)]) 0 100).
Proof.
  repeat split; try reflexivity. intros H. vm_compute in H. apply H. reflexivity.
Qed.

(** C3, amended. When no closed entry ends before it starts and the range
    is not empty, every term accumulated for an entry that passes the skip
    test is non-negative, and both variants of calculateTimeInRange return a
    non-negative total. *)
Theorem calculateTimeInRange_nonneg :
  forall rangeStart rangeEnd, rangeStart <= rangeEnd ->
  (forall e, ordered e -> counted rangeStart rangeEnd e = true ->
             0 <= overlapTerm rangeStart rangeEnd e)
  /\ (forall es, Forall ordered es ->
                 0 <= Main.calculateTimeInRange (Some es) rangeStart rangeEnd)
  /\ (forall activities ids,
        (forall id a es, activities !! id = Some a -> entries a = Some es -> Forall ordered es) ->
        0 <= Goals.calculateTimeInRange activities ids rangeStart rangeEnd).
Proof.
  intros rangeStart rangeEnd Hr. split; [|split].
  - intros e. apply overlapTerm_nonneg. assumption.
  - intros es Ho. rewrite calculateTimeInRange_sum. apply sumOverlap_nonneg; assumption.
  - intros activities ids Hw.
    assert (forall l, 0 <= sumZ (map (activityTime activities rangeStart rangeEnd) l)) as Hs.
    { induction l as [|id l IH]; unfold sumZ in *; simpl; [lia|].
      assert (0 <= activityTime activities rangeStart rangeEnd id); [|lia].
      unfold activityTime. destruct (activities !! id) as [a|] eqn:L; [|lia].
      destruct (String.eqb (a_type a) "time"); [|lia].
      destruct (entries a) as [es|] eqn:E; [|simpl; lia].
      rewrite calculateTimeInRange_sum. apply sumOverlap_nonneg; [assumption|].
      apply (Hw id a es); assumption. }
    unfold Goals.calculateTimeInRange. rewrite engine_fold.
    match goal with |- 0 <= 0 + sumZ (map _ ?l) => specialize (Hs l) end. lia.
Qed.

Lemma calculateTimeInRange_nonneg_witness :
  0 <= Main.calculateTimeInRange (Some [mkEntry 10 (Some 20); mkEntry 30 None]) 15 25.
Proof.
  destruct (calculateTimeInRange_nonneg 15 25) as (_ & H & _); [lia|].
  apply H. constructor; [unfold ordered; simpl; lia|].
  constructor; [exact I|]. constructor.
Defined.

(** ** The week boundary *)

(** C8. For every reference date, in every zone of constant offset,
    getWeekStart returns the local midnight that begins the Monday of the
    week containing the date: the result is at 00:00:00.000, its weekday is
    Monday, and it lies from 0 to 6 days before the day of the date. It is
    the date set to day-of-month minus weekday index plus 1 (minus 6 on a
    Sunday) and then to midnight, so a Wednesday yields the Monday two days
    before and a Sunday the Monday six days before, not the following one. *)
Theorem getWeekStart_monday :
  forall tza date,
    let monday := getWeekStart tza date in
    TimeWithinDay (LocalTime tza monday) = 0
    /\ getDay tza monday = 1
    /\ Day (LocalTime tza monday) <= Day (LocalTime tza date) <= Day (LocalTime tza monday) + 6
    /\ monday <= date < monday + 7 * msPerDay
    /\ monday = setHours tza
                  (setDate tza date
                     (getDate tza date - getDay tza date
                      + (if getDay tza date =? 0 then -6 else 1))) 0 0 0 0
    /\ (getDay tza date = 0 ->
        Day (LocalTime tza monday) = Day (LocalTime tza date) - 6)
    /\ (getDay tza date = 3 ->
        Day (LocalTime tza monday) = Day (LocalTime tza date) - 2).
Proof.
  intros tza date monday.
  pose proof (getWeekStart_local tza date) as L. fold monday in L.
  pose proof (getDay_range tza date) as R.
  pose proof (day_decomposition (LocalTime tza date)) as Dd.
  pose proof (TimeWithinDay_range (LocalTime tza date)) as Dr.
  assert (Day (LocalTime tza monday)
          = Day (LocalTime tza date) - (getDay tza date + 6) mod 7) as D.
  { rewrite L. unfold Day at 1. apply Z.div_mul. discriminate. }
  assert (0 <= (getDay tza date + 6) mod 7 <= 6) as M
    by (pose proof (Z.mod_pos_bound (getDay tza date + 6) 7); lia).
  split; [|split; [|split; [|split; [|split; [|split]]]]].
  - rewrite L. unfold TimeWithinDay. apply Z.mod_mul. discriminate.
  - unfold getDay at 1, WeekDay. rewrite D.
    unfold getDay, WeekDay in *. Z.div_mod_to_equations. lia.
  - lia.
  - revert L Dd Dr. unfold LocalTime, msPerDay. lia.
  - reflexivity.
  - intros E. rewrite D, E. reflexivity.
  - intros E. rewrite D, E. reflexivity.
Qed.

Lemma getWeekStart_monday_witness :
  Day (LocalTime 7200000 (getWeekStart 7200000 1705233600000))
  = Day (LocalTime 7200000 1705233600000) - 6
  /\ Day (LocalTime 7200000 (getWeekStart 7200000 1704888000000))
     = Day (LocalTime 7200000 1704888000000) - 2.
Proof.
  split.
  - apply (getWeekStart_monday 7200000 1705233600000). reflexivity.
  - apply (getWeekStart_monday 7200000 1704888000000). reflexivity.
Defined.

(** ** The check aggregator *)

Section Checks.
Variable tza : Z.
Variable checks : gmap string bool.

Lemma iterations_step s e :
  s <= e -> iterations s e = S (iterations (s + msPerDay) e).
Proof.
  intros H. unfold iterations.
  destruct (Z.leb_spec s e) as [_|]; [|lia].
  assert (0 <= (e - s) / msPerDay) by (apply Z.div_pos; [lia | reflexivity]).
  destruct (Z.leb_spec (s + msPerDay) e) as [L|G].
  - replace (e - (s + msPerDay)) with ((e - s) + (-1) * msPerDay) by lia.
    rewrite Z.div_add by discriminate.
    rewrite <- Z2Nat.inj_succ by lia. f_equal. lia.
  - rewrite Z.div_small by lia. reflexivity.
Qed.

Lemma iterations_done s e : e < s -> iterations s e = O.
Proof. intros H. unfold iterations. destruct (Z.leb_spec s e); [lia | reflexivity]. Qed.

Lemma main_countLoop fuel : forall current endDate checked total,
  (iterations current endDate < fuel)%nat ->
  Main.countLoop tza fuel checks current endDate checked total
  = Returns (Main.mkCount (checked + countChecked getISODate checks current endDate)
                          (total + Z.of_nat (iterations current endDate))).
Proof.
  induction fuel as [|fuel IH]; intros current endDate checked total Hf; [lia|].
  simpl. destruct (Z.leb_spec current endDate) as [L|G].
  - rewrite setDate_next.
    rewrite IH by (rewrite (iterations_step current endDate L) in Hf; lia).
    unfold countChecked, visited.
    rewrite (iterations_step current endDate L). simpl walk. simpl List.filter.
    destruct (isChecked checks (getISODate current)); simpl length; f_equal; f_equal; lia.
  - unfold countChecked, visited. rewrite (iterations_done _ _ G). simpl.
    f_equal. f_equal; lia.
Qed.

Lemma goals_countLoop fuel : forall current endDate count,
  (iterations current endDate < fuel)%nat ->
  Goals.countLoop tza fuel checks current endDate count
  = Returns (count + countChecked getISODate checks current endDate).
Proof.
  induction fuel as [|fuel IH]; intros current endDate count Hf; [lia|].
  simpl. destruct (Z.leb_spec current endDate) as [L|G].
  - rewrite setDate_next.
    rewrite IH by (rewrite (iterations_step current endDate L) in Hf; lia).
    unfold countChecked, visited.
    rewrite (iterations_step current endDate L). simpl walk. simpl List.filter.
    destruct (isChecked checks (getISODate current)); simpl length; f_equal; lia.
  - unfold countChecked, visited. rewrite (iterations_done _ _ G). simpl.
    f_equal. lia.
Qed.

Lemma walk_spec n : forall s t,
  In t (walk n s) <-> exists k, 0 <= k < Z.of_nat n /\ t = s + k * msPerDay.
Proof.
  induction n as [|n IH]; intros s t; simpl.
  - split; [contradiction | intros (k & H & _); lia].
  - rewrite IH. split.
    + intros [E|(k & Hk & E)].
      * exists 0. split; lia.
      * exists (k + 1). split; lia.
    + intros (k & Hk & E). destruct (Z.eq_dec k 0) as [Z0|N0].
      * left. lia.
      * right. exists (k - 1). split; lia.
Qed.

(** The walk visits exactly the instants a whole number of days after
    [startDate] that are not after [endDate]. *)
Lemma visited_spec s e t :
  In t (visited s e) <-> exists k, 0 <= k /\ t = s + k * msPerDay /\ t <= e.
Proof.
  unfold visited. rewrite walk_spec. unfold iterations.
  destruct (Z.leb_spec s e) as [L|G].
  - assert (0 <= (e - s) / msPerDay) by (apply Z.div_pos; [lia | reflexivity]).
    rewrite Z2Nat.id by lia.
    split; intros (k & Hk & E).
    + exists k. split; [lia|]. split; [assumption|].
      assert (k * msPerDay <= e - s); [|lia].
      transitivity (((e - s) / msPerDay) * msPerDay).
      * apply Z.mul_le_mono_nonneg_r; [unfold msPerDay|]; lia.
      * rewrite Z.mul_comm. apply Z.mul_div_le. reflexivity.
    + exists k. split; [|tauto]. split; [lia|].
      assert (k <= (e - s) / msPerDay); [|lia].
      apply Z.div_le_lower_bound; [reflexivity|]. lia.
  - simpl. split; intros (k & Hk & E); [lia|].
    exfalso. unfold msPerDay in *. lia.
Qed.
End Checks.

(** C6, the failing input. On a host two hours east of UTC, a check
    activity is created and checked by toggle-check at 2024-01-11 12:00
    local time (10:00 UTC). toggle-check writes the map under the date
    string of the instant now, 2024-01-11, which is also the local date, and
    the sibling readers key the day in the same way: getDailyProgress
    reports the activity checked and calculateStreak counts the day. The
    range of that local day starts at its local midnight, 2024-01-10 22:00
    UTC, and countChecksInRange looks the day up under the date string of
    that instant, 2024-01-10: both variants count 0 of 1 day, and a count
    goal of one completion a day is not achieved. Looked up under the local
    date of the day, as the specification has it, the count is 1; on a host in UTC
    the code counts 1. *)
Theorem countChecksInRange_misses_written_check :
  let tza := 7200000 in
  let now := 1704967200000 in
  let startDate := getDayStart tza now in
  let endDate := getDayEnd tza now in
  let cmap : gmap string bool := {[ "2024-01-11" := true ]} in
  let d : gmap string StoredActivity :=
    {[ "gym" := mkStored "gym" "Gym" "check" None (Some cmap) ]} in
  let goal := mkGoal "count" (Some (mkConfig (Some "gym") "day" 0 1 0)) in
  run [Create "gym" "Gym" "check"; Toggle now "gym" None] ∅ = Returns d
  /\ getISODate now = "2024-01-11"
  /\ localDateString tza now = "2024-01-11"
  /\ dp_activities (getDailyProgress tza d now) !! "gym" = Some (DailyCheck "gym" "Gym" true)
  /\ Goals.calculateStreak tza 366 now (view <$> d) ["gym"] "check" = Returns 1
  /\ visited startDate endDate = [startDate]
  /\ localDateString tza startDate = "2024-01-11"
  /\ getISODate startDate = "2024-01-10"
  /\ Main.countChecksInRange tza 2 (Some cmap) startDate endDate
     = Returns (Main.mkCount 0 1)
  /\ Goals.countChecksInRange tza 2 (view <$> d) ["gym"] startDate endDate = Returns 0
  /\ Goals.evaluateGoal tza 2 now goal (view <$> d)
     = Returns {| achieved := false; current := 0; target := 1;
                  progressPercentage := Int 0; unit := "completions" |}
  /\ countChecked (localDateString tza) cmap startDate endDate = 1
  /\ Main.countChecksInRange 0 2 (Some cmap) (getDayStart 0 now) (getDayEnd 0 now)
     = Returns (Main.mkCount 1 1)
  /\ Goals.evaluateGoal 0 2 now goal (view <$> d)
     = Returns {| achieved := true; current := 1; target := 1;
                  progressPercentage := Int 100; unit := "completions" |}.
Proof.
  repeat split; vm_compute; reflexivity.
Qed.

(** What the two loops compute, in a zone of constant offset, where the
    walk goes in steps of 86400000 ms: countChecksInRange walks from
    startDate while the instant is not after endDate and looks each visited
    instant up under [getISODate], the calendar date of the instant in UTC;
    the count is the number of visited instants whose UTC date string is
    checked, and the total of main.js is the number of visited instants. *)
Lemma countChecksInRange_utc_dates :
  forall tza (cmap : gmap string bool) startDate endDate fuel,
    (iterations startDate endDate < fuel)%nat ->
    Main.countChecksInRange tza fuel (Some cmap) startDate endDate
    = Returns (Main.mkCount (countChecked getISODate cmap startDate endDate)
                            (Z.of_nat (length (visited startDate endDate))))
    /\ (forall activities id a,
          activities !! id = Some a -> a_type a = "check" -> checks a = Some cmap ->
          Goals.countChecksInRange tza fuel activities [id] startDate endDate
          = Returns (countChecked getISODate cmap startDate endDate))
    /\ (forall t, In t (visited startDate endDate)
                  <-> exists k, 0 <= k /\ t = startDate + k * msPerDay /\ t <= endDate)
    /\ (forall t, getISODate t
                  = yearString (YearFromTime t) +:+ "-" +:+ digits 2 (MonthFromTime t + 1)
                    +:+ "-" +:+ digits 2 (DateFromTime t)).
Proof.
  intros tza cmap startDate endDate fuel Hf.
  assert (forall n s, length (walk n s) = n) as Hlen
    by (induction n as [|n IH]; intros s; simpl; [reflexivity | rewrite IH; reflexivity]).
  split; [|split; [|split]].
  - unfold Main.countChecksInRange. rewrite main_countLoop by assumption.
    unfold visited. rewrite Hlen. reflexivity.
  - intros activities id a L T C.
    unfold Goals.countChecksInRange. simpl. rewrite L, T, C. simpl.
    rewrite goals_countLoop by assumption. reflexivity.
  - intros t. apply visited_spec.
  - reflexivity.
Qed.


(** ** The streak walk *)

Lemma runLength_bounds q c : forall j, 0 <= runLength q j c <= Z.of_nat c.
Proof.
  induction c as [|c IH]; intros j; simpl runLength; [lia|].
  specialize (IH (j + 1)). destruct (q j); lia.
Qed.

Lemma runLength_all q c : forall j,
  (forall k, j <= k < j + Z.of_nat c -> q k = true) ->
  runLength q j c = Z.of_nat c.
Proof.
  induction c as [|c IH]; intros j H; simpl runLength; [reflexivity|].
  rewrite (H j) by lia. rewrite IH; [lia|].
  intros k Hk. apply H. lia.
Qed.

Lemma runLength_run q c : forall j n,
  0 <= n < Z.of_nat c ->
  (forall k, j <= k < j + n -> q k = true) -> q (j + n) = false ->
  runLength q j c = n.
Proof.
  induction c as [|c IH]; intros j n Hn Hq Hs; [lia|].
  simpl runLength. destruct (Z.eq_dec n 0) as [->|N].
  - rewrite Z.add_0_r in Hs. rewrite Hs. reflexivity.
  - rewrite (Hq j) by lia. rewrite (IH (j + 1) (n - 1)); [lia | lia | |].
    + intros k Hk. apply Hq. lia.
    + replace (j + 1 + (n - 1)) with (j + n) by lia. assumption.
Qed.

Lemma forallb_range (P : Z -> bool) (lo : nat) (n : nat) :
  forallb P (map Z.of_nat (seq lo n)) = true ->
  forall k, Z.of_nat lo <= k < Z.of_nat lo + Z.of_nat n -> P k = true.
Proof.
  rewrite forallb_forall. intros H k Hk.
  apply H. apply in_map_iff. exists (Z.to_nat k). split; [lia|].
  apply in_seq. lia.
Qed.

Section Streak.
Variable tza : Z.
Variable activities : gmap string Activity.
Variable activityIds : list string.
Variable streakType : string.
Variable today : Z.

Let q := qualifies tza activities activityIds streakType today.

(** Once the streak is not 0, the walk from day [j] on counts the leading
    qualifying days among the days up to day 365. *)
Lemma streakLoop_run c : forall fuel j streak,
  0 < streak -> j = 366 - Z.of_nat c -> (1 <= c)%nat -> (c <= fuel)%nat ->
  Goals.streakLoop tza fuel activities activityIds streakType today
    (today - j * msPerDay) streak
  = Returns (streak + runLength q j c).
Proof.
  induction c as [|c IH]; intros fuel j streak Hs Hj Hc Hf; [lia|].
  destruct fuel as [|fuel]; [lia|].
  simpl Goals.streakLoop. simpl runLength.
  change (Goals.dayHasActivity tza activities activityIds
            (getISODate (today - j * msPerDay)) streakType) with (q j).
  destruct (q j).
  - rewrite setDate_prev.
    change (1000 * 60 * 60 * 24) with msPerDay.
    replace (today - (today - j * msPerDay - msPerDay)) with ((j + 1) * msPerDay) by lia.
    rewrite Z.div_mul by discriminate.
    destruct (j + 1 >? 365) eqn:G.
    + rewrite Z.gtb_ltb in G. apply Z.ltb_lt in G.
      destruct c as [|c]; [simpl; f_equal; lia | lia].
    + rewrite Z.gtb_ltb in G. apply Z.ltb_ge in G.
      replace (today - j * msPerDay - msPerDay) with (today - (j + 1) * msPerDay) by lia.
      rewrite IH by lia. f_equal. lia.
  - destruct (Z.eqb_spec streak 0); [lia|]. f_equal. lia.
Qed.

(** The value of [calculateStreak]: the run that ends today, looked for
    among 366 days, or else the run that ends yesterday, among 365. *)
Lemma calculateStreak_value fuel :
  (366 <= fuel)%nat ->
  Goals.calculateStreak tza fuel today activities activityIds streakType
  = Returns (if q 0 then runLength q 0 366 else runLength q 1 365).
Proof.
  intros Hf. destruct fuel as [|fuel]; [lia|].
  unfold Goals.calculateStreak. simpl Goals.streakLoop.
  assert (today = today - 0 * msPerDay) as E0 by lia.
  assert (Goals.dayHasActivity tza activities activityIds (getISODate today) streakType = q 0) as ->.
  { unfold q, qualifies. rewrite <- E0. reflexivity. }
  rewrite setDate_prev. change (1000 * 60 * 60 * 24) with msPerDay.
  assert (Goals.dayHasActivity tza activities activityIds
            (getISODate (today - msPerDay)) streakType = q 1) as ->.
  { unfold q, qualifies. replace (today - 1 * msPerDay) with (today - msPerDay) by lia.
    reflexivity. }
  destruct (q 0) eqn:Q0.
  - replace (today - (today - msPerDay)) with (1 * msPerDay) by lia.
    rewrite Z.div_mul by discriminate. simpl (1 >? 365).
    replace (today - msPerDay) with (today - 1 * msPerDay) by lia.
    rewrite (streakLoop_run 365) by lia.
    change 366%nat with (S 365). simpl runLength. rewrite Q0. f_equal.
  - simpl (0 =? 0). destruct (q 1) eqn:Q1.
    + rewrite setDate_prev.
      replace (today - msPerDay - msPerDay) with (today - 2 * msPerDay) by lia.
      rewrite (streakLoop_run 364) by lia.
      change 365%nat with (S 364). simpl runLength. rewrite Q1. f_equal.
    + change 365%nat with (S 364). simpl runLength. rewrite Q1. reflexivity.
Qed.
End Streak.

(** C5. calculateStreak returns, for every snapshot, id list and streak
    type: 366 steps of its loop are enough at every instant and in every
    zone. Its result is at most 366, the walk breaking once it is more than
    365 days before today; when every day from today back to day 365
    qualifies the result is 366. *)
Theorem calculateStreak_terminates :
  forall tza now activities activityIds streakType fuel,
    (366 <= fuel)%nat ->
    exists n,
      Goals.calculateStreak tza fuel now activities activityIds streakType = Returns n
      /\ 0 <= n <= 366
      /\ ((forall k, 0 <= k <= 365 ->
             qualifies tza activities activityIds streakType now k = true) ->
          n = 366).
Proof.
  intros tza now activities activityIds streakType fuel Hf.
  rewrite calculateStreak_value by assumption.
  eexists. split; [reflexivity|].
  set (q := qualifies tza activities activityIds streakType now).
  pose proof (runLength_bounds q 366 0) as B0.
  pose proof (runLength_bounds q 365 1) as B1.
  split.
  - destruct (q 0); lia.
  - intros H. rewrite (H 0) by lia.
    rewrite runLength_all; [reflexivity|].
    intros k Hk. apply H. lia.
Qed.

Lemma calculateStreak_terminates_witness :
  Goals.calculateStreak 0 366 1704967200000
    {[ "work" := mkActivity "time" (Some [mkEntry 0 (Some 4102444800000)]) None ]}
    [] "time"
  = Returns 366.
Proof.
  destruct (calculateStreak_terminates 0 1704967200000
              {[ "work" := mkActivity "time" (Some [mkEntry 0 (Some 4102444800000)]) None ]}
              [] "time" 366) as (n & E & _ & H); [lia|].
  rewrite E. f_equal. apply H. intros k Hk.
  apply (forallb_range _ 0 366); [vm_compute; reflexivity | lia].
Defined.

(** C4, counterexample. On a host in UTC, a check activity checked on each
    of the 366 days before today and not today: the maximal run of
    qualifying days ending yesterday has length 366 (day 367 does not
    qualify), and calculateStreak returns 365. *)
Lemma calculateStreak_run_capped :
  let now := 1704967200000 in
  let checks : gmap string bool :=
    list_to_map (map (fun k => (getISODate (now - Z.of_nat k * msPerDay), true)) (seq 1 366)) in
  let activities : gmap string Activity :=
    {[ "read" := mkActivity "check" None (Some checks) ]} in
  let q := qualifies 0 activities ["read"] "check" now in
  q 0 = false
  /\ (forall k, 1 <= k <= 366 -> q k = true)
  /\ q 367 = false
  /\ Goals.calculateStreak 0 400 now activities ["read"] "check" = Returns 365.
Proof.
  intros now checks activities q. split; [|split; [|split]].
  - vm_compute. reflexivity.
  - intros k Hk. apply (forallb_range q 1 366); [vm_compute; reflexivity | lia].
  - vm_compute. reflexivity.
  - vm_compute. reflexivity.
Qed.

(** C4, amended. In a zone of constant offset [tza] from UTC, where no
    daylight-saving change falls into the days walked and every step back
    of the walk is therefore exactly 86400000 ms: when today does not
    qualify, calculateStreak returns the number of consecutive qualifying
    days that end at yesterday, counted over at most 365 days. The limit is
    the test of the elapsed time: after day j has been counted the walk has
    gone j + 1 days of 86400000 ms back and stops when j + 1 exceeds 365.
    With a maximal run of n days ending yesterday it returns the smaller of
    n and 365. With yesterday qualifying and the day before not, it returns
    1; if neither today nor yesterday qualifies it returns 0. For a single
    check activity a day qualifies when the date string of that day is
    checked. The statement holds for either streak type; a zone whose
    offset changes within the walk is outside it. *)
Theorem calculateStreak_grace :
  forall tza now activities activityIds streakType fuel,
    (366 <= fuel)%nat ->
    let q := qualifies tza activities activityIds streakType now in
    q 0 = false ->
    (forall current, setDate tza current (getDate tza current - 1) = current - msPerDay)
    /\ (forall j, (now - (now - (j + 1) * msPerDay)) / (1000 * 60 * 60 * 24) = j + 1)
    /\ Goals.calculateStreak tza fuel now activities activityIds streakType
       = Returns (runLength q 1 365)
    /\ (forall n, 1 <= n -> (forall k, 1 <= k <= n -> q k = true) -> q (n + 1) = false ->
          Goals.calculateStreak tza fuel now activities activityIds streakType
          = Returns (Z.min n 365))
    /\ (q 1 = true -> q 2 = false ->
          Goals.calculateStreak tza fuel now activities activityIds streakType = Returns 1)
    /\ (q 1 = false ->
          Goals.calculateStreak tza fuel now activities activityIds streakType = Returns 0)
    /\ (forall id a c k,
          activityIds = [id] -> streakType = "check" ->
          activities !! id = Some a -> a_type a = "check" -> checks a = Some c ->
          q k = isChecked c (getISODate (now - k * msPerDay))).
Proof.
  intros tza now activities activityIds streakType fuel Hf q Q0.
  assert (Goals.calculateStreak tza fuel now activities activityIds streakType
          = Returns (runLength q 1 365)) as V.
  { rewrite calculateStreak_value by assumption. fold q. rewrite Q0. reflexivity. }
  split; [apply setDate_prev|]. split.
  { intros j. replace (now - (now - (j + 1) * msPerDay)) with ((j + 1) * msPerDay) by lia.
    apply Z.div_mul. discriminate. }
  split; [exact V|]. split; [|split; [|split]].
  - intros n Hn Hrun Hstop. rewrite V. f_equal.
    destruct (Z.le_gt_cases 365 n) as [L|G].
    + rewrite runLength_all; [lia|]. intros k Hk. apply Hrun. lia.
    + rewrite (runLength_run q 365 1 n); [lia | lia | | rewrite Z.add_comm; assumption].
      intros k Hk. apply Hrun. lia.
  - intros Q1 Q2. rewrite V. f_equal.
    apply (runLength_run q 365 1 1); [lia | | assumption].
    intros k Hk. replace k with 1 by lia. assumption.
  - intros Q1. rewrite V. f_equal.
    apply (runLength_run q 365 1 0); [lia | intros; lia | assumption].
  - intros id a c k -> -> L T C. unfold q, qualifies, Goals.dayHasActivity.
    simpl. rewrite L, T, C. simpl. apply orb_false_r.
Qed.

Lemma calculateStreak_grace_witness :
  Goals.calculateStreak 0 366 1704967200000
    {[ "read" := mkActivity "check" None (Some {[ "2024-01-10" := true ]}) ]}
    ["read"] "check"
  = Returns 1.
Proof.
  destruct (calculateStreak_grace 0 1704967200000
              {[ "read" := mkActivity "check" None (Some {[ "2024-01-10" := true ]}) ]}
              ["read"] "check" 366) as (_ & _ & _ & _ & H & _); [lia | reflexivity |].
  apply H; reflexivity.
Defined.

(** ** The goal evaluator *)

Section Evaluator.
Variable tza : Z.
Variable now : Z.
Variable activities : gmap string Activity.

Lemma evaluateTimeGoal_value goal cfg :
  config goal = Some cfg ->
  Goals.evaluateTimeGoal tza now goal activities
  = Returns {| achieved := minutesTracked tza now activities cfg >=? targetMinutes cfg;
               current := minutesTracked tza now activities cfg;
               target := targetMinutes cfg;
               progressPercentage :=
                 percentage (minutesTracked tza now activities cfg) (targetMinutes cfg);
               unit := "minutes" |}.
Proof.
  intros C. unfold Goals.evaluateTimeGoal, Goals.configOf, minutesTracked. rewrite C.
  simpl. destruct (getPeriodRange tza (period cfg) now) as [s e]. reflexivity.
Qed.

(** Each of the three evaluators computes the percentage from the current
    value and the target it returns. *)
Lemma evaluateGoal_percentage fuel goal r :
  g_type goal = "time" \/ g_type goal = "count" \/ g_type goal = "streak" ->
  Goals.evaluateGoal tza fuel now goal activities = Returns r ->
  progressPercentage r = percentage (current r) (target r).
Proof.
  intros T. unfold Goals.evaluateGoal.
  destruct T as [T|[T|T]]; rewrite T; simpl.
  - destruct (config goal) as [cfg|] eqn:C.
    + rewrite (evaluateTimeGoal_value goal cfg C). intros E. inversion E. reflexivity.
    + unfold Goals.evaluateTimeGoal, Goals.configOf. rewrite C. discriminate.
  - unfold Goals.evaluateCountGoal, Goals.configOf.
    destruct (config goal) as [cfg|]; [|discriminate]. simpl.
    destruct (getPeriodRange tza (period cfg) now) as [s e].
    destruct (Goals.countChecksInRange tza fuel activities (Goals.idList cfg) s e);
      simpl; try discriminate.
    intros E. inversion E. reflexivity.
  - unfold Goals.evaluateStreakGoal, Goals.configOf.
    destruct (config goal) as [cfg|]; [|discriminate]. simpl.
    match goal with |- context [Goals.calculateStreak ?a ?b ?c ?d ?e ?f] =>
      destruct (Goals.calculateStreak a b c d e f) end; simpl; try discriminate.
    intros E. inversion E. reflexivity.
Qed.
End Evaluator.

(** C9. A goal whose type is none of time, count and streak evaluates, on
    every snapshot, at every instant and in every zone, to the neutral
    result: not achieved, current 0, target 0, percentage 0, unit unknown.
    The call returns, also when the goal has no config, and for the type
    bogus in particular. *)
Theorem evaluateGoal_unknown_type :
  forall tza fuel now goal activities,
    g_type goal <> "time" -> g_type goal <> "count" -> g_type goal <> "streak" ->
    Goals.evaluateGoal tza fuel now goal activities
    = Returns {| achieved := false; current := 0; target := 0;
                 progressPercentage := Int 0; unit := "unknown" |}.
Proof.
  intros tza fuel now goal activities Ht Hc Hs. unfold Goals.evaluateGoal.
  destruct (String.eqb_spec (g_type goal) "time"); [contradiction|].
  destruct (String.eqb_spec (g_type goal) "count"); [contradiction|].
  destruct (String.eqb_spec (g_type goal) "streak"); [contradiction|].
  reflexivity.
Qed.

Lemma evaluateGoal_unknown_type_witness :
  Goals.evaluateGoal 0 0 1704967200000 (mkGoal "bogus" None) ∅ = Returns neutral.
Proof.
  apply (evaluateGoal_unknown_type 0 0 1704967200000 (mkGoal "bogus" None) ∅);
    simpl; discriminate.
Defined.

(** C10. The current value of a time goal is the floor of the summed
    overlap in milliseconds over 60000, and the achieved flag and the
    percentage are computed from that whole number of minutes: a total one
    millisecond short of the target minutes counts as one minute less and
    is not achieved. *)
Theorem evaluateTimeGoal_floor_minutes :
  forall tza now goal cfg activities,
    config goal = Some cfg ->
    let range := getPeriodRange tza (period cfg) now in
    let totalMs :=
      Goals.calculateTimeInRange activities (Goals.idList cfg) (fst range) (snd range) in
    exists r,
      Goals.evaluateTimeGoal tza now goal activities = Returns r
      /\ current r = totalMs / 60000
      /\ current r * 60000 <= totalMs < (current r + 1) * 60000
      /\ achieved r = (current r >=? targetMinutes cfg)
      /\ progressPercentage r = percentage (current r) (targetMinutes cfg)
      /\ (totalMs = targetMinutes cfg * 60000 - 1 ->
          current r = targetMinutes cfg - 1 /\ achieved r = false).
Proof.
  intros tza now goal cfg activities C range totalMs.
  rewrite (evaluateTimeGoal_value tza now activities goal cfg C).
  eexists. split; [reflexivity|]. simpl.
  change (minutesTracked tza now activities cfg) with (totalMs / 60000).
  split; [reflexivity|]. split; [|split; [reflexivity|split; [reflexivity|]]].
  - pose proof (Z.div_mod totalMs 60000). pose proof (Z.mod_pos_bound totalMs 60000). lia.
  - intros E.
    assert (totalMs / 60000 = targetMinutes cfg - 1) as ->.
    { symmetry. apply (Z.div_unique totalMs 60000 _ 59999); lia. }
    split; [reflexivity|]. rewrite Z.geb_leb. apply Z.leb_gt. lia.
Qed.

Lemma evaluateTimeGoal_floor_minutes_witness :
  exists r,
    Goals.evaluateTimeGoal 0 1704967200000
      (mkGoal "time" (Some (mkConfig (Some "work") "day" 60 0 0)))
      {[ "work" := mkActivity "time"
                     (Some [mkEntry 1704960000000 (Some 1704963599999)]) None ]}
    = Returns r
    /\ current r = 59 /\ achieved r = false.
Proof.
  destruct (evaluateTimeGoal_floor_minutes 0 1704967200000
              (mkGoal "time" (Some (mkConfig (Some "work") "day" 60 0 0)))
              (mkConfig (Some "work") "day" 60 0 0)
              {[ "work" := mkActivity "time"
                             (Some [mkEntry 1704960000000 (Some 1704963599999)]) None ]}
              eq_refl) as (r & E & _ & _ & _ & _ & H).
  exists r. split; [exact E|]. apply H. vm_compute. reflexivity.
Defined.

(** C1, counterexample. A time goal of 60 minutes a day over an activity
    whose only entry today ends ten minutes before it starts: the entry is
    not skipped, the current value is -10 and the percentage is -17, below
    the interval from 0 to 100. *)
Lemma evaluateTimeGoal_percentage_below_zero :
  Goals.evaluateTimeGoal 0 1704967200000
    (mkGoal "time" (Some (mkConfig (Some "work") "day" 60 0 0)))
    {[ "work" := mkActivity "time"
                   (Some [mkEntry 1704963600000 (Some 1704963000000)]) None ]}
  = Returns {| achieved := false; current := -10; target := 60;
               progressPercentage := Int (-17); unit := "minutes" |}
  /\ ~ (0 <= -17 <= 100).
Proof. split; [vm_compute; reflexivity | lia]. Qed.

(** C1, amended. For every time goal evaluation, achieved is true exactly
    when current >= target, and progressPercentage is
    Math.min(100, Math.round(current / target * 100)): never more than 100
    and never the positive infinity, with no clamp from below, so that it is
    an integer from 0 to 100 whenever current is not negative and the target
    is positive. A target of 60 with current 60 gives achieved and 100, with
    current 59 not achieved and 98; current 150 against 100 gives 100 and
    achieved. *)
Theorem evaluateTimeGoal_progress :
  forall tza now goal cfg activities,
    config goal = Some cfg ->
    exists r,
      Goals.evaluateTimeGoal tza now goal activities = Returns r
      /\ target r = targetMinutes cfg
      /\ unit r = "minutes"
      /\ (achieved r = true <-> current r >= target r)
      /\ progressPercentage r
         = Math_min 100 (Math_round (mul (div (ofZ (current r)) (ofZ (target r))) (ofZ 100)))
      /\ progressPercentage r <> PosInf
      /\ (forall p, progressPercentage r = Int p -> p <= 100)
      /\ (0 <= current r < 2 ^ 53 -> 0 < target r < 2 ^ 53 ->
          exists p, progressPercentage r = Int p /\ 0 <= p <= 100)
      /\ (target r = 60 -> current r = 60 ->
          achieved r = true /\ progressPercentage r = Int 100)
      /\ (target r = 60 -> current r = 59 ->
          achieved r = false /\ progressPercentage r = Int 98)
      /\ (target r = 100 -> current r = 150 ->
          achieved r = true /\ progressPercentage r = Int 100).
Proof.
  intros tza now goal cfg activities C.
  rewrite (evaluateTimeGoal_value tza now activities goal cfg C).
  eexists. split; [reflexivity|]. simpl.
  generalize (minutesTracked tza now activities cfg). intros c.
  generalize (targetMinutes cfg). intros t.
  split; [reflexivity|]. split; [reflexivity|].
  split; [rewrite Z.geb_leb, Z.leb_le; lia|].
  split; [reflexivity|].
  split; [apply percentage_upper|].
  split; [apply percentage_upper|].
  split; [apply percentage_range|].
  split; [|split]; intros -> ->; split; reflexivity.
Qed.

Lemma evaluateTimeGoal_progress_witness :
  (exists r,
     Goals.evaluateTimeGoal 0 1704967200000
       (mkGoal "time" (Some (mkConfig (Some "work") "day" 60 0 0)))
       {[ "work" := mkActivity "time"
                      (Some [mkEntry 1704960000000 (Some 1704963600000)]) None ]}
     = Returns r
     /\ achieved r = true /\ progressPercentage r = Int 100)
  /\ (exists r,
        Goals.evaluateTimeGoal 0 1704967200000
          (mkGoal "time" (Some (mkConfig (Some "work") "day" 60 0 0)))
          {[ "work" := mkActivity "time"
                         (Some [mkEntry 1704960000000 (Some 1704963540000)]) None ]}
        = Returns r
        /\ achieved r = false /\ progressPercentage r = Int 98
        /\ exists p, progressPercentage r = Int p /\ 0 <= p <= 100)
  /\ (exists r,
        Goals.evaluateTimeGoal 0 1704967200000
          (mkGoal "time" (Some (mkConfig (Some "work") "day" 100 0 0)))
          {[ "work" := mkActivity "time"
                         (Some [mkEntry 1704956400000 (Some 1704965400000)]) None ]}
        = Returns r
        /\ achieved r = true /\ progressPercentage r = Int 100).
Proof.
  split; [|split].
  - destruct (evaluateTimeGoal_progress 0 1704967200000
                (mkGoal "time" (Some (mkConfig (Some "work") "day" 60 0 0)))
                (mkConfig (Some "work") "day" 60 0 0)
                {[ "work" := mkActivity "time"
                               (Some [mkEntry 1704960000000 (Some 1704963600000)]) None ]}
                eq_refl) as (r & E & T & _ & _ & _ & _ & _ & _ & H & _).
    exists r. split; [exact E|]. apply H; [exact T|].
    vm_compute in E. inversion E. reflexivity.
  - destruct (evaluateTimeGoal_progress 0 1704967200000
                (mkGoal "time" (Some (mkConfig (Some "work") "day" 60 0 0)))
                (mkConfig (Some "work") "day" 60 0 0)
                {[ "work" := mkActivity "time"
                               (Some [mkEntry 1704960000000 (Some 1704963540000)]) None ]}
                eq_refl) as (r & E & T & _ & _ & _ & _ & _ & B & _ & H & _).
    assert (current r = 59) as Cr by (vm_compute in E; inversion E; reflexivity).
    exists r. split; [exact E|].
    destruct (H T Cr) as [A P]. split; [exact A|]. split; [exact P|].
    apply B; [rewrite Cr | rewrite T]; simpl; lia.
  - destruct (evaluateTimeGoal_progress 0 1704967200000
                (mkGoal "time" (Some (mkConfig (Some "work") "day" 100 0 0)))
                (mkConfig (Some "work") "day" 100 0 0)
                {[ "work" := mkActivity "time"
                               (Some [mkEntry 1704956400000 (Some 1704965400000)]) None ]}
                eq_refl) as (r & E & T & _ & _ & _ & _ & _ & _ & _ & _ & H).
    exists r. split; [exact E|]. apply H; [exact T|].
    vm_compute in E. inversion E. reflexivity.
Defined.

(** C7, counterexample. A time goal and a streak goal with target 0 on a
    snapshot without activity: current is 0 and the percentage, computed
    from 0 / 0, is NaN. *)
Lemma evaluateGoal_zero_target_NaN :
  Goals.evaluateGoal 0 366 1704967200000
    (mkGoal "time" (Some (mkConfig (Some "work") "day" 0 0 0))) ∅
  = Returns {| achieved := true; current := 0; target := 0;
               progressPercentage := NaN; unit := "minutes" |}
  /\ Goals.evaluateGoal 0 366 1704967200000
       (mkGoal "streak" (Some (mkConfig (Some "read") "" 0 0 0))) ∅
     = Returns {| achieved := true; current := 0; target := 0;
                  progressPercentage := NaN; unit := "days" |}.
Proof. split; vm_compute; reflexivity. Qed.

(** C7, amended. For every time, count or streak goal whose target is less
    than or equal to 0, with current and target below 2^53 in absolute
    value, the progressPercentage is never the positive infinity; it is NaN
    exactly when target and current are both 0; with target 0 it is 100 for
    a positive current and the negative infinity for a negative one. *)
Theorem evaluateGoal_nonpositive_target :
  forall tza fuel now goal activities r,
    g_type goal = "time" \/ g_type goal = "count" \/ g_type goal = "streak" ->
    Goals.evaluateGoal tza fuel now goal activities = Returns r ->
    target r <= 0 -> safe (current r) -> safe (target r) ->
    progressPercentage r <> PosInf
    /\ (progressPercentage r = NaN <-> current r = 0 /\ target r = 0)
    /\ (target r = 0 -> 0 < current r -> progressPercentage r = Int 100)
    /\ (target r = 0 -> current r < 0 -> progressPercentage r = NegInf).
Proof.
  intros tza fuel now goal activities r T E Ht Sc St.
  rewrite (evaluateGoal_percentage tza now activities fuel goal r T E).
  split; [apply percentage_upper|].
  split; [apply percentage_NaN_iff; assumption|].
  split; intros -> Hc; rewrite (percentage_zero_target _ Sc).
  - destruct (Z.eqb_spec (current r) 0); [lia|].
    destruct (Z.ltb_spec 0 (current r)); [reflexivity | lia].
  - destruct (Z.eqb_spec (current r) 0); [lia|].
    destruct (Z.ltb_spec 0 (current r)); [lia | reflexivity].
Qed.

Lemma evaluateGoal_nonpositive_target_witness :
  let r := {| achieved := true; current := 0; target := 0;
              progressPercentage := NaN; unit := "minutes" |} in
  Goals.evaluateGoal 0 0 1704967200000
    (mkGoal "time" (Some (mkConfig (Some "work") "day" 0 0 0))) ∅ = Returns r
  /\ progressPercentage r <> PosInf
  /\ (progressPercentage r = NaN <-> current r = 0 /\ target r = 0).
Proof.
  intros r.
  assert (Goals.evaluateGoal 0 0 1704967200000
            (mkGoal "time" (Some (mkConfig (Some "work") "day" 0 0 0))) ∅ = Returns r) as E
    by (vm_compute; reflexivity).
  split; [exact E|].
  destruct (evaluateGoal_nonpositive_target 0 0 1704967200000
              (mkGoal "time" (Some (mkConfig (Some "work") "day" 0 0 0))) ∅ r)
    as (H1 & H2 & _).
  - left. reflexivity.
  - exact E.
  - simpl. lia.
  - unfold safe. simpl. lia.
  - unfold safe. simpl. lia.
  - split; assumption.
Defined.

(** * Beyond the goal engine: ranges, handlers and the renderer *)

(** ** More of the calendar *)

Section Calendar.

Lemma DayFromYear_step y : DayFromYear (y + 1) = DayFromYear y + DaysInYear y.
Proof.
  unfold DayFromYear, DaysInYear.
  destruct (Z.eqb_spec (y mod 4) 0); simpl;
    [destruct (Z.eqb_spec (y mod 100) 0); simpl;
       [destruct (Z.eqb_spec (y mod 400) 0); simpl|]|];
    Z.div_mod_to_equations; lia.
Qed.

Lemma DaysInYear_cases y : DaysInYear y = 365 \/ DaysInYear y = 366.
Proof.
  unfold DaysInYear.
  destruct (y mod 4 =? 0); simpl; [|auto].
  destruct (y mod 100 =? 0); simpl; [|auto].
  destruct (y mod 400 =? 0); simpl; auto.
Qed.

Lemma DayFromYear_mono a b : a <= b -> DayFromYear a <= DayFromYear b.
Proof. unfold DayFromYear. intros H. Z.div_mod_to_equations. lia. Qed.

(** The year of a day is the only year whose days contain it. *)
Lemma YearFromTime_unique t y :
  DayFromYear y <= Day t < DayFromYear (y + 1) -> YearFromTime t = y.
Proof.
  intros H. pose proof (YearFromTime_spec t) as S.
  destruct (Z.lt_trichotomy (YearFromTime t) y) as [L|[E|G]]; [|assumption|].
  - pose proof (DayFromYear_mono (YearFromTime t + 1) y). lia.
  - pose proof (DayFromYear_mono (y + 1) (YearFromTime t)). lia.
Qed.

Lemma DayWithinYear_range t : 0 <= DayWithinYear t < DaysInYear (YearFromTime t).
Proof.
  unfold DayWithinYear. pose proof (YearFromTime_spec t) as S.
  rewrite DayFromYear_step in S. lia.
Qed.

Lemma InLeapYear_DaysInYear t : DaysInYear (YearFromTime t) = 365 + InLeapYear t.
Proof.
  unfold InLeapYear. destruct (DaysInYear_cases (YearFromTime t)) as [E|E]; rewrite E; reflexivity.
Qed.

Lemma DateFromTime_range t :
  1 <= DateFromTime t <= DaysInMonth (YearFromTime t) (MonthFromTime t).
Proof.
  pose proof (DayWithinYear_range t) as R. rewrite InLeapYear_DaysInYear in R.
  unfold DateFromTime, MonthFromTime, DaysInMonth.
  assert (InLeapYear t = (if DaysInYear (YearFromTime t) =? 366 then 1 else 0)) as L by reflexivity.
  destruct (DaysInYear (YearFromTime t) =? 366); rewrite L in *; clear L;
    repeat match goal with
      | |- context [if ?a <? ?b then _ else _] => destruct (Z.ltb_spec a b); simpl
      end; unfold monthStart; simpl; lia.
Qed.
End Calendar.

(** ** Date strings *)

Section DateStrings.

Lemma digitChar_code n : nat_of_ascii (digitChar n) = (48 + Z.to_nat (n mod 10))%nat.
Proof.
  unfold digitChar. apply nat_ascii_embedding.
  pose proof (Z.mod_pos_bound n 10). lia.
Qed.

Lemma digitVal_digitChar n : digitVal (digitChar n) = Some (n mod 10).
Proof.
  unfold digitVal. rewrite digitChar_code.
  pose proof (Z.mod_pos_bound n 10).
  destruct (Nat.leb_spec 48 (48 + Z.to_nat (n mod 10))); [|lia].
  destruct (Nat.leb_spec (48 + Z.to_nat (n mod 10)) 57); [|lia].
  simpl. f_equal. lia.
Qed.

Lemma digitChar_not_sign n :
  Ascii.eqb (digitChar n) "+" = false /\ Ascii.eqb (digitChar n) "-" = false.
Proof.
  pose proof (digitChar_code n) as C. pose proof (Z.mod_pos_bound n 10).
  split; apply Ascii.eqb_neq; intros E; rewrite E in C;
    [change (nat_of_ascii "+") with 43%nat in C | change (nat_of_ascii "-") with 45%nat in C];
    lia.
Qed.

Lemma isoDatePart_Day t1 t2 : Day t1 = Day t2 -> isoDatePart t1 = isoDatePart t2.
Proof.
  intros H.
  unfold isoDatePart, DateFromTime, MonthFromTime, InLeapYear, DayWithinYear, YearFromTime.
  rewrite H. reflexivity.
Qed.

Lemma fields_of_time t :
  fields (Some (YearFromTime t)) (Some (MonthFromTime t + 1)) (Some (DateFromTime t))
  = Some (Day t * msPerDay).
Proof.
  pose proof (MonthFromTime_range t). pose proof (DateFromTime_range t) as D.
  unfold fields.
  replace (MonthFromTime t + 1 - 1) with (MonthFromTime t) by lia.
  destruct (Z.leb_spec 1 (MonthFromTime t + 1)); [|lia].
  destruct (Z.leb_spec (MonthFromTime t + 1) 12); [|lia].
  destruct (Z.leb_spec 1 (DateFromTime t)); [|lia].
  destruct (Z.leb_spec (DateFromTime t) (DaysInMonth (YearFromTime t) (MonthFromTime t))); [|lia].
  simpl. f_equal.
  pose proof (MakeDay_of_time t 0) as M. rewrite Z.add_0_r in M. rewrite M.
  unfold MakeDate. lia.
Qed.

Lemma number_digits2 n : 0 <= n < 100 ->
  number 0 (String (digitChar (n / 10)) (String (digitChar n) EmptyString)) = Some n.
Proof.
  intros H. cbn [number]. rewrite !digitVal_digitChar. f_equal.
  Z.div_mod_to_equations. lia.
Qed.

Lemma number_digits4 n : 0 <= n < 10000 ->
  number 0 (String (digitChar (n / 10 / 10 / 10)) (String (digitChar (n / 10 / 10))
             (String (digitChar (n / 10)) (String (digitChar n) EmptyString)))) = Some n.
Proof.
  intros H. cbn [number]. rewrite !digitVal_digitChar. f_equal.
  Z.div_mod_to_equations. lia.
Qed.

Lemma number_digits6 n : 0 <= n < 1000000 ->
  number 0 (String (digitChar (n / 10 / 10 / 10 / 10 / 10))
             (String (digitChar (n / 10 / 10 / 10 / 10))
                (String (digitChar (n / 10 / 10 / 10)) (String (digitChar (n / 10 / 10))
                   (String (digitChar (n / 10)) (String (digitChar n) EmptyString))))))
  = Some n.
Proof.
  intros H. cbn [number]. rewrite !digitVal_digitChar. f_equal.
  Z.div_mod_to_equations. lia.
Qed.

Lemma dateString4 y m d :
  digits 4 y +:+ "-" +:+ digits 2 m +:+ "-" +:+ digits 2 d
  = String (digitChar (y / 10 / 10 / 10)) (String (digitChar (y / 10 / 10))
      (String (digitChar (y / 10)) (String (digitChar y)
        (String "-" (String (digitChar (m / 10)) (String (digitChar m)
          (String "-" (String (digitChar (d / 10)) (String (digitChar d) EmptyString))))))))).
Proof. reflexivity. Qed.

Lemma dateString6 (sg : ascii) y m d :
  (String sg EmptyString +:+ digits 6 y) +:+ "-" +:+ digits 2 m +:+ "-" +:+ digits 2 d
  = String sg
      (String (digitChar (y / 10 / 10 / 10 / 10 / 10)) (String (digitChar (y / 10 / 10 / 10 / 10))
        (String (digitChar (y / 10 / 10 / 10)) (String (digitChar (y / 10 / 10))
          (String (digitChar (y / 10)) (String (digitChar y)
            (String "-" (String (digitChar (m / 10)) (String (digitChar m)
              (String "-" (String (digitChar (d / 10))
                 (String (digitChar d) EmptyString)))))))))))).
Proof. reflexivity. Qed.

(** Reading back the date string of an instant gives the midnight, in UTC,
    of the day of the instant. *)
Lemma parseDate_isoDate t :
  -999999 <= YearFromTime t <= 999999 ->
  parseDate (getISODate t) = Some (Day t * msPerDay).
Proof.
  intros Hy. pose proof (MonthFromTime_range t) as Hm.
  pose proof (DateFromTime_range t) as Hd.
  assert (DaysInMonth (YearFromTime t) (MonthFromTime t) <= 31) as Hd'.
  { unfold DaysInMonth. repeat match goal with |- context [if ?b then _ else _] => destruct b end; lia. }
  rewrite <- (fields_of_time t).
  unfold getISODate, isoDatePart, yearString.
  destruct (Z.leb_spec 0 (YearFromTime t)) as [P|N]; simpl andb.
  - destruct (Z.leb_spec (YearFromTime t) 9999) as [S|L]; simpl andb.
    + rewrite dateString4. unfold parseDate.
      destruct (digitChar_not_sign (YearFromTime t / 10 / 10 / 10)) as [-> ->].
      cbn -[number fields digitChar Z.div].
      rewrite number_digits4 by lia.
      rewrite !number_digits2 by lia. reflexivity.
    + destruct (Z.ltb_spec (YearFromTime t) 0); [lia|].
      rewrite dateString6. unfold parseDate.
      cbn -[number fields digitChar Z.div].
      rewrite number_digits6 by lia.
      rewrite !number_digits2 by lia. reflexivity.
  - destruct (Z.ltb_spec (YearFromTime t) 0); [|lia].
    rewrite dateString6. unfold parseDate.
    cbn -[number fields digitChar Z.div Z.opp].
    rewrite number_digits6 by lia.
    rewrite !number_digits2 by lia. cbn [option_map]. rewrite Z.opp_involutive. reflexivity.
Qed.

(** X1. For instants whose year lies within -999999..999999: reading the
    date string of getISODate back with new Date(dateStr) gives the UTC
    midnight of the day of the instant, and two instants have the same date
    string exactly when they lie on the same day of UTC. *)
Theorem getISODate_round_trip t1 t2 :
  -999999 <= YearFromTime t1 <= 999999 -> -999999 <= YearFromTime t2 <= 999999 ->
  parseDate (getISODate t1) = Some (Day t1 * msPerDay)
  /\ (getISODate t1 = getISODate t2 <-> Day t1 = Day t2).
Proof.
  intros H1 H2. pose proof (parseDate_isoDate t1 H1) as P1. split; [exact P1|]. split.
  - intros E. pose proof (parseDate_isoDate t2 H2) as P2.
    rewrite E, P2 in P1. inversion P1. unfold msPerDay in *. lia.
  - apply isoDatePart_Day.
Qed.
End DateStrings.

(** ** The period ranges *)

Section Periods.

Lemma month_cases m : 0 <= m <= 11 ->
  m = 0 \/ m = 1 \/ m = 2 \/ m = 3 \/ m = 4 \/ m = 5 \/ m = 6 \/ m = 7 \/ m = 8
  \/ m = 9 \/ m = 10 \/ m = 11.
Proof. lia. Qed.

Lemma DaysInMonth_range y m : 28 <= DaysInMonth y m <= 31.
Proof.
  unfold DaysInMonth.
  repeat match goal with |- context [if ?b then _ else _] => destruct b end; lia.
Qed.

Lemma MakeDay_in_range y m d : 0 <= m <= 11 ->
  MakeDay y m d
  = DayFromYear y + monthStart m (if DaysInYear y =? 366 then 1 else 0) + d - 1.
Proof.
  intros H. unfold MakeDay. rewrite Z.div_small, Z.mod_small by lia.
  rewrite Z.add_0_r. reflexivity.
Qed.

(** The last day of a month is the day before the first of the next one,
    also across the end of the year. *)
Lemma MakeDay_next_month y m : 0 <= m <= 11 ->
  MakeDay y (m + 1) 0 = MakeDay y m 1 + DaysInMonth y m - 1.
Proof.
  intros H. rewrite (MakeDay_in_range y m 1 H).
  destruct (Z.eq_dec m 11) as [->|N].
  - unfold MakeDay. change ((11 + 1) / 12) with 1. change ((11 + 1) mod 12) with 0.
    rewrite DayFromYear_step. unfold monthStart, DaysInMonth. simpl.
    destruct (DaysInYear_cases y) as [E|E]; rewrite E;
      destruct (DaysInYear (y + 1) =? 366); simpl; lia.
  - rewrite MakeDay_in_range by lia.
    destruct (month_cases m H) as [E|[E|[E|[E|[E|[E|[E|[E|[E|[E|[E|E]]]]]]]]]]];
      subst m; try lia; unfold monthStart, DaysInMonth; simpl;
      destruct (DaysInYear y =? 366); lia.
Qed.

(** A day made from a year, a month and a day of that month decomposes
    into them again. *)
Lemma MakeDay_decompose y m d t :
  0 <= m <= 11 -> 1 <= d <= DaysInMonth y m -> Day t = MakeDay y m d ->
  YearFromTime t = y /\ MonthFromTime t = m /\ DateFromTime t = d.
Proof.
  intros Hm Hd Ht. rewrite MakeDay_in_range in Ht by assumption.
  assert (0 <= monthStart m (if DaysInYear y =? 366 then 1 else 0) + d - 1 < DaysInYear y) as Hb.
  { revert Hd. unfold DaysInMonth.
    destruct (DaysInYear_cases y) as [E|E]; rewrite E;
      destruct (month_cases m Hm) as [M|[M|[M|[M|[M|[M|[M|[M|[M|[M|[M|M]]]]]]]]]]];
      subst m; cbn; lia. }
  assert (YearFromTime t = y) as Hy.
  { apply YearFromTime_unique. rewrite DayFromYear_step, Ht. lia. }
  split; [assumption|].
  unfold DateFromTime, MonthFromTime, DayWithinYear, InLeapYear. rewrite Hy, Ht.
  replace (DayFromYear y + monthStart m (if DaysInYear y =? 366 then 1 else 0) + d - 1
           - DayFromYear y)
    with (monthStart m (if DaysInYear y =? 366 then 1 else 0) + d - 1) by lia.
  clear Hb Hy Ht. revert Hd. unfold DaysInMonth.
  destruct (DaysInYear_cases y) as [E|E]; rewrite E;
    destruct (month_cases m Hm) as [M|[M|[M|[M|[M|[M|[M|[M|[M|[M|[M|M]]]]]]]]]]];
    subst m; cbn -[Z.ltb Z.add Z.sub]; intros Hd;
    repeat match goal with
      | |- context [if ?a <? ?b then _ else _] =>
          destruct (Z.ltb_spec a b); [|try (exfalso; lia)]
      end; cbn; lia.
Qed.
End Periods.

Section PeriodRanges.
Variable tza : Z.

Lemma newDate_local y m d h mi s ms :
  ~ (0 <= y <= 99) ->
  LocalTime tza (newDate tza y m d h mi s ms) = MakeDate (MakeDay y m d) (MakeTime h mi s ms).
Proof.
  intros H. unfold newDate, UTC, LocalTime.
  destruct (Z.leb_spec 0 y); destruct (Z.leb_spec y 99); simpl; lia.
Qed.

Lemma Day_between d t : d * msPerDay <= t <= d * msPerDay + (msPerDay - 1) <-> Day t = d.
Proof.
  pose proof (day_decomposition t). pose proof (TimeWithinDay_range t).
  unfold msPerDay in *. split; intros; subst; lia.
Qed.

Lemma Day_bounds d n t :
  0 < n -> d * msPerDay <= t <= d * msPerDay + n * msPerDay - 1 -> d <= Day t <= d + n - 1.
Proof.
  intros Hn H. unfold Day. split.
  - apply Z.div_le_lower_bound; [reflexivity | lia].
  - assert (t / msPerDay < d + n); [|lia].
    apply Z.div_lt_upper_bound; [reflexivity | lia].
Qed.

(** The day range: it holds the date, lasts a day and starts at a local
    midnight. *)
Lemma getDay_span date :
  getDayStart tza date <= date <= getDayEnd tza date
  /\ getDayEnd tza date = getDayStart tza date + msPerDay - 1
  /\ TimeWithinDay (LocalTime tza (getDayStart tza date)) = 0.
Proof.
  pose proof (getDayStart_local tza date) as S. pose proof (getDayEnd_local tza date) as E.
  pose proof (day_decomposition (LocalTime tza date)) as D.
  pose proof (TimeWithinDay_range (LocalTime tza date)) as R.
  split; [|split].
  - revert S E D R. unfold LocalTime, msPerDay. lia.
  - revert S E. unfold LocalTime. lia.
  - rewrite S. unfold TimeWithinDay. apply Z.mod_mul. discriminate.
Qed.

(** X2. In a zone of constant offset, for every date: getDayStart(date) <=
    date <= getDayEnd(date), the end is the start plus 86400000 - 1 ms, the
    start is a local midnight, and an instant lies in the range exactly when
    it falls on the same local day as the date. *)
Theorem getDay_range_is_local_day date :
  getDayStart tza date <= date <= getDayEnd tza date
  /\ getDayEnd tza date = getDayStart tza date + msPerDay - 1
  /\ TimeWithinDay (LocalTime tza (getDayStart tza date)) = 0
  /\ (forall t, getDayStart tza date <= t <= getDayEnd tza date
                <-> Day (LocalTime tza t) = Day (LocalTime tza date)).
Proof.
  pose proof (getDayStart_local tza date) as S. pose proof (getDayEnd_local tza date) as E.
  pose proof (day_decomposition (LocalTime tza date)) as D.
  pose proof (TimeWithinDay_range (LocalTime tza date)) as R.
  split; [|split; [|split]].
  - revert S E D R. unfold LocalTime, msPerDay. lia.
  - revert S E. unfold LocalTime. lia.
  - rewrite S. unfold TimeWithinDay. apply Z.mod_mul. discriminate.
  - intros t. rewrite <- Day_between.
    revert S E. unfold LocalTime, msPerDay. lia.
Qed.

Lemma getWeekEnd_local date :
  LocalTime tza (getWeekEnd tza date)
  = LocalTime tza (getWeekStart tza date) + 7 * msPerDay - 1.
Proof.
  unfold getWeekEnd. rewrite setHours_local, setDate_shift.
  replace (LocalTime tza (getWeekStart tza date + 6 * msPerDay))
    with (LocalTime tza (getWeekStart tza date) + 6 * msPerDay) by (unfold LocalTime; lia).
  rewrite getWeekStart_local, Day_shift.
  unfold Day at 1. rewrite Z.div_mul by discriminate.
  unfold MakeDate, MakeTime, msPerDay. lia.
Qed.

(** The Monday before a day, by weekdays alone. *)
Lemma monday_of_day d : (d - ((d + 4) mod 7 + 6) mod 7 + 4) mod 7 = 1.
Proof. Z.div_mod_to_equations. lia. Qed.

Lemma monday_unique m d' :
  (m + 4) mod 7 = 1 -> m <= d' <= m + 6 -> d' - ((d' + 4) mod 7 + 6) mod 7 = m.
Proof. intros M H. Z.div_mod_to_equations. lia. Qed.

(** The week range holds the date and lasts seven days. *)
Lemma getWeek_span date :
  getWeekStart tza date <= date <= getWeekEnd tza date
  /\ getWeekEnd tza date = getWeekStart tza date + 7 * msPerDay - 1.
Proof.
  pose proof (getWeekStart_local tza date) as S.
  pose proof (getWeekEnd_local date) as E.
  pose proof (day_decomposition (LocalTime tza date)) as D.
  pose proof (TimeWithinDay_range (LocalTime tza date)) as R.
  assert (0 <= (getDay tza date + 6) mod 7 <= 6) as M
    by (pose proof (Z.mod_pos_bound (getDay tza date + 6) 7); lia).
  revert S E M. generalize ((getDay tza date + 6) mod 7). intros k S E M.
  assert (getWeekEnd tza date = getWeekStart tza date + 7 * msPerDay - 1) as We
    by (revert E; unfold LocalTime; lia).
  split; [|exact We].
  rewrite We. revert S D R M. unfold LocalTime, msPerDay. lia.
Qed.

(** X3. In a zone of constant offset, for every date: getWeekStart(date) <=
    date <= getWeekEnd(date), the end is the start plus seven days minus 1
    ms and falls on a Sunday, and every instant of the range has the same
    week start and week end, so the week ranges partition time. *)
Theorem getWeek_range_is_local_week date :
  getWeekStart tza date <= date <= getWeekEnd tza date
  /\ getWeekEnd tza date = getWeekStart tza date + 7 * msPerDay - 1
  /\ getDay tza (getWeekEnd tza date) = 0
  /\ (forall t, getWeekStart tza date <= t <= getWeekEnd tza date ->
                getWeekStart tza t = getWeekStart tza date
                /\ getWeekEnd tza t = getWeekEnd tza date).
Proof.
  pose proof (getWeekStart_local tza date) as S.
  pose proof (getWeekEnd_local date) as E.
  pose proof (day_decomposition (LocalTime tza date)) as D.
  pose proof (TimeWithinDay_range (LocalTime tza date)) as R.
  unfold getDay, WeekDay in S.
  pose proof (monday_of_day (Day (LocalTime tza date))) as Mo.
  assert (0 <= ((Day (LocalTime tza date) + 4) mod 7 + 6) mod 7 <= 6) as M
    by (pose proof (Z.mod_pos_bound ((Day (LocalTime tza date) + 4) mod 7 + 6) 7); lia).
  revert S E Mo M.
  generalize (((Day (LocalTime tza date) + 4) mod 7 + 6) mod 7). intros k S E Mo M.
  assert (getWeekEnd tza date = getWeekStart tza date + 7 * msPerDay - 1) as We
    by (revert E; unfold LocalTime; lia).
  split; [|split; [|split]].
  - rewrite We. revert S D R M. unfold LocalTime, msPerDay. lia.
  - exact We.
  - unfold getDay, WeekDay. rewrite E, S.
    assert (Day ((Day (LocalTime tza date) - k) * msPerDay + 7 * msPerDay - 1)
            = Day (LocalTime tza date) - k + 6) as ->.
    { apply Day_between. unfold msPerDay. lia. }
    revert Mo. generalize (Day (LocalTime tza date) - k). intros m Mo.
    Z.div_mod_to_equations. lia.
  - intros t Ht.
    assert (getWeekStart tza t = getWeekStart tza date) as W.
    { assert (LocalTime tza (getWeekStart tza t) = LocalTime tza (getWeekStart tza date)) as L;
        [|revert L; unfold LocalTime; lia].
      rewrite (getWeekStart_local tza t), S. f_equal.
      unfold getDay, WeekDay. apply monday_unique; [assumption|].
      assert (Day (LocalTime tza date) - k <= Day (LocalTime tza t)
              <= Day (LocalTime tza date) - k + 7 - 1); [|lia].
      apply Day_bounds; [lia|].
      rewrite We in Ht. revert Ht S. unfold LocalTime, msPerDay. lia. }
    split; [assumption|]. unfold getWeekEnd. rewrite W. reflexivity.
Qed.

Lemma getMonthStart_local date :
  ~ (0 <= getFullYear tza date <= 99) ->
  LocalTime tza (getMonthStart tza date)
  = (Day (LocalTime tza date) - (getDate tza date - 1)) * msPerDay.
Proof.
  intros H. unfold getMonthStart. rewrite newDate_local by assumption.
  unfold getFullYear, getMonth, getDate.
  pose proof (MakeDay_of_time (LocalTime tza date) (1 - DateFromTime (LocalTime tza date))) as M.
  replace (DateFromTime (LocalTime tza date) + (1 - DateFromTime (LocalTime tza date)))
    with 1 in M by lia.
  rewrite M. unfold MakeDate, MakeTime. lia.
Qed.

Lemma getMonthEnd_local date :
  ~ (0 <= getFullYear tza date <= 99) ->
  LocalTime tza (getMonthEnd tza date)
  = LocalTime tza (getMonthStart tza date)
    + DaysInMonth (getFullYear tza date) (getMonth tza date) * msPerDay - 1.
Proof.
  intros H. rewrite getMonthStart_local by assumption.
  unfold getMonthEnd. rewrite newDate_local by assumption.
  unfold getFullYear, getMonth, getDate.
  pose proof (MonthFromTime_range (LocalTime tza date)) as R.
  rewrite MakeDay_next_month by assumption.
  pose proof (MakeDay_of_time (LocalTime tza date) (1 - DateFromTime (LocalTime tza date))) as M.
  replace (DateFromTime (LocalTime tza date) + (1 - DateFromTime (LocalTime tza date)))
    with 1 in M by lia.
  rewrite M. unfold MakeDate, MakeTime, msPerDay. lia.
Qed.

(** The month range holds the date, lasts the days of its month and
    starts at a local midnight. *)
Lemma getMonth_span date :
  ~ (0 <= getFullYear tza date <= 99) ->
  let days := DaysInMonth (getFullYear tza date) (getMonth tza date) in
  getMonthStart tza date <= date <= getMonthEnd tza date
  /\ getMonthEnd tza date = getMonthStart tza date + days * msPerDay - 1
  /\ 28 <= days <= 31
  /\ TimeWithinDay (LocalTime tza (getMonthStart tza date)) = 0.
Proof.
  intros H days.
  pose proof (getMonthStart_local date H) as S.
  pose proof (getMonthEnd_local date H) as E. fold days in E.
  pose proof (DaysInMonth_range (getFullYear tza date) (getMonth tza date)) as Rd.
  fold days in Rd.
  pose proof (DateFromTime_range (LocalTime tza date)) as Dr.
  change (DateFromTime (LocalTime tza date)) with (getDate tza date) in Dr.
  change (DaysInMonth (YearFromTime (LocalTime tza date)) (MonthFromTime (LocalTime tza date)))
    with days in Dr.
  pose proof (day_decomposition (LocalTime tza date)) as D.
  pose proof (TimeWithinDay_range (LocalTime tza date)) as R.
  assert (getMonthEnd tza date = getMonthStart tza date + days * msPerDay - 1) as Me
    by (revert E; unfold LocalTime; lia).
  split; [|split; [exact Me|split; [exact Rd|]]].
  - rewrite Me. revert S D R Dr Rd. unfold LocalTime.
    generalize (days * msPerDay - 1). unfold msPerDay. lia.
  - rewrite S. unfold TimeWithinDay. apply Z.mod_mul. discriminate.
Qed.

(** X4. In a zone of constant offset, for every date whose local year is not
    one of 0..99 (which new Date(year, ...) reads as 1900 + year):
    getMonthStart(date) <= date <= getMonthEnd(date); the range lasts the 28
    to 31 days of the local month, from the local midnight of day 1 to the
    last millisecond of the last day; every instant of the range has the
    local year and month of the date. *)
Theorem getMonth_range_is_local_month date :
  ~ (0 <= getFullYear tza date <= 99) ->
  let days := DaysInMonth (getFullYear tza date) (getMonth tza date) in
  getMonthStart tza date <= date <= getMonthEnd tza date
  /\ getMonthEnd tza date = getMonthStart tza date + days * msPerDay - 1
  /\ 28 <= days <= 31
  /\ TimeWithinDay (LocalTime tza (getMonthStart tza date)) = 0
  /\ getDate tza (getMonthStart tza date) = 1
  /\ getDate tza (getMonthEnd tza date) = days
  /\ (forall t, getMonthStart tza date <= t <= getMonthEnd tza date ->
                getFullYear tza t = getFullYear tza date
                /\ getMonth tza t = getMonth tza date).
Proof.
  intros H days.
  pose proof (getMonthStart_local date H) as S.
  pose proof (getMonthEnd_local date H) as E. fold days in E.
  pose proof (DaysInMonth_range (getFullYear tza date) (getMonth tza date)) as Rd.
  fold days in Rd.
  pose proof (DateFromTime_range (LocalTime tza date)) as Dr.
  change (DateFromTime (LocalTime tza date)) with (getDate tza date) in Dr.
  change (DaysInMonth (YearFromTime (LocalTime tza date)) (MonthFromTime (LocalTime tza date)))
    with days in Dr.
  pose proof (MonthFromTime_range (LocalTime tza date)) as Mr.
  pose proof (day_decomposition (LocalTime tza date)) as D.
  pose proof (TimeWithinDay_range (LocalTime tza date)) as R.
  assert (getMonthEnd tza date = getMonthStart tza date + days * msPerDay - 1) as Me
    by (revert E; unfold LocalTime; lia).
  (* every day of the range decomposes into the year and the month of the date *)
  assert (forall t, getMonthStart tza date <= t <= getMonthEnd tza date ->
            YearFromTime (LocalTime tza t) = getFullYear tza date
            /\ MonthFromTime (LocalTime tza t) = getMonth tza date
            /\ DateFromTime (LocalTime tza t)
               = Day (LocalTime tza t) - (Day (LocalTime tza date) - (getDate tza date - 1)) + 1)
    as Dec.
  { intros t Ht.
    assert (Day (LocalTime tza date) - (getDate tza date - 1) <= Day (LocalTime tza t)
            <= Day (LocalTime tza date) - (getDate tza date - 1) + days - 1) as B.
    { apply Day_bounds; [lia|]. rewrite Me in Ht. revert Ht S.
      unfold LocalTime. generalize (days * msPerDay).
      generalize ((Day (date + tza) - (getDate tza date - 1)) * msPerDay). lia. }
    apply MakeDay_decompose; [exact Mr | fold days; lia |].
    pose proof (MakeDay_of_time (LocalTime tza date)
                  (Day (LocalTime tza t) - Day (LocalTime tza date))) as Mk.
    unfold getFullYear, getMonth.
    replace (Day (LocalTime tza t) - (Day (LocalTime tza date) - (getDate tza date - 1)) + 1)
      with (DateFromTime (LocalTime tza date)
            + (Day (LocalTime tza t) - Day (LocalTime tza date)))
      by (unfold getDate; lia).
    rewrite Mk. lia. }
  split; [|split; [|split; [|split; [|split; [|split]]]]].
  - rewrite Me. revert S D R Dr Rd. unfold LocalTime.
    generalize (days * msPerDay - 1). unfold msPerDay. lia.
  - exact Me.
  - exact Rd.
  - rewrite S. unfold TimeWithinDay. apply Z.mod_mul. discriminate.
  - destruct (Dec (getMonthStart tza date)) as (_ & _ & Dt).
    + rewrite Me. unfold msPerDay. lia.
    + unfold getDate at 1. rewrite Dt, S. unfold Day at 1.
      rewrite Z.div_mul by discriminate. lia.
  - destruct (Dec (getMonthEnd tza date)) as (_ & _ & Dt).
    + rewrite Me. unfold msPerDay. lia.
    + unfold getDate at 1. rewrite Dt, E, S.
      assert (Day ((Day (LocalTime tza date) - (getDate tza date - 1)) * msPerDay
                   + days * msPerDay - 1)
              = Day (LocalTime tza date) - (getDate tza date - 1) + (days - 1)) as ->.
      { apply Day_between. unfold msPerDay. lia. }
      lia.
  - intros t Ht. destruct (Dec t Ht) as (Y & M & _). split; assumption.
Qed.

Lemma getYearStart_local date :
  ~ (0 <= getFullYear tza date <= 99) ->
  LocalTime tza (getYearStart tza date) = DayFromYear (getFullYear tza date) * msPerDay.
Proof.
  intros H. unfold getYearStart. rewrite newDate_local by assumption.
  rewrite MakeDay_in_range by lia. unfold monthStart, MakeDate, MakeTime. simpl. lia.
Qed.

Lemma getYearEnd_local date :
  ~ (0 <= getFullYear tza date <= 99) ->
  LocalTime tza (getYearEnd tza date)
  = DayFromYear (getFullYear tza date + 1) * msPerDay - 1.
Proof.
  intros H. unfold getYearEnd. rewrite newDate_local by assumption.
  rewrite MakeDay_in_range by lia. rewrite DayFromYear_step.
  unfold monthStart, MakeDate, MakeTime. simpl.
  destruct (DaysInYear_cases (getFullYear tza date)) as [E|E]; rewrite E; simpl;
    unfold msPerDay; lia.
Qed.

(** The year range holds the date and lasts the days of its year. *)
Lemma getYear_span date :
  ~ (0 <= getFullYear tza date <= 99) ->
  getYearStart tza date <= date <= getYearEnd tza date
  /\ getYearEnd tza date
     = getYearStart tza date + DaysInYear (getFullYear tza date) * msPerDay - 1.
Proof.
  intros H.
  pose proof (getYearStart_local date H) as S. pose proof (getYearEnd_local date H) as E.
  pose proof (YearFromTime_spec (LocalTime tza date)) as Y.
  change (YearFromTime (LocalTime tza date)) with (getFullYear tza date) in Y.
  pose proof (DayFromYear_step (getFullYear tza date)) as St.
  pose proof (day_decomposition (LocalTime tza date)) as D.
  pose proof (TimeWithinDay_range (LocalTime tza date)) as R.
  split.
  - revert S E D R Y St. unfold LocalTime.
    generalize (DayFromYear (getFullYear tza date + 1)) (DayFromYear (getFullYear tza date)).
    unfold msPerDay. intros. lia.
  - revert S E. rewrite St. unfold LocalTime. lia.
Qed.

(** X5. In a zone of constant offset, for every date whose local year is not
    one of 0..99: getYearStart(date) <= date <= getYearEnd(date); the range
    lasts the 365 or 366 days of the local year, from January 1 to December
    31, and an instant lies in it exactly when its local year is that of the
    date. *)
Theorem getYear_range_is_local_year date :
  ~ (0 <= getFullYear tza date <= 99) ->
  getYearStart tza date <= date <= getYearEnd tza date
  /\ getYearEnd tza date
     = getYearStart tza date + DaysInYear (getFullYear tza date) * msPerDay - 1
  /\ (forall t, getYearStart tza date <= t <= getYearEnd tza date
                <-> getFullYear tza t = getFullYear tza date)
  /\ getMonth tza (getYearStart tza date) = 0 /\ getDate tza (getYearStart tza date) = 1
  /\ getMonth tza (getYearEnd tza date) = 11 /\ getDate tza (getYearEnd tza date) = 31.
Proof.
  intros H.
  pose proof (getYearStart_local date H) as S. pose proof (getYearEnd_local date H) as E.
  pose proof (YearFromTime_spec (LocalTime tza date)) as Y.
  change (YearFromTime (LocalTime tza date)) with (getFullYear tza date) in Y.
  pose proof (DayFromYear_step (getFullYear tza date)) as St.
  pose proof (DaysInYear_cases (getFullYear tza date)) as Dc.
  set (y := getFullYear tza date) in *.
  assert (forall t, getYearStart tza date <= t <= getYearEnd tza date
                    <-> DayFromYear y <= Day (LocalTime tza t) < DayFromYear (y + 1)) as In.
  { intros t. pose proof (day_decomposition (LocalTime tza t)) as D.
    pose proof (TimeWithinDay_range (LocalTime tza t)) as R.
    revert S E D R. unfold LocalTime. generalize (DayFromYear (y + 1)) (DayFromYear y).
    unfold msPerDay. intros. lia. }
  assert (forall t d, Day (LocalTime tza t) = d ->
            forall m dt, d = MakeDay y m dt -> 0 <= m <= 11 -> 1 <= dt <= DaysInMonth y m ->
            getMonth tza t = m /\ getDate tza t = dt) as Dec.
  { intros t d Hd m dt Hm Rm Rdt. subst d.
    destruct (MakeDay_decompose y m dt (LocalTime tza t) Rm Rdt Hm) as (_ & A & B).
    split; assumption. }
  assert (getMonth tza (getYearStart tza date) = 0 /\ getDate tza (getYearStart tza date) = 1)
    as [M0 D0].
  { apply (Dec _ (DayFromYear y)).
    + rewrite S. unfold Day. apply Z.div_mul. discriminate.
    + rewrite MakeDay_in_range by lia. unfold monthStart. simpl. lia.
    + lia.
    + unfold DaysInMonth. simpl. lia. }
  assert (getMonth tza (getYearEnd tza date) = 11 /\ getDate tza (getYearEnd tza date) = 31)
    as [M1 D1].
  { apply (Dec _ (DayFromYear (y + 1) - 1)).
    + rewrite E. apply Day_between. unfold msPerDay. lia.
    + rewrite MakeDay_in_range by lia. rewrite St. unfold monthStart. simpl.
      destruct Dc as [C|C]; rewrite C; simpl; lia.
    + lia.
    + unfold DaysInMonth. simpl. lia. }
  split; [|split; [|split; [|tauto]]].
  - apply In. exact Y.
  - revert S E. rewrite St. unfold LocalTime. lia.
  - intros t. rewrite In. split.
    + apply YearFromTime_unique.
    + intros <-. apply YearFromTime_spec.
Qed.

(** Every period range holds its reference date. *)
Lemma getPeriodRange_order period date :
  (period = "month" \/ period = "year" -> ~ (0 <= getFullYear tza date <= 99)) ->
  fst (getPeriodRange tza period date) <= date <= snd (getPeriodRange tza period date).
Proof.
  intros H. unfold getPeriodRange.
  destruct (String.eqb_spec period "day") as [Ed|Nd]; [apply getDay_span|].
  destruct (String.eqb_spec period "week") as [Ew|Nw]; [apply getWeek_span|].
  destruct (String.eqb_spec period "month") as [Em|Nm]; [apply getMonth_span; auto|].
  destruct (String.eqb_spec period "year") as [Ey|Ny]; [apply getYear_span; auto|].
  apply getDay_span.
Qed.

(** X6. In a zone of constant offset, for every period string and date
    (local year outside 0..99 for month and year): the range of
    getPeriodRange contains the date, starts at a local midnight and ends at
    the last millisecond of a local day; a period that is none of week,
    month and year gives the range of the day, as the default branch does. *)
Theorem getPeriodRange_contains period date :
  (period = "month" \/ period = "year" -> ~ (0 <= getFullYear tza date <= 99)) ->
  let range := getPeriodRange tza period date in
  fst range <= date <= snd range
  /\ TimeWithinDay (LocalTime tza (fst range)) = 0
  /\ TimeWithinDay (LocalTime tza (snd range)) = msPerDay - 1
  /\ (period <> "week" -> period <> "month" -> period <> "year" ->
      range = (getDayStart tza date, getDayEnd tza date)).
Proof.
  intros H. unfold getPeriodRange.
  assert (forall a k, LocalTime tza a = k * msPerDay -> TimeWithinDay (LocalTime tza a) = 0) as T0.
  { intros a k ->. unfold TimeWithinDay. apply Z.mod_mul. discriminate. }
  assert (forall a k, LocalTime tza a = k * msPerDay - 1 ->
            TimeWithinDay (LocalTime tza a) = msPerDay - 1) as T1.
  { intros a k ->. unfold TimeWithinDay.
    replace (k * msPerDay - 1) with ((msPerDay - 1) + (k - 1) * msPerDay) by lia.
    rewrite Z.mod_add by discriminate. reflexivity. }
  assert (fst (getDayStart tza date, getDayEnd tza date) <= date
            <= snd (getDayStart tza date, getDayEnd tza date)
          /\ TimeWithinDay (LocalTime tza (fst (getDayStart tza date, getDayEnd tza date))) = 0
          /\ TimeWithinDay (LocalTime tza (snd (getDayStart tza date, getDayEnd tza date)))
             = msPerDay - 1) as Dy.
  { simpl. destruct (getDay_span date) as (A & B & C).
    split; [exact A|]. split; [exact C|].
    apply (T1 _ (Day (LocalTime tza date) + 1)). rewrite getDayEnd_local. lia. }
  destruct (String.eqb_spec period "day") as [Ed|Nd].
  { destruct Dy as (A & B & C). repeat split; try assumption; apply A. }
  destruct (String.eqb_spec period "week") as [Ew|Nw].
  { simpl. destruct (getWeek_span date) as (A & B).
    split; [exact A|]. split; [|split; [|contradiction]].
    - apply (T0 _ _ (getWeekStart_local tza date)).
    - apply (T1 _ (Day (LocalTime tza date) - (getDay tza date + 6) mod 7 + 7)).
      rewrite getWeekEnd_local, getWeekStart_local. lia. }
  destruct (String.eqb_spec period "month") as [Em|Nm].
  { simpl. assert (~ (0 <= getFullYear tza date <= 99)) as Q by (apply H; auto).
    destruct (getMonth_span date Q) as (A & B & _ & C).
    split; [exact A|]. split; [exact C|]. split; [|contradiction].
    apply (T1 _ (Day (LocalTime tza date) - (getDate tza date - 1)
                 + DaysInMonth (getFullYear tza date) (getMonth tza date))).
    rewrite getMonthEnd_local, getMonthStart_local by assumption. lia. }
  destruct (String.eqb_spec period "year") as [Ey|Ny].
  { simpl. assert (~ (0 <= getFullYear tza date <= 99)) as Q by (apply H; auto).
    destruct (getYear_span date Q) as (A & _).
    split; [exact A|]. split; [|split; [|contradiction]].
    - apply (T0 _ _ (getYearStart_local date Q)).
    - apply (T1 _ _ (getYearEnd_local date Q)). }
  destruct Dy as (A & B & C). repeat split; try assumption; apply A.
Qed.
End PeriodRanges.

(** ** Goals on missing data *)

Section GoalEdges.
Variable tza : Z.
Variable now : Z.
Variable activities : gmap string Activity.

Lemma percentage_zero_current t : 0 < t < 2 ^ 53 -> percentage 0 t = Int 0.
Proof.
  intros H. unfold percentage. rewrite ofZ_zero.
  destruct (ofZ_cases t) as [[E _]|(m & e & E)]; [unfold safe; lia | lia |].
  rewrite E, ofZ_100. reflexivity.
Qed.

Lemma activityTime_untimed rs re id : untimed activities id -> activityTime activities rs re id = 0.
Proof.
  unfold untimed, activityTime. destruct (activities !! id) as [a|]; [|reflexivity].
  intros [H|[H|H]].
  - destruct (String.eqb_spec (a_type a) "time"); [contradiction | reflexivity].
  - rewrite H. destruct (String.eqb (a_type a) "time"); reflexivity.
  - rewrite H. destruct (String.eqb (a_type a) "time"); reflexivity.
Qed.

Lemma calculateTimeInRange_single id rs re :
  Goals.calculateTimeInRange activities [id] rs re = activityTime activities rs re id.
Proof.
  unfold Goals.calculateTimeInRange. rewrite engine_fold. unfold sumZ. simpl. lia.
Qed.

Lemma runLength_none q c j : (forall k, q k = false) -> runLength q j c = 0.
Proof. intros H. destruct c; simpl; [|rewrite H]; reflexivity. Qed.

Lemma dayHasActivity_unchecked id dateStr ty :
  ty <> "time" -> unchecked activities id ->
  Goals.dayHasActivity tza activities [id] dateStr ty = false.
Proof.
  intros Ht U. unfold Goals.dayHasActivity.
  destruct (String.eqb_spec ty "time"); [contradiction|]. simpl.
  unfold unchecked in U. destruct (activities !! id) as [a|]; [|reflexivity].
  destruct U as [H|[H|H]].
  - destruct (String.eqb_spec (a_type a) "check"); [contradiction | reflexivity].
  - rewrite H. destruct (String.eqb (a_type a) "check"); reflexivity.
  - rewrite H. destruct (String.eqb (a_type a) "check"); reflexivity.
Qed.

(** A goal on one activity that the snapshot does not hold counts nothing. *)
Lemma evaluateGoal_absent fuel goal cfg id :
  (366 <= fuel)%nat ->
  config goal = Some cfg -> Goals.idList cfg = [id] -> activities !! id = None ->
  g_type goal = "time" \/ g_type goal = "count" \/ g_type goal = "streak" ->
  exists r,
    Goals.evaluateGoal tza fuel now goal activities = Returns r
    /\ current r = 0
    /\ (0 < target r < 2 ^ 53 -> achieved r = false /\ progressPercentage r = Int 0).
Proof.
  intros Hf C Hi L T.
  assert (forall t, 0 < t < 2 ^ 53 -> (0 >=? t) = false /\ percentage 0 t = Int 0) as P.
  { intros t H. split.
    - rewrite Z.geb_leb. apply Z.leb_gt. lia.
    - apply percentage_zero_current. assumption. }
  unfold Goals.evaluateGoal. destruct T as [T|[T|T]]; rewrite T; simpl.
  - rewrite (evaluateTimeGoal_value tza now activities goal cfg C).
    unfold minutesTracked. rewrite Hi, calculateTimeInRange_single.
    rewrite activityTime_untimed by (unfold untimed; rewrite L; exact I).
    eexists. split; [reflexivity|]. split; [reflexivity|]. simpl. apply P.
  - unfold Goals.evaluateCountGoal, Goals.configOf. rewrite C. simpl.
    destruct (getPeriodRange tza (period cfg) now) as [s e]. rewrite Hi.
    unfold Goals.countChecksInRange. simpl. rewrite L. simpl.
    eexists. split; [reflexivity|]. split; [reflexivity|]. simpl. apply P.
  - unfold Goals.evaluateStreakGoal, Goals.configOf. rewrite C. simpl. rewrite Hi, L.
    rewrite calculateStreak_value by assumption.
    assert (forall k, qualifies tza activities [id] "check" now k = false) as Q.
    { intros k. unfold qualifies. apply dayHasActivity_unchecked; [discriminate|].
      unfold unchecked. rewrite L. exact I. }
    rewrite Q, runLength_none by assumption. simpl.
    eexists. split; [reflexivity|]. split; [reflexivity|]. simpl. apply P.
Qed.

(** X7. A time, count or streak goal whose activityId names an activity that
    is not in the snapshot evaluates without error (fuel of 366 loop steps
    suffices) to current = 0; with a target in 1..2^53-1 it is not achieved
    and its progressPercentage is 0. *)
Theorem evaluateGoal_missing_activity fuel goal cfg id :
  (366 <= fuel)%nat ->
  config goal = Some cfg -> activityId cfg = Some id -> id <> "" ->
  activities !! id = None ->
  g_type goal = "time" \/ g_type goal = "count" \/ g_type goal = "streak" ->
  exists r,
    Goals.evaluateGoal tza fuel now goal activities = Returns r
    /\ current r = 0
    /\ (0 < target r < 2 ^ 53 -> achieved r = false /\ progressPercentage r = Int 0).
Proof.
  intros Hf C Ha Hn L T. apply (evaluateGoal_absent fuel goal cfg id); try assumption.
  unfold Goals.idList. rewrite Ha.
  destruct (String.eqb_spec id ""); [contradiction | reflexivity].
Qed.

Lemma engine_total_nonneg ids rs re :
  rs <= re ->
  (forall id a es, activities !! id = Some a -> entries a = Some es -> Forall ordered es) ->
  0 <= Goals.calculateTimeInRange activities ids rs re.
Proof.
  intros Hr Hw.
  assert (forall l, 0 <= sumZ (map (activityTime activities rs re) l)) as Hs.
  { induction l as [|id l IH]; unfold sumZ in *; simpl; [lia|].
    assert (0 <= activityTime activities rs re id); [|lia].
    unfold activityTime. destruct (activities !! id) as [a|] eqn:L; [|lia].
    destruct (String.eqb (a_type a) "time"); [|lia].
    destruct (entries a) as [es|] eqn:E; [|simpl; lia].
    rewrite calculateTimeInRange_sum. apply sumOverlap_nonneg; [assumption|].
    apply (Hw id a es); assumption. }
  unfold Goals.calculateTimeInRange. rewrite engine_fold.
  match goal with |- 0 <= 0 + sumZ (map _ ?l) => specialize (Hs l) end. lia.
Qed.

(** X8. When no closed entry of the snapshot ends before it starts (zone of
    constant offset, local year outside 0..99 for month and year periods),
    evaluateTimeGoal returns with current >= 0, and with current and a
    positive target below 2^53 its progressPercentage is an integer from 0
    to 100. *)
Theorem evaluateTimeGoal_ordered_entries goal cfg :
  config goal = Some cfg ->
  (period cfg = "month" \/ period cfg = "year" -> ~ (0 <= getFullYear tza now <= 99)) ->
  (forall id a es, activities !! id = Some a -> entries a = Some es -> Forall ordered es) ->
  exists r,
    Goals.evaluateTimeGoal tza now goal activities = Returns r
    /\ 0 <= current r
    /\ (current r < 2 ^ 53 -> 0 < targetMinutes cfg < 2 ^ 53 ->
        exists p, progressPercentage r = Int p /\ 0 <= p <= 100).
Proof.
  intros C Hq Hw. rewrite (evaluateTimeGoal_value tza now activities goal cfg C).
  eexists. split; [reflexivity|]. simpl.
  assert (0 <= minutesTracked tza now activities cfg) as Hc.
  { unfold minutesTracked. apply Z.div_pos; [|lia].
    apply engine_total_nonneg; [|assumption].
    pose proof (getPeriodRange_order tza (period cfg) now Hq) as A. lia. }
  split; [assumption|]. intros Hs Ht. apply percentage_range; lia.
Qed.

Lemma countChecked_bounds f c s e :
  0 <= countChecked f c s e <= Z.of_nat (iterations s e).
Proof.
  unfold countChecked, visited.
  assert (forall n t, length (walk n t) = n) as Hl
    by (induction n as [|n IH]; intros t; simpl; [|rewrite IH]; reflexivity).
  pose proof (filter_length_le (fun t => isChecked c (f t)) (walk (iterations s e) s)) as H.
  rewrite Hl in H. lia.
Qed.

Lemma iterations_span s n : 0 < n -> iterations s (s + n * msPerDay - 1) = Z.to_nat n.
Proof.
  intros H. unfold iterations.
  destruct (Z.leb_spec s (s + n * msPerDay - 1)) as [_|G]; [|unfold msPerDay in G; lia].
  f_equal.
  replace (s + n * msPerDay - 1 - s) with ((msPerDay - 1) + (n - 1) * msPerDay) by lia.
  rewrite Z.div_add by discriminate. rewrite Z.div_small by (unfold msPerDay; lia). lia.
Qed.

Lemma countIds_value fuel s e : forall ids c,
  (iterations s e < fuel)%nat ->
  Goals.countIds tza fuel activities ids s e c
  = Returns (c + sumZ (map (activityChecks activities s e) ids)).
Proof.
  induction ids as [|id ids IH]; intros c Hf; simpl.
  - unfold sumZ. simpl. f_equal. lia.
  - unfold sumZ in *. simpl. unfold activityChecks at 1.
    destruct (activities !! id) as [a|]; [|rewrite IH by assumption; f_equal; lia].
    destruct (String.eqb (a_type a) "check"); simpl;
      [|rewrite IH by assumption; f_equal; lia].
    destruct (checks a) as [cm|]; [|rewrite IH by assumption; f_equal; lia].
    rewrite goals_countLoop by assumption. simpl.
    rewrite IH by assumption. f_equal. lia.
Qed.

(** The number of days of a period range. *)
Lemma getPeriodRange_days period :
  (period = "month" \/ period = "year" -> ~ (0 <= getFullYear tza now <= 99)) ->
  exists n, 1 <= n <= 366
    /\ snd (getPeriodRange tza period now) = fst (getPeriodRange tza period now) + n * msPerDay - 1
    /\ (period = "week" -> n = 7)
    /\ (period = "month" -> n <= 31)
    /\ (period <> "week" -> period <> "month" -> period <> "year" -> n = 1).
Proof.
  intros H. unfold getPeriodRange.
  assert (getDayEnd tza now = getDayStart tza now + 1 * msPerDay - 1) as Dy.
  { destruct (getDay_span tza now) as (_ & B & _). rewrite B. lia. }
  destruct (String.eqb_spec period "day") as [Ed|Nd].
  { exists 1. simpl. subst period.
    split; [lia|]. split; [exact Dy|].
    split; [discriminate|]. split; [discriminate | reflexivity]. }
  destruct (String.eqb_spec period "week") as [Ew|Nw].
  { exists 7. simpl. destruct (getWeek_span tza now) as (_ & B).
    subst period. split; [lia|]. split; [exact B|].
    split; [reflexivity|]. split; [discriminate | contradiction]. }
  destruct (String.eqb_spec period "month") as [Em|Nm].
  { assert (~ (0 <= getFullYear tza now <= 99)) as Q by (apply H; auto).
    destruct (getMonth_span tza now Q) as (_ & B & C & _).
    eexists. simpl. subst period. split; [|split; [exact B|]]; [lia|].
    split; [discriminate|]. split; [lia | contradiction]. }
  destruct (String.eqb_spec period "year") as [Ey|Ny].
  { assert (~ (0 <= getFullYear tza now <= 99)) as Q by (apply H; auto).
    destruct (getYear_span tza now Q) as (_ & B).
    pose proof (DaysInYear_cases (getFullYear tza now)) as Dc.
    eexists. simpl. subst period. split; [|split; [exact B|]]; [lia|].
    split; [discriminate|]. split; [discriminate | contradiction]. }
  exists 1. simpl. split; [lia|]. split; [exact Dy|].
  split; [contradiction|]. split; [contradiction | reflexivity].
Qed.

(** X9. In a zone of constant offset (local year outside 0..99 for month and
    year periods), a count goal on one activity evaluates without error (367
    loop steps suffice) to the count countChecksInRange makes of that
    activity over the range of the period, 0 if it is missing, not of type
    check or without checks: between 0 and 366, at most 7 for a week, at
    most 31 for a month, and at most 1 for a day or an unknown period. *)
Theorem evaluateCountGoal_bounds fuel goal cfg id :
  (367 <= fuel)%nat ->
  config goal = Some cfg -> Goals.idList cfg = [id] ->
  (period cfg = "month" \/ period cfg = "year" -> ~ (0 <= getFullYear tza now <= 99)) ->
  exists r,
    Goals.evaluateCountGoal tza fuel now goal activities = Returns r
    /\ current r = activityChecks activities (fst (getPeriodRange tza (period cfg) now))
                                  (snd (getPeriodRange tza (period cfg) now)) id
    /\ 0 <= current r <= 366
    /\ (period cfg = "week" -> current r <= 7)
    /\ (period cfg = "month" -> current r <= 31)
    /\ (period cfg <> "week" -> period cfg <> "month" -> period cfg <> "year" -> current r <= 1).
Proof.
  intros Hf C Hi Hq.
  destruct (getPeriodRange_days (period cfg) Hq) as (n & Hn & E & W & M & D).
  unfold Goals.evaluateCountGoal, Goals.configOf. rewrite C. simpl.
  destruct (getPeriodRange tza (period cfg) now) as [s e]. simpl in *.
  rewrite Hi. unfold Goals.countChecksInRange.
  assert (iterations s e = Z.to_nat n) as It by (rewrite E; apply iterations_span; lia).
  rewrite countIds_value by lia. simpl.
  eexists. split; [reflexivity|]. simpl. unfold sumZ. simpl.
  split; [lia|].
  assert (0 <= activityChecks activities s e id <= n) as B.
  { unfold activityChecks. destruct (activities !! id) as [a|]; [|lia].
    destruct (String.eqb (a_type a) "check"); [|lia].
    destruct (checks a) as [c|]; [|lia].
    pose proof (countChecked_bounds getISODate c s e) as B. rewrite It in B. lia. }
  split; [lia|]. split; [intros P; specialize (W P); lia|].
  split; [intros P; specialize (M P); lia|].
  intros P1 P2 P3. specialize (D P1 P2 P3). lia.
Qed.

(** X10. In a zone of constant offset, a streak goal evaluates (366 loop
    steps suffice) to a current streak between 0 and 366 with target =
    targetDays; achieved holds exactly when targetDays <= current, so a goal
    of more than 366 days is never achieved. *)
Theorem evaluateStreakGoal_bounds fuel goal cfg :
  (366 <= fuel)%nat -> config goal = Some cfg ->
  exists r,
    Goals.evaluateStreakGoal tza fuel now goal activities = Returns r
    /\ 0 <= current r <= 366
    /\ target r = targetDays cfg
    /\ (achieved r = true <-> targetDays cfg <= current r)
    /\ (366 < targetDays cfg -> achieved r = false).
Proof.
  intros Hf C. unfold Goals.evaluateStreakGoal, Goals.configOf. rewrite C.
  cbn [mbind outcome_bind].
  rewrite calculateStreak_value by assumption.
  match goal with |- context [if ?b then runLength ?q 0 366 else runLength ?q 1 365] =>
    pose proof (runLength_bounds q 366 0) as B0;
    pose proof (runLength_bounds q 365 1) as B1;
    assert (0 <= (if b then runLength q 0 366 else runLength q 1 365) <= 366) as B
      by (destruct b; lia);
    revert B; generalize (if b then runLength q 0 366 else runLength q 1 365)
  end.
  intros c B. cbn [mbind outcome_bind].
  eexists. split; [reflexivity|]. cbn [current target achieved].
  split; [assumption|]. split; [reflexivity|].
  split; [rewrite Z.geb_leb, Z.leb_le; lia|].
  intros G. rewrite Z.geb_leb. apply Z.leb_gt. lia.
Qed.
End GoalEdges.

(** ** All goals at once *)

Section AllGoals.
Variable tza : Z.
Variable fuel : nat.
Variable now : Z.
Variable activities : gmap string Activity.


Lemma step_fold_fails l x :
  (forall m, x <> Returns m) -> fold_left (evaluateInto tza fuel now activities) l x = x.
Proof.
  induction l as [|e l IH]; intros H; simpl; [reflexivity|].
  assert (evaluateInto tza fuel now activities x e = x) as -> by (destruct x; [destruct (H a); reflexivity | reflexivity..]).
  apply IH. assumption.
Qed.

Lemma step_returns acc k g :
  evaluateInto tza fuel now activities (Returns acc) (k, g)
  = match Goals.evaluateGoal tza fuel now g activities with
    | Returns r => Returns (<[k := r]> acc)
    | TypeError => TypeError
    | OutOfFuel => OutOfFuel
    end.
Proof. unfold evaluateInto. simpl. destruct (Goals.evaluateGoal tza fuel now g activities); reflexivity. Qed.

Lemma step_fold_returns l : forall acc m,
  NoDup (l.*1) -> fold_left (evaluateInto tza fuel now activities) l (Returns acc) = Returns m ->
  (forall k g, (k, g) ∈ l ->
     exists r, Goals.evaluateGoal tza fuel now g activities = Returns r /\ m !! k = Some r)
  /\ (forall k, k ∉ l.*1 -> m !! k = acc !! k).
Proof.
  induction l as [|[k0 g0] l IH]; intros acc m Hn Hf.
  - inversion Hf. subst. split; [intros k g H; inversion H | reflexivity].
  - rewrite fmap_cons in Hn. apply NoDup_cons in Hn as [Hk Hn].
    cbn [fold_left] in Hf. rewrite step_returns in Hf.
    destruct (Goals.evaluateGoal tza fuel now g0 activities) as [r0| |] eqn:E;
      [|rewrite step_fold_fails in Hf by discriminate; discriminate..].
    destruct (IH _ _ Hn Hf) as [A B]. split.
    + intros k g Hin. apply elem_of_cons in Hin as [Heq|Hin].
      * inversion Heq. subst. exists r0. split; [assumption|].
        rewrite (B k0 Hk). apply lookup_insert_eq.
      * apply A. assumption.
    + intros k Hk'. rewrite fmap_cons in Hk'. apply not_elem_of_cons in Hk' as [Hne Hk'].
      rewrite (B k Hk'). apply lookup_insert_ne. simpl in Hne. congruence.
Qed.

Lemma step_fold_total l : forall acc,
  (forall k g, (k, g) ∈ l -> exists r, Goals.evaluateGoal tza fuel now g activities = Returns r) ->
  exists m, fold_left (evaluateInto tza fuel now activities) l (Returns acc) = Returns m.
Proof.
  induction l as [|[k0 g0] l IH]; intros acc H.
  - eexists. reflexivity.
  - destruct (H k0 g0) as [r E]; [left|].
    cbn [fold_left]. rewrite step_returns, E.
    apply IH. intros k g Hin. apply (H k g). right. assumption.
Qed.

(** X11. evaluateAllGoals returns a result object with exactly the ids of
    the goals, each holding the evaluation of its goal; it returns whenever
    every goal evaluates, and a time, count or streak goal without config
    makes the whole call throw. *)
Theorem evaluateAllGoals_results (goals : gmap string Goal) :
  (forall results,
     evaluateAllGoals tza fuel now goals activities = Returns results ->
     (forall id g, goals !! id = Some g ->
        exists r, Goals.evaluateGoal tza fuel now g activities = Returns r
                  /\ results !! id = Some r)
     /\ (forall id, goals !! id = None -> results !! id = None))
  /\ ((forall id g, goals !! id = Some g ->
         exists r, Goals.evaluateGoal tza fuel now g activities = Returns r) ->
      exists results, evaluateAllGoals tza fuel now goals activities = Returns results)
  /\ (forall id g,
        goals !! id = Some g -> config g = None ->
        g_type g = "time" \/ g_type g = "count" \/ g_type g = "streak" ->
        forall results, evaluateAllGoals tza fuel now goals activities <> Returns results).
Proof.
  assert (forall results,
     evaluateAllGoals tza fuel now goals activities = Returns results ->
     (forall id g, goals !! id = Some g ->
        exists r, Goals.evaluateGoal tza fuel now g activities = Returns r
                  /\ results !! id = Some r)
     /\ (forall id, goals !! id = None -> results !! id = None)) as First.
  { intros results H. unfold evaluateAllGoals in H.
    destruct (step_fold_returns _ _ _ (NoDup_fst_map_to_list goals) H) as [A B]. split.
    - intros id g L. apply A. apply elem_of_map_to_list. assumption.
    - intros id L. rewrite B; [apply lookup_empty|].
      intros Hin. apply list_elem_of_fmap in Hin as ([k g] & -> & Hin).
      apply elem_of_map_to_list in Hin. simpl in L. congruence. }
  split; [exact First|]. split.
  - intros H. unfold evaluateAllGoals. apply step_fold_total.
    intros k g Hin. apply (H k g). apply elem_of_map_to_list. assumption.
  - intros id g L C T results H. destruct (First results H) as [A _].
    destruct (A id g L) as (r & E & _). revert E. unfold Goals.evaluateGoal.
    unfold Goals.evaluateTimeGoal, Goals.evaluateCountGoal, Goals.evaluateStreakGoal,
      Goals.configOf.
    rewrite C. destruct T as [T|[T|T]]; rewrite T; simpl; discriminate.
Qed.
End AllGoals.

(** ** What the handlers keep *)

Section Handlers.



Lemma last_removelast {A : Type} (l : list A) (x : A) :
  last l = Some x -> l = removelast l ++ [x].
Proof.
  intros H. apply last_Some in H as [l' ->]. rewrite removelast_last. reflexivity.
Qed.

(** When the activity is not running, all of its entries are closed. *)
Lemma not_running_closed a es :
  s_type a = "time" -> s_entries a = Some es -> oneTimer a ->
  isActivityRunning (Some a) = false -> Forall closed es.
Proof.
  intros T E O R. unfold oneTimer in O. rewrite E in O.
  unfold isActivityRunning in R. rewrite T, E in R. simpl in R.
  destruct (last es) as [e|] eqn:L.
  - rewrite (last_removelast es e L). apply Forall_app. split; [assumption|].
    constructor; [|constructor]. unfold closed. destruct (end_ e); [discriminate|discriminate].
  - apply last_None in L. subst. constructor.
Qed.

Lemma running_last a :
  isActivityRunning (Some a) = true ->
  s_type a = "time"
  /\ exists es e, s_entries a = Some es /\ last es = Some e /\ end_ e = None.
Proof.
  unfold isActivityRunning. destruct (String.eqb_spec (s_type a) "time") as [T|T]; simpl;
    [|discriminate].
  destruct (s_entries a) as [es|] eqn:Es; [|discriminate].
  destruct (last es) as [e|] eqn:L; [|discriminate].
  destruct (end_ e) eqn:E; [discriminate|]. intros _. split; [assumption|].
  exists es, e. repeat split; assumption.
Qed.

(** The handlers keep at most one open entry per activity, the last one,
    and never run into a missing entry list. *)
Lemma handle_consistent req d :
  consistent d ->
  exists rep d', handle req d = Returns (rep, d') /\ consistent d'.
Proof.
  intros Hc. destruct req as [id name type|now aid|now aid|now aid dateStr|aid newName|aid|aid]; simpl;
    unfold createActivity, startActivity, stopActivity, toggleCheck, renameActivity,
      deleteActivity, resetActivity.
  - eexists _, _. split; [reflexivity|]. intros i a L.
    apply lookup_insert_Some in L as [[<- <-]|[_ L]]; [|apply (Hc _ _ L)].
    unfold oneTimer, hasEntries. simpl. split.
    + destruct (String.eqb type "time"); [constructor | exact I].
    + intros ->. discriminate.
  - destruct (d !! aid) as [a|] eqn:La; [|eexists _, _; split; [reflexivity|assumption]].
    destruct (Hc _ _ La) as [O Hs].
    destruct (String.eqb_spec (s_type a) "time") as [T|T]; cbn [negb];
      [|eexists _, _; split; [reflexivity|assumption]].
    destruct (isActivityRunning (Some a)) eqn:R;
      [eexists _, _; split; [reflexivity|assumption]|].
    destruct (s_entries a) as [es|] eqn:E; [|destruct (Hs T); assumption].
    eexists _, _. split; [reflexivity|]. intros i a' L.
    apply lookup_insert_Some in L as [[<- <-]|[_ L]]; [|apply (Hc _ _ L)].
    unfold oneTimer, hasEntries. simpl. split; [|discriminate].
    rewrite removelast_last. apply (not_running_closed a es T E O R).
  - destruct (d !! aid) as [a|] eqn:La; [|eexists _, _; split; [reflexivity|assumption]].
    destruct (Hc _ _ La) as [O Hs].
    destruct (String.eqb_spec (s_type a) "time") as [T|T]; cbn [negb];
      [|eexists _, _; split; [reflexivity|assumption]].
    destruct (isActivityRunning (Some a)) eqn:R; cbn [negb];
      [|eexists _, _; split; [reflexivity|assumption]].
    destruct (running_last a R) as (_ & es & e & E & L & _). rewrite E, L.
    eexists _, _. split; [reflexivity|]. intros i a' L'.
    apply lookup_insert_Some in L' as [[<- <-]|[_ L']]; [|apply (Hc _ _ L')].
    unfold oneTimer, hasEntries. simpl. split; [|discriminate].
    rewrite removelast_last. unfold oneTimer in O. rewrite E in O. exact O.
  - destruct (d !! aid) as [a|] eqn:La; [|eexists _, _; split; [reflexivity|assumption]].
    destruct (Hc _ _ La) as [O Hs].
    destruct (negb (String.eqb (s_type a) "check"));
      [eexists _, _; split; [reflexivity|assumption]|].
    eexists _, _. split; [reflexivity|]. intros i a' L.
    apply lookup_insert_Some in L as [[<- <-]|[_ L]]; [|apply (Hc _ _ L)].
    split; assumption.
  - destruct (d !! aid) as [a|] eqn:La; [|eexists _, _; split; [reflexivity|assumption]].
    destruct (Hc _ _ La) as [O Hs].
    eexists _, _. split; [reflexivity|]. intros i a' L.
    apply lookup_insert_Some in L as [[<- <-]|[_ L]]; [|apply (Hc _ _ L)].
    split; assumption.
  - destruct (d !! aid) as [a|] eqn:La; [|eexists _, _; split; [reflexivity|assumption]].
    eexists _, _. split; [reflexivity|]. intros i a' L.
    apply lookup_delete_Some in L as [_ L]. apply (Hc _ _ L).
  - destruct (d !! aid) as [a|] eqn:La; [|eexists _, _; split; [reflexivity|assumption]].
    destruct (Hc _ _ La) as [O Hs].
    eexists _, _. split; [reflexivity|]. intros i a' L.
    apply lookup_insert_Some in L as [[<- <-]|[_ L]]; [|apply (Hc _ _ L)].
    destruct (String.eqb_spec (s_type a) "time") as [T|T].
    + unfold oneTimer, hasEntries. simpl. split; [constructor | discriminate].
    + unfold oneTimer, hasEntries in *. simpl. split; [assumption | contradiction].
Qed.

(** X13. Every sequence of handler requests applied to an empty data file
    returns without a TypeError and leaves a data file in which each
    activity has at most one open entry, the last one, and each activity of
    type time has an entries list. *)
Theorem run_consistent reqs :
  exists d, run reqs ∅ = Returns d /\ consistent d.
Proof.
  assert (forall d0, consistent d0 -> exists d, run reqs d0 = Returns d /\ consistent d) as G.
  { induction reqs as [|req reqs IH]; intros d0 H0; simpl.
    - exists d0. split; [reflexivity | assumption].
    - destruct (handle_consistent req d0 H0) as (rep & d1 & E & H1).
      rewrite E. simpl. apply IH. assumption. }
  apply G. intros id a L. rewrite lookup_empty in L. discriminate.
Qed.

Lemma stamped_later T T' e : T <= T' -> stamped T e -> stamped T' e.
Proof.
  unfold stamped. intros H [A B]. split; [lia|]. destruct (end_ e); [lia | exact I].
Qed.

Lemma stamped_ordered T e : stamped T e -> ordered e.
Proof. unfold stamped, ordered. intros [A B]. destruct (end_ e); [lia | exact I]. Qed.

Lemma handle_stamped req d rep d' T :
  handle req d = Returns (rep, d') -> stampedStore T d ->
  (forall now, clock req = Some now -> T <= now) ->
  stampedStore (default T (clock req)) d'.
Proof.
  intros H Hs Hc.
  assert (T <= default T (clock req)) as Hle
    by (destruct (clock req) as [now|]; simpl; [apply Hc; reflexivity | lia]).
  assert (stampedStore (default T (clock req)) d) as Hs'.
  { intros i a es L E. eapply Forall_impl; [apply (Hs i a es L E)|].
    intros e. apply stamped_later. assumption. }
  clear Hs Hc Hle.
  destruct req as [id name type|now aid|now aid|now aid dateStr|aid newName|aid|aid]; simpl in *;
    unfold createActivity, startActivity, stopActivity, toggleCheck, renameActivity,
      deleteActivity, resetActivity in H.
  - inversion H; subst; clear H. intros i a es L E.
    apply lookup_insert_Some in L as [[<- <-]|[_ L]]; [|eapply Hs'; eassumption].
    simpl in E. destruct (String.eqb type "time"); inversion E. constructor.
  - destruct (d !! aid) as [a|] eqn:La; [|inversion H; subst; assumption].
    destruct (negb (String.eqb (s_type a) "time")); [inversion H; subst; assumption|].
    destruct (isActivityRunning (Some a)); [inversion H; subst; assumption|].
    destruct (s_entries a) as [es|] eqn:Ea; [|discriminate].
    inversion H; subst; clear H. intros i a' es' L E.
    apply lookup_insert_Some in L as [[<- <-]|[_ L]]; [|eapply Hs'; eassumption].
    simpl in E. inversion E; subst. apply Forall_app. split; [eapply Hs'; eassumption|].
    constructor; [|constructor]. unfold stamped. simpl. split; [lia | exact I].
  - destruct (d !! aid) as [a|] eqn:La; [|inversion H; subst; assumption].
    destruct (negb (String.eqb (s_type a) "time")); [inversion H; subst; assumption|].
    destruct (negb (isActivityRunning (Some a))); [inversion H; subst; assumption|].
    destruct (s_entries a) as [es|] eqn:Ea; [|discriminate].
    destruct (last es) as [e|] eqn:Le; [|discriminate].
    inversion H; subst; clear H. intros i a' es' L E.
    apply lookup_insert_Some in L as [[<- <-]|[_ L]]; [|eapply Hs'; eassumption].
    simpl in E. inversion E; subst.
    pose proof (Hs' _ _ _ La Ea) as F. rewrite (last_removelast es e Le) in F.
    apply Forall_app in F as [F1 F2]. apply Forall_app. split; [assumption|].
    inversion F2 as [|? ? [S _] _]; subst.
    constructor; [|constructor]. unfold stamped. simpl. lia.
  - destruct (d !! aid) as [a|] eqn:La; [|inversion H; subst; assumption].
    destruct (negb (String.eqb (s_type a) "check")); [inversion H; subst; assumption|].
    inversion H; subst; clear H. intros i a' es' L E.
    apply lookup_insert_Some in L as [[<- <-]|[_ L]]; [|eapply Hs'; eassumption].
    simpl in E. eapply Hs'; eassumption.
  - destruct (d !! aid) as [a|] eqn:La; [|inversion H; subst; assumption].
    inversion H; subst; clear H. intros i a' es' L E.
    apply lookup_insert_Some in L as [[<- <-]|[_ L]]; [|eapply Hs'; eassumption].
    simpl in E. eapply Hs'; eassumption.
  - destruct (d !! aid) as [a|] eqn:La; [|inversion H; subst; assumption].
    inversion H; subst; clear H. intros i a' es' L E.
    apply lookup_delete_Some in L as [_ L]. eapply Hs'; eassumption.
  - destruct (d !! aid) as [a|] eqn:La; [|inversion H; subst; assumption].
    inversion H; subst; clear H. intros i a' es' L E.
    apply lookup_insert_Some in L as [[<- <-]|[_ L]]; [|eapply Hs'; eassumption].
    destruct (String.eqb (s_type a) "time"); simpl in E.
    + inversion E. constructor.
    + eapply Hs'; eassumption.
Qed.

(** X14. When the readings of Date.now() do not decrease from request to
    request, every entry the handlers write into a new data file ends no
    earlier than it starts, so calculateTimeInRange of the goal engine is
    non-negative over that data for every id list and every range with
    rangeStart <= rangeEnd. *)
Theorem run_ordered reqs T d :
  timely T reqs -> run reqs ∅ = Returns d ->
  (forall id a es, d !! id = Some a -> s_entries a = Some es -> Forall ordered es)
  /\ (forall ids rangeStart rangeEnd, rangeStart <= rangeEnd ->
        0 <= Goals.calculateTimeInRange (view <$> d) ids rangeStart rangeEnd).
Proof.
  intros Ht Hr.
  assert (forall reqs T d0 d, timely T reqs -> stampedStore T d0 ->
            run reqs d0 = Returns d -> exists T', stampedStore T' d) as G.
  { clear. induction reqs as [|req reqs IH]; intros T d0 d Ht H0 Hr; simpl in *.
    - inversion Hr; subst. exists T. assumption.
    - destruct (handle req d0) as [[rep d1]| |] eqn:E; simpl in Hr; try discriminate.
      pose proof (handle_stamped req d0 rep d1 T E H0) as H1.
      destruct (clock req) as [now|] eqn:C.
      + destruct Ht as [Hle Ht]. apply (IH now d1 d Ht); [|assumption].
        apply H1. intros n Hn. inversion Hn; subst. assumption.
      + apply (IH T d1 d Ht); [|assumption]. apply H1. intros n Hn. discriminate. }
  destruct (G reqs T ∅ d Ht) as [T' Hs]; [|assumption|].
  { intros i a es L. rewrite lookup_empty in L. discriminate. }
  assert (forall id a es, d !! id = Some a -> s_entries a = Some es -> Forall ordered es) as Ho.
  { intros i a es L E. eapply Forall_impl; [apply (Hs i a es L E)|].
    intros e. apply stamped_ordered. }
  split; [exact Ho|].
  intros ids rs re Hre. apply engine_total_nonneg; [assumption|].
  intros i a es L E. rewrite lookup_fmap in L.
  destruct (d !! i) as [sa|] eqn:Ls; simpl in L; [|discriminate].
  inversion L; subst. simpl in E. apply (Ho i sa es Ls E).
Qed.

(** X15. For a stopped time activity: start-activity succeeds and makes it
    running, a second start fails with Activity already running, stop fails
    on the stopped and succeeds on the running activity, closing the new
    entry [t1, t2]; the open entry adds nothing to calculateTimeInRange, and
    the closed one adds t2 - t1 to every range that contains it. *)
Theorem start_then_stop d id a es t1 t2 :
  d !! id = Some a -> s_type a = "time" -> s_entries a = Some es ->
  isActivityRunning (Some a) = false ->
  exists d1 d2 a2,
    startActivity t1 id d = Returns (succeeded d1, d1)
    /\ isActivityRunning (d1 !! id) = true
    /\ (forall t, startActivity t id d1 = Returns (failure "Activity already running", d1))
    /\ stopActivity t2 id d = Returns (failure "Activity not running", d)
    /\ stopActivity t2 id d1 = Returns (succeeded d2, d2)
    /\ d2 !! id = Some a2
    /\ s_entries a2 = Some (es ++ [mkEntry t1 (Some t2)])
    /\ isActivityRunning (Some a2) = false
    /\ (forall rangeStart rangeEnd,
          Main.calculateTimeInRange (d1 !! id ≫= s_entries) rangeStart rangeEnd
          = Main.calculateTimeInRange (Some es) rangeStart rangeEnd)
    /\ (forall rangeStart rangeEnd,
          rangeStart <= t1 -> t1 <= t2 -> t2 <= rangeEnd ->
          Main.calculateTimeInRange (s_entries a2) rangeStart rangeEnd
          = Main.calculateTimeInRange (Some es) rangeStart rangeEnd + (t2 - t1)).
Proof.
  intros L T E R.
  assert (negb (String.eqb (s_type a) "time") = false) as Tb by (rewrite T; reflexivity).
  set (a1 := mkStored (s_id a) (s_name a) (s_type a) (Some (es ++ [mkEntry t1 None])) (s_checks a)).
  set (a2 := mkStored (s_id a) (s_name a) (s_type a)
                      (Some (es ++ [mkEntry t1 (Some t2)])) (s_checks a)).
  assert (isActivityRunning (Some a1) = true) as R1.
  { unfold isActivityRunning, a1. simpl. rewrite Tb. rewrite last_snoc. reflexivity. }
  exists (<[id := a1]> d), (<[id := a2]> d), a2.
  assert (startActivity t1 id d = Returns (succeeded (<[id := a1]> d), <[id := a1]> d)) as S1.
  { unfold startActivity. rewrite L, R, Tb, E. reflexivity. }
  split; [exact S1|]. split; [rewrite lookup_insert_eq; exact R1|].
  split.
  { intros t. unfold startActivity. rewrite lookup_insert_eq, R1.
    unfold a1 at 1. cbn [s_type]. rewrite Tb. reflexivity. }
  split.
  { unfold stopActivity. rewrite L, R, Tb. reflexivity. }
  split.
  { unfold stopActivity. rewrite lookup_insert_eq, R1.
    unfold a1. cbn [s_type s_entries s_id s_name s_checks negb]. rewrite Tb.
    rewrite last_snoc, removelast_last.
    cbn [start]. rewrite insert_insert_eq. reflexivity. }
  split; [apply lookup_insert_eq|]. split; [reflexivity|].
  split.
  { unfold isActivityRunning, a2. simpl. rewrite Tb. rewrite last_snoc. reflexivity. }
  split.
  - intros rs re. rewrite lookup_insert_eq.
    change (Some a1 ≫= s_entries) with (Some (es ++ [mkEntry t1 None])).
    rewrite !calculateTimeInRange_sum, sumOverlap_app.
    unfold sumOverlap at 2. simpl. unfold sumZ. simpl. lia.
  - intros rs re H1 H2 H3.
    change (s_entries a2) with (Some (es ++ [mkEntry t1 (Some t2)])).
    rewrite !calculateTimeInRange_sum, sumOverlap_app. f_equal.
    unfold sumOverlap, counted, skipTest, overlapTerm. simpl.
    destruct (Z.ltb_spec t2 rs); [lia|].
    destruct (t1 >? re) eqn:G; [rewrite Z.gtb_ltb in G; apply Z.ltb_lt in G; lia|].
    simpl. unfold sumZ. simpl. lia.
Qed.


Lemma countChecked_empty f s e : countChecked f (∅ : gmap string bool) s e = 0.
Proof.
  unfold countChecked. generalize (visited s e). intros l.
  induction l as [|t l IH]; simpl; [reflexivity|].
  unfold isChecked at 1. rewrite lookup_empty. exact IH.
Qed.

(** X17. create-activity stores an activity with the given id, name and type
    that is not running and adds nothing to calculateTimeInRange or
    countChecksInRange; reset-activity keeps name and type, empties the
    entries of a time activity (keeping its checks) or the checks of any
    other one (keeping its entries), after which the activity counts
    nothing. *)
Theorem fresh_activity_counts_nothing d id :
  (forall name type, exists d' a',
     createActivity id name type d
     = Returns (mkReply true None (Some d') (Some id) None, d')
     /\ d' !! id = Some a' /\ s_name a' = name /\ s_type a' = type
     /\ isActivityRunning (Some a') = false
     /\ (forall rs re, Goals.calculateTimeInRange (view <$> d') [id] rs re = 0)
     /\ (forall tza fuel s e, (iterations s e < fuel)%nat ->
           Goals.countChecksInRange tza fuel (view <$> d') [id] s e = Returns 0))
  /\ (forall a, d !! id = Some a -> exists d' a',
        resetActivity id d = Returns (succeeded d', d')
        /\ d' !! id = Some a' /\ s_name a' = s_name a /\ s_type a' = s_type a
        /\ isActivityRunning (Some a') = false
        /\ (s_type a = "time" ->
            s_checks a' = s_checks a
            /\ forall rs re, Goals.calculateTimeInRange (view <$> d') [id] rs re = 0)
        /\ (s_type a <> "time" ->
            s_entries a' = s_entries a
            /\ forall tza fuel s e, (iterations s e < fuel)%nat ->
                 Goals.countChecksInRange tza fuel (view <$> d') [id] s e = Returns 0)).
Proof.
  assert (forall (d' : gmap string StoredActivity) a' rs re,
            d' !! id = Some a' -> s_entries a' = Some [] \/ s_entries a' = None ->
            Goals.calculateTimeInRange (view <$> d') [id] rs re = 0) as Ht.
  { intros d' a' rs re L H. rewrite calculateTimeInRange_single. unfold activityTime.
    rewrite lookup_fmap, L. simpl.
    destruct (String.eqb (s_type a') "time"); [|reflexivity].
    destruct H as [-> | ->]; reflexivity. }
  assert (forall (d' : gmap string StoredActivity) a' tza fuel s e,
            d' !! id = Some a' -> s_checks a' = Some ∅ \/ s_checks a' = None ->
            (iterations s e < fuel)%nat ->
            Goals.countChecksInRange tza fuel (view <$> d') [id] s e = Returns 0) as Hk.
  { intros d' a' tza fuel s e L H Hf. unfold Goals.countChecksInRange.
    rewrite countIds_value by assumption. unfold sumZ. simpl. unfold activityChecks.
    rewrite lookup_fmap, L. simpl.
    destruct (String.eqb (s_type a') "check"); [|reflexivity].
    destruct H as [-> | ->]; [rewrite countChecked_empty|]; reflexivity. }
  split.
  - intros name type. eexists _, _. split; [reflexivity|].
    split; [apply lookup_insert_eq|]. split; [reflexivity|]. split; [reflexivity|].
    split; [|split].
    + unfold isActivityRunning. simpl. destruct (String.eqb type "time"); reflexivity.
    + intros rs re. eapply Ht; [apply lookup_insert_eq|]. simpl.
      destruct (String.eqb type "time"); auto.
    + intros tza fuel s e. eapply Hk; [apply lookup_insert_eq|]. simpl.
      destruct (String.eqb type "check"); auto.
  - intros a L. unfold resetActivity. rewrite L.
    destruct (String.eqb_spec (s_type a) "time") as [T|T].
    + eexists _, _. split; [reflexivity|]. split; [apply lookup_insert_eq|].
      split; [reflexivity|]. split; [reflexivity|]. split; [|split].
      * unfold isActivityRunning. simpl. rewrite T. reflexivity.
      * intros _. split; [reflexivity|]. intros rs re.
        eapply Ht; [apply lookup_insert_eq|]. simpl. auto.
      * contradiction.
    + eexists _, _. split; [reflexivity|]. split; [apply lookup_insert_eq|].
      split; [reflexivity|]. split; [reflexivity|]. split; [|split].
      * unfold isActivityRunning. simpl.
        destruct (String.eqb_spec (s_type a) "time"); [contradiction | reflexivity].
      * contradiction.
      * intros _. split; [reflexivity|]. intros tza fuel s e.
        eapply Hk; [apply lookup_insert_eq|]. simpl. auto.
Qed.

(** X18. delete-activity removes the activity, and a second delete fails
    with Activity not found; a time, count or streak goal that still names
    the deleted activity evaluates afterwards to current = 0 and, for a
    target in 1..2^53-1, to not achieved with 0 percent. *)
Theorem delete_then_evaluate d id a tza fuel now goal cfg :
  d !! id = Some a ->
  (366 <= fuel)%nat ->
  config goal = Some cfg -> Goals.idList cfg = [id] ->
  g_type goal = "time" \/ g_type goal = "count" \/ g_type goal = "streak" ->
  exists d' r,
    deleteActivity id d = Returns (succeeded d', d')
    /\ d' !! id = None
    /\ deleteActivity id d' = Returns (failure "Activity not found", d')
    /\ Goals.evaluateGoal tza fuel now goal (view <$> d') = Returns r
    /\ current r = 0
    /\ (0 < target r < 2 ^ 53 -> achieved r = false /\ progressPercentage r = Int 0).
Proof.
  intros L Hf C Hi T.
  destruct (evaluateGoal_absent tza now (view <$> delete id d) fuel goal cfg id
              Hf C Hi) as (r & E & Hc & Hp); [|assumption|].
  { rewrite lookup_fmap, lookup_delete_eq. reflexivity. }
  exists (delete id d), r.
  split; [unfold deleteActivity; rewrite L; reflexivity|].
  split; [apply lookup_delete_eq|].
  split; [unfold deleteActivity; rewrite lookup_delete_eq; reflexivity|].
  split; [assumption|]. split; assumption.
Qed.

(** X19. rename-activity sets the name and changes nothing the aggregators
    read: type, entries and checks of every activity, and whether the
    activity is running, stay as they were. *)
Theorem rename_keeps_records d id a newName :
  d !! id = Some a ->
  exists d' a',
    renameActivity id newName d = Returns (succeeded d', d')
    /\ d' !! id = Some a' /\ s_name a' = newName
    /\ view <$> d' = view <$> d
    /\ isActivityRunning (Some a') = isActivityRunning (Some a).
Proof.
  intros L. eexists _, _. split; [unfold renameActivity; rewrite L; reflexivity|].
  split; [apply lookup_insert_eq|]. split; [reflexivity|]. split; [|reflexivity].
  apply map_eq. intros i. rewrite !lookup_fmap.
  destruct (decide (i = id)) as [->|Hne].
  - rewrite lookup_insert_eq, L. reflexivity.
  - rewrite lookup_insert_ne by congruence. reflexivity.
Qed.
End Handlers.

(** ** The labels of the renderer *)

Section Labels.

Lemma string_of_uint_digits d : allDigits (NilEmpty.string_of_uint d) = true.
Proof. induction d; simpl; auto. Qed.

Lemma numberString_digits n : 0 <= n -> allDigits (numberString n) = true.
Proof.
  intros H. unfold numberString. destruct n as [|p|p]; [reflexivity | | lia].
  simpl. unfold NilZero.string_of_uint.
  destruct (Pos.to_uint p) eqn:E; [reflexivity | rewrite <- E; apply string_of_uint_digits..].
Qed.

Lemma decimalValue_numberString n : decimalValue (numberString n) = Some n.
Proof.
  unfold decimalValue, numberString. rewrite NilZero.isi.
  - simpl. rewrite DecimalZ.of_to. reflexivity.
  - destruct n; simpl; try discriminate. intros E. inversion E.
    apply (Unsigned.to_uint_nonnil _ H0).
  - destruct n; simpl; try discriminate. intros E. inversion E.
    apply (Unsigned.to_uint_nonnil _ H0).
Qed.

Lemma numberString_inj a b : numberString a = numberString b -> a = b.
Proof.
  intros E. pose proof (decimalValue_numberString a) as A.
  rewrite E, decimalValue_numberString in A. congruence.
Qed.

Lemma numberString_nonempty n : numberString n <> "".
Proof.
  intros E. pose proof (decimalValue_numberString n) as A. rewrite E in A. discriminate.
Qed.

Lemma append_nil (s : string) : "" +:+ s = s.
Proof. reflexivity. Qed.

Lemma append_cons c (a s : string) : String c a +:+ s = String c (a +:+ s).
Proof. reflexivity. Qed.

Lemma append_assoc (a b c : string) : (a +:+ b) +:+ c = a +:+ (b +:+ c).
Proof.
  induction a as [|x a IH]; [reflexivity|]. rewrite !append_cons, IH. reflexivity.
Qed.

(** Where a run of digits ends is read off the string. *)
Lemma digits_split s1 : forall s2 c1 c2 r1 r2,
  allDigits s1 = true -> allDigits s2 = true -> isDigit c1 = false -> isDigit c2 = false ->
  s1 +:+ String c1 r1 = s2 +:+ String c2 r2 -> s1 = s2 /\ c1 = c2 /\ r1 = r2.
Proof.
  induction s1 as [|a s1 IH]; intros [|b s2] c1 c2 r1 r2 D1 D2 N1 N2 E;
    rewrite ?append_nil, ?append_cons in E.
  - inversion E. auto.
  - inversion E. subst b. simpl in D2. rewrite N1 in D2. discriminate.
  - inversion E. subst a. simpl in D1. rewrite N2 in D1. discriminate.
  - inversion E. subst b. simpl in D1, D2.
    apply andb_prop in D1 as [_ D1]. apply andb_prop in D2 as [_ D2].
    destruct (IH s2 c1 c2 r1 r2 D1 D2 N1 N2 H1) as (-> & -> & ->). auto.
Qed.

Lemma rem_nonneg a b : 0 <= a -> 0 < b -> Z.rem a b = a mod b.
Proof. intros. apply Z.rem_mod_nonneg; lia. Qed.

Lemma orZero_max ms : orZero ms = Z.max 0 ms.
Proof.
  unfold orZero. destruct (Z.ltb_spec ms 0); destruct (Z.eqb_spec ms 0); simpl; lia.
Qed.

(** Two durations get the same label exactly when they have the same
    whole minutes, a negative one counting as zero. *)
Lemma formatTime_same_label_iff x y :
  formatTime x = formatTime y <-> Z.max 0 x / 60000 = Z.max 0 y / 60000.
Proof.
  assert (forall x, 0 <= orZero x / 60000) as P
    by (intros z; rewrite orZero_max; apply Z.div_pos; lia).
  rewrite <- !orZero_max. split.
  - unfold formatTime. intros E.
    pose proof (P x) as Px. pose proof (P y) as Py.
    rewrite !rem_nonneg in E by lia.
    change (numberString (orZero x / 60000 / 60)
            +:+ String "h" (String " " (numberString ((orZero x / 60000) mod 60)
                                        +:+ String "m" ""))
            = numberString (orZero y / 60000 / 60)
              +:+ String "h" (String " " (numberString ((orZero y / 60000) mod 60)
                                          +:+ String "m" ""))) in E.
    apply digits_split in E as (Eh & _ & Er);
      [| apply numberString_digits, Z.div_pos; lia
       | apply numberString_digits, Z.div_pos; lia | reflexivity..].
    inversion Er as [Em].
    apply digits_split in Em as (Em' & _ & _);
      [| apply numberString_digits, Z.mod_pos_bound; lia
       | apply numberString_digits, Z.mod_pos_bound; lia | reflexivity..].
    apply numberString_inj in Eh, Em'.
    rewrite (Z.div_mod (orZero x / 60000) 60), (Z.div_mod (orZero y / 60000) 60) by lia.
    congruence.
  - unfold formatTime. intros ->. reflexivity.
Qed.

(** X20. formatTime gives two durations the same label exactly when they
    have the same number of whole minutes, a negative duration counting as
    0; the label is 0h 0m exactly for durations below 60000 ms; it reads Xh
    Ym with 0 <= Y < 60 and 60 X + Y the whole minutes. *)
Theorem formatTime_same_label a b :
  (formatTime a = formatTime b <-> Z.max 0 a / 60000 = Z.max 0 b / 60000)
  /\ (formatTime a = "0h 0m" <-> a < 60000)
  /\ exists h m, formatTime a = numberString h +:+ "h " +:+ numberString m +:+ "m"
                 /\ 0 <= h /\ 0 <= m < 60 /\ Z.max 0 a / 60000 = 60 * h + m.
Proof.
  assert (forall x, 0 <= orZero x / 60000) as P
    by (intros x; rewrite orZero_max; apply Z.div_pos; lia).
  split; [apply formatTime_same_label_iff|]. split.
  - change "0h 0m" with (formatTime 0). rewrite formatTime_same_label_iff.
    change (Z.max 0 0 / 60000) with 0. split.
    + intros E. destruct (Z.lt_ge_cases a 60000); [assumption|].
      assert (1 <= Z.max 0 a / 60000); [|lia].
      apply Z.div_le_lower_bound; lia.
    + intros H. apply Z.div_small_iff; lia.
  - exists (orZero a / 60000 / 60), (orZero a / 60000 mod 60).
    pose proof (P a) as Pa.
    split; [unfold formatTime; rewrite rem_nonneg by lia; reflexivity|].
    split; [apply Z.div_pos; lia|]. split; [apply Z.mod_pos_bound; lia|].
    rewrite <- orZero_max. apply Z.div_mod. lia.
Qed.

Lemma digit_not_minus c : isDigit c = true -> (c =? "-")%char = false.
Proof. destruct (Ascii.eqb_spec c "-") as [->|]; [discriminate | reflexivity]. Qed.

Lemma decimalValue_zero_prefix s :
  s <> "" -> allDigits s = true -> decimalValue (String "0" s) = decimalValue s.
Proof.
  destruct s as [|c s']; [congruence|]. intros _ D. simpl in D.
  apply andb_prop in D as [D _]. unfold decimalValue, NilZero.int_of_string.
  rewrite (digit_not_minus c D). change ("0" =? "-")%char with false. cbv iota.
  unfold NilZero.uint_of_string.
  change (NilEmpty.uint_of_string (String "0" (String c s')))
    with (uint_of_char "0" (NilEmpty.uint_of_string (String c s'))).
  destruct (NilEmpty.uint_of_string (String c s')) as [d|]; reflexivity.
Qed.

Lemma padStart_cases (s : string) :
  (s = "" /\ padStart 2 "0" s = "00")
  \/ (exists c, s = String c "" /\ padStart 2 "0" s = String "0" s)
  \/ ((2 <= String.length s)%nat /\ padStart 2 "0" s = s).
Proof.
  destruct s as [|c [|c' s]].
  - left. split; reflexivity.
  - right. left. exists c. split; reflexivity.
  - right. right. split; [simpl; lia | reflexivity].
Qed.

Lemma padStart_value x : 0 <= x -> decimalValue (padStart 2 "0" (numberString x)) = Some x.
Proof.
  intros H. pose proof (decimalValue_numberString x) as D.
  pose proof (numberString_digits x H) as A.
  destruct (padStart_cases (numberString x)) as [[E _]|[(c & E & ->)|[_ ->]]].
  - destruct (numberString_nonempty x E).
  - rewrite decimalValue_zero_prefix; [assumption | apply numberString_nonempty | assumption].
  - assumption.
Qed.

Lemma padStart_digits x : 0 <= x -> allDigits (padStart 2 "0" (numberString x)) = true.
Proof.
  intros H. pose proof (numberString_digits x H) as A.
  destruct (padStart_cases (numberString x)) as [[_ ->]|[(c & E & ->)|[_ ->]]];
    [reflexivity | simpl; assumption | assumption].
Qed.

Lemma padStart_inj x y :
  0 <= x -> 0 <= y ->
  padStart 2 "0" (numberString x) = padStart 2 "0" (numberString y) -> x = y.
Proof.
  intros Hx Hy E. pose proof (padStart_value x Hx) as A.
  rewrite E, padStart_value in A by assumption. congruence.
Qed.

Lemma padStart_length x :
  0 <= x < 100 -> String.length (padStart 2 "0" (numberString x)) = 2%nat.
Proof.
  intros H.
  assert (forallb (fun k => Nat.eqb (String.length (padStart 2 "0" (numberString (Z.of_nat k)))) 2)
            (seq 0 100) = true) as F by (vm_compute; reflexivity).
  rewrite forallb_forall in F. specialize (F (Z.to_nat x)).
  rewrite Z2Nat.id in F by lia. apply Nat.eqb_eq, F, in_seq. lia.
Qed.

Lemma length_append (a b : string) :
  String.length (a +:+ b) = (String.length a + String.length b)%nat.
Proof.
  induction a as [|c a IH]; [reflexivity|]. rewrite append_cons. simpl. rewrite IH. reflexivity.
Qed.

(** X21. formatTimeLive gives two durations the same label exactly when they
    have the same number of whole seconds, a negative duration counting as
    0; below 100 hours the label has exactly 8 characters; its three fields
    are hours, minutes below 60 and seconds below 60 that add up to the
    whole seconds, each padded to two digits. *)
Theorem formatTimeLive_same_label a b :
  (formatTimeLive a = formatTimeLive b <-> Z.max 0 a / 1000 = Z.max 0 b / 1000)
  /\ (a < 360000000 -> String.length (formatTimeLive a) = 8%nat)
  /\ exists h m s,
       formatTimeLive a
       = padStart 2 "0" (numberString h) +:+ ":" +:+ padStart 2 "0" (numberString m)
           +:+ ":" +:+ padStart 2 "0" (numberString s)
       /\ 0 <= h /\ 0 <= m < 60 /\ 0 <= s < 60
       /\ Z.max 0 a / 1000 = 3600 * h + 60 * m + s.
Proof.
  assert (forall x, 0 <= orZero x / 1000) as P
    by (intros x; rewrite orZero_max; apply Z.div_pos; lia).
  assert (forall x,
            formatTimeLive x
            = padStart 2 "0" (numberString (orZero x / 1000 / 3600))
              +:+ String ":" (padStart 2 "0" (numberString ((orZero x / 1000) mod 3600 / 60))
                              +:+ String ":" (padStart 2 "0"
                                                (numberString ((orZero x / 1000) mod 60)))))
    as Shape.
  { intros x. unfold formatTimeLive. pose proof (P x). rewrite !rem_nonneg by lia. reflexivity. }
  assert (forall t, 0 <= t -> 0 <= t / 3600 /\ 0 <= t mod 3600 / 60 < 60 /\ 0 <= t mod 60 < 60
                    /\ t = 3600 * (t / 3600) + 60 * (t mod 3600 / 60) + t mod 60) as Parts.
  { intros t Ht. Z.div_mod_to_equations. lia. }
  split; [|split].
  - rewrite <- !orZero_max. split.
    + rewrite !Shape. intros E.
      destruct (Parts _ (P a)) as (Ha & Ma & Sa & Ta).
      destruct (Parts _ (P b)) as (Hb & Mb & Sb & Tb).
      apply digits_split in E as (Eh & _ & Er);
        [| apply padStart_digits; lia | apply padStart_digits; lia | reflexivity..].
      apply digits_split in Er as (Em & _ & Es);
        [| apply padStart_digits; lia | apply padStart_digits; lia | reflexivity..].
      apply padStart_inj in Eh, Em, Es; lia.
    + unfold formatTimeLive. intros ->. reflexivity.
  - intros H. rewrite Shape. destruct (Parts _ (P a)) as (Ha & Ma & Sa & Ta).
    rewrite length_append. simpl. rewrite length_append. simpl.
    rewrite !padStart_length; try lia.
    split; [lia|]. apply Z.div_lt_upper_bound; [lia|].
    apply Z.div_lt_upper_bound; [lia|]. rewrite orZero_max. lia.
  - destruct (Parts _ (P a)) as (Ha & Ma & Sa & Ta).
    exists (orZero a / 1000 / 3600), ((orZero a / 1000) mod 3600 / 60), ((orZero a / 1000) mod 60).
    split; [apply Shape|]. rewrite <- orZero_max. repeat split; lia.
Qed.

(** X22. formatTimeCompact gives two durations the same label exactly when
    they have the same number of whole minutes, a negative duration counting
    as 0; below one hour the label is the minutes followed by m. *)
Theorem formatTimeCompact_same_label a b :
  (formatTimeCompact a = formatTimeCompact b <-> Z.max 0 a / 60000 = Z.max 0 b / 60000)
  /\ (a < 3600000 -> exists m, formatTimeCompact a = numberString m +:+ "m" /\ 0 <= m < 60).
Proof.
  assert (forall x, 0 <= orZero x / 60000) as P
    by (intros x; rewrite orZero_max; apply Z.div_pos; lia).
  assert (forall x,
            let h := orZero x / 60000 / 60 in
            let m := (orZero x / 60000) mod 60 in
            0 <= h /\ 0 <= m < 60 /\ orZero x / 60000 = 60 * h + m
            /\ ((0 < h /\ 0 < m
                 /\ formatTimeCompact x
                    = numberString h +:+ String "h" (numberString m +:+ String "m" ""))
                \/ (0 < h /\ m = 0 /\ formatTimeCompact x = numberString h +:+ String "h" "")
                \/ (h = 0 /\ formatTimeCompact x = numberString m +:+ String "m" ""))) as Shape.
  { intros x h m. pose proof (P x) as Px.
    assert (0 <= h) as Hh by (apply Z.div_pos; lia).
    assert (0 <= m < 60) as Hm by (apply Z.mod_pos_bound; lia).
    split; [exact Hh|]. split; [exact Hm|]. split; [apply Z.div_mod; lia|].
    unfold formatTimeCompact. rewrite rem_nonneg by lia. fold h m.
    destruct (Z.gtb_spec h 0); [|right; right; split; [lia | reflexivity]].
    destruct (Z.gtb_spec m 0); [left | right; left]; repeat split; try lia. }
  split.
  - rewrite <- !orZero_max. split.
    + intros E.
      destruct (Shape a) as (Ha & Ma & Ta & Ca). destruct (Shape b) as (Hb & Mb & Tb & Cb).
      rewrite Ta, Tb.
      destruct Ca as [(Ha' & Ma' & Ea)|[(Ha' & Ma' & Ea)|(Ha' & Ea)]];
        destruct Cb as [(Hb' & Mb' & Eb)|[(Hb' & Mb' & Eb)|(Hb' & Eb)]];
        rewrite Ea, Eb in E;
        (apply digits_split in E as (Eh & Ec & Er);
           [| apply numberString_digits; lia | apply numberString_digits; lia | reflexivity..]);
        try discriminate Ec.
      * apply digits_split in Er as (Em & _ & _);
          [| apply numberString_digits; lia | apply numberString_digits; lia | reflexivity..].
        apply numberString_inj in Eh, Em. lia.
      * destruct (numberString ((orZero a / 60000) mod 60)); discriminate Er.
      * destruct (numberString ((orZero b / 60000) mod 60)); discriminate Er.
      * apply numberString_inj in Eh. lia.
      * apply numberString_inj in Eh. lia.
    + unfold formatTimeCompact. intros ->. reflexivity.
  - intros H. destruct (Shape a) as (Ha & Ma & Ta & Ca).
    assert (orZero a / 60000 / 60 = 0) as Z0.
    { apply Z.div_small. split; [apply P|]. apply Z.div_lt_upper_bound; [lia|].
      rewrite orZero_max. lia. }
    destruct Ca as [(Ha' & _)|[(Ha' & _)|(_ & Ea)]]; try lia.
    eexists. split; [exact Ea | exact Ma].
Qed.
End Labels.

(** ** The total on an activity's card *)

Section Totals.

Lemma total_fold now es : forall acc,
  fold_left (fun total entry =>
               let end_ := match end_ entry with
                           | Some e => if e =? 0 then now else e
                           | None => now
                           end in
               total + (end_ - start entry)) es acc
  = acc + sumZ (map (fun entry => match end_ entry with
                                  | Some e => if e =? 0 then now else e
                                  | None => now
                                  end - start entry) es).
Proof.
  induction es as [|e es IH]; intros acc; unfold sumZ in *; simpl; [lia|].
  rewrite IH. lia.
Qed.

Lemma calculateTotalTime_sum now es :
  calculateTotalTime now (Some es)
  = sumZ (map (fun entry => match end_ entry with
                            | Some e => if e =? 0 then now else e
                            | None => now
                            end - start entry) es).
Proof.
  unfold calculateTotalTime. destruct es as [|e es]; [reflexivity|].
  rewrite total_fold. lia.
Qed.

(** X23. For entries none of which ends at 0 and whose closed entries are
    ordered and lie in a range: the renderer's calculateTotalTime at the
    instant now is calculateTimeInRange of the main process over that range
    plus now - start of every open entry; between two readings of the clock
    it grows by the elapsed time for each open entry, and when all entries
    but the last are closed at most one entry is open, exactly one when
    isActivityRunning holds of the time activity. *)
Theorem calculateTotalTime_parts now es rangeStart rangeEnd :
  Forall (fun e => end_ e <> Some 0) es ->
  Forall (fun e => forall entryEnd, end_ e = Some entryEnd ->
                   rangeStart <= start e /\ start e <= entryEnd /\ entryEnd <= rangeEnd) es ->
  calculateTotalTime now (Some es)
  = Main.calculateTimeInRange (Some es) rangeStart rangeEnd + runningTime now es
  /\ (forall now', calculateTotalTime now' (Some es) - calculateTotalTime now (Some es)
                   = (now' - now) * Z.of_nat (length (List.filter isOpen es)))
  /\ (Forall closed (removelast es) ->
      (length (List.filter isOpen es) <= 1)%nat
      /\ forall a, s_type a = "time" -> s_entries a = Some es ->
           (isActivityRunning (Some a) = true <-> length (List.filter isOpen es) = 1%nat)).
Proof.
  intros Hz Hr.
  assert (forall t, calculateTotalTime t (Some es)
                    = Main.calculateTimeInRange (Some es) rangeStart rangeEnd + runningTime t es)
    as Eq.
  { intros t. rewrite calculateTotalTime_sum, calculateTimeInRange_sum.
    unfold runningTime. induction es as [|e es IH]; [reflexivity|].
    inversion Hz as [|? ? Hz1 Hz2]. inversion Hr as [|? ? Hr1 Hr2]. subst.
    specialize (IH Hz2 Hr2). unfold sumOverlap in *. simpl map. simpl List.filter.
    unfold counted at 1, skipTest, isOpen at 1.
    destruct (end_ e) as [en|] eqn:E.
    - destruct (Hr1 en eq_refl) as (A & B & C).
      destruct (Z.eqb_spec en 0) as [->|_]; [congruence|].
      destruct (Z.ltb_spec en rangeStart); [lia|].
      destruct (Z.gtb_spec (start e) rangeEnd); [lia|].
      simpl. unfold sumZ in *. simpl. unfold overlapTerm at 1. rewrite E. lia.
    - simpl. unfold sumZ in *. simpl. lia. }
  assert (forall t t', runningTime t' es - runningTime t es
                       = (t' - t) * Z.of_nat (length (List.filter isOpen es))) as Run.
  { intros t t'. unfold runningTime. induction (List.filter isOpen es) as [|e l IH];
      unfold sumZ in *; simpl length; simpl map; simpl foldr; lia. }
  split; [apply Eq|]. split.
  - intros now'. rewrite (Eq now'), (Eq now). pose proof (Run now now'). lia.
  - intros Hc. clear Eq Run Hz Hr.
    assert ((length (List.filter isOpen es) <= 1)%nat
            /\ (match last es with
                | Some lastEntry => match end_ lastEntry with
                                    | Some _ => false
                                    | None => true
                                    end
                | None => false
                end = true <-> length (List.filter isOpen es) = 1%nat)) as [K1 K2];
      [|split; [exact K1|]; intros a Ta Ea; unfold isActivityRunning; rewrite Ta, Ea;
        simpl; exact K2].
    induction es as [|e es IH]; [simpl; split; [lia | split; [discriminate | lia]]|].
    destruct es as [|e' es].
    + simpl. unfold isOpen. destruct (end_ e); simpl; split; try lia; split; congruence.
    + change (removelast (e :: e' :: es)) with (e :: removelast (e' :: es)) in Hc.
      inversion Hc as [|? ? Hc1 Hc2]. subst. specialize (IH Hc2).
      change (last (e :: e' :: es)) with (last (e' :: es)).
      assert (List.filter isOpen (e :: e' :: es) = List.filter isOpen (e' :: es)) as ->.
      { change (List.filter isOpen (e :: e' :: es))
          with (if isOpen e then e :: List.filter isOpen (e' :: es)
                else List.filter isOpen (e' :: es)).
        unfold isOpen at 1. unfold closed in Hc1. destruct (end_ e); [reflexivity | congruence]. }
      exact IH.
Qed.
End Totals.

(** ** The progress bar of a goal *)

Section ProgressBar.

Lemma compare_cont_Eq a b : PosDef.Pos.compare_cont Eq a b = Pos.compare a b.
Proof. reflexivity. Qed.

Lemma compare_finite_flip m1 e1 m2 e2 :
  SFcompare (S754_finite false m1 e1) (S754_finite false m2 e2) = Some Gt ->
  SFcompare (S754_finite false m2 e2) (S754_finite false m1 e1) = Some Lt.
Proof.
  simpl. rewrite (Z.compare_antisym e1 e2).
  change (PosDef.Pos.compare_cont Eq m2 m1) with (Pos.compare m2 m1).
  change (PosDef.Pos.compare_cont Eq m1 m2) with (Pos.compare m1 m2).
  rewrite (Pos.compare_antisym m1 m2).
  destruct (e1 ?= e2); simpl; try congruence.
  destruct (m1 ?= m2)%positive; simpl; congruence.
Qed.

(** What the two clamps make of a product of a given sign. *)
Lemma clamp_signed s q :
  signed s q ->
  let p := Math_min2 (ofZ 100) (Math_max2 (S754_zero false) q) in
  p <> S754_nan
  /\ SFleb (S754_zero false) p = true /\ SFleb p (ofZ 100) = true
  /\ (s = true -> p = S754_zero false).
Proof.
  rewrite ofZ_100.
  destruct q as [s'|s'| |s' m e]; simpl; intros H; try contradiction; subst s'.
  - destruct s; repeat split; try discriminate; reflexivity.
  - destruct s; repeat split; try discriminate; reflexivity.
  - destruct s.
    + repeat split; try discriminate; reflexivity.
    + unfold Math_max2. simpl SFcompare. cbv iota. unfold Math_min2.
      destruct (SFcompare (S754_finite false 7036874417766400 (-46)) (S754_finite false m e))
        as [[| |]|] eqn:C.
      * repeat split; try discriminate; reflexivity.
      * repeat split; try discriminate; reflexivity.
      * apply compare_finite_flip in C. unfold SFleb. rewrite C.
        repeat split; try discriminate; reflexivity.
      * discriminate C.
Qed.

(** X24. For current and target below 2^53 in absolute value,
    getGoalProgress is NaN exactly when both are 0; otherwise it lies
    between 0 and 100, and it is 0 when one of them is negative and the
    other positive (where the evaluator's own progressPercentage is
    negative). getGoalProgressClass of it is achieved exactly when it equals
    100. *)
Theorem getGoalProgress_clamped ev :
  safe (current ev) -> safe (target ev) ->
  let p := getGoalProgress (Some ev) in
  (p = S754_nan <-> current ev = 0 /\ target ev = 0)
  /\ (p <> S754_nan -> SFleb (S754_zero false) p = true /\ SFleb p (ofZ 100) = true)
  /\ (current ev < 0 < target ev \/ target ev < 0 < current ev -> p = S754_zero false)
  /\ (getGoalProgressClass p = "achieved" <-> p = ofZ 100).
Proof.
  intros Hc Ht p.
  assert (getGoalProgressClass p = "achieved" <-> geNumber p (ofZ 100) = true) as Cl.
  { unfold getGoalProgressClass. destruct (geNumber p (ofZ 100)).
    - split; reflexivity.
    - destruct (geNumber p (ofZ 50)); split; discriminate. }
  assert ((current ev = 0 /\ target ev = 0) \/ ~ (current ev = 0 /\ target ev = 0))
    as [[Ec Et]|Ne] by lia.
  - assert (p = S754_nan) as Ep by (unfold p, getGoalProgress; rewrite Ec, Et; reflexivity).
    rewrite Cl, Ep. repeat split; try congruence; try lia; discriminate.
  - pose proof (clamp_signed _ _ (mul_100_signed _ _
                  (div_signed (current ev) (target ev) Hc Ht Ne))) as K.
    fold (getGoalProgress (Some ev)) in K. fold p in K.
    destruct K as (K1 & K2 & K3 & K4).
    split; [split; [contradiction | tauto]|]. split; [auto|]. split.
    + intros [H|H]; apply K4; destruct (Z.ltb_spec (current ev) 0);
        destruct (Z.ltb_spec (target ev) 0); (reflexivity || lia).
    + rewrite Cl. unfold geNumber. unfold SFleb in K3. rewrite ofZ_100 in *.
      destruct p as [sp|sp| |sp mp ep]; unfold SFcompare in *.
      * split; discriminate.
      * destruct sp; [split; discriminate | discriminate K3].
      * congruence.
      * destruct sp; [split; discriminate|]. lazy beta iota in K3. lazy beta iota.
        destruct (Z.compare_spec ep (-46)) as [Ee|Hl|Hg];
          [|split; [intros F; discriminate F | intros E; injection E as _ Ee; lia]
           | discriminate K3].
        rewrite compare_cont_Eq in K3 |- *.
        destruct (Pos.compare_spec mp 7036874417766400) as [Em|Hl|Hg].
        -- split; [intros _; rewrite Em, Ee; reflexivity | reflexivity].
        -- split; [intros F; discriminate F|]. intros E. injection E as Em _.
           rewrite Em in Hl. destruct (Pos.lt_irrefl _ Hl).
        -- discriminate K3.
Qed.
End ProgressBar.

(** ** What a goal card shows *)

Section GoalCard.
Variable tza : Z.
Variable now : Z.
Variable activities : gmap string Activity.

(** X25. For a time goal with a config, formatGoalCurrent of its evaluation
    shows the same label as formatTime of the milliseconds tracked in the
    period (the floor to minutes loses nothing the label shows),
    formatGoalTarget shows formatTime of the target minutes, and with a
    positive target the goal is achieved whenever the two labels are equal. *)
Theorem formatGoalCurrent_time fuel goal cfg :
  g_type goal = "time" -> config goal = Some cfg ->
  exists r,
    Goals.evaluateGoal tza fuel now goal activities = Returns r
    /\ formatGoalCurrent goal (Some r)
       = formatTime (Goals.calculateTimeInRange activities (Goals.idList cfg)
                       (fst (getPeriodRange tza (period cfg) now))
                       (snd (getPeriodRange tza (period cfg) now)))
    /\ formatGoalTarget goal = Returns (formatTime (targetMinutes cfg * 60000))
    /\ (0 < targetMinutes cfg ->
        (formatGoalCurrent goal (Some r) = formatTime (targetMinutes cfg * 60000) ->
         achieved r = true)).
Proof.
  intros T C. unfold Goals.evaluateGoal. rewrite T. simpl.
  rewrite (evaluateTimeGoal_value tza now activities goal cfg C).
  eexists. split; [reflexivity|].
  unfold formatGoalCurrent, formatGoalTarget, Goals.configOf. rewrite T, C. simpl.
  unfold minutesTracked.
  set (total := Goals.calculateTimeInRange activities (Goals.idList cfg)
                  (fst (getPeriodRange tza (period cfg) now))
                  (snd (getPeriodRange tza (period cfg) now))).
  assert (Z.max 0 (total / 60000 * 60000) / 60000 = Z.max 0 total / 60000) as M.
  { destruct (Z.le_gt_cases 0 total) as [P|N].
    - assert (0 <= total / 60000) by (apply Z.div_pos; lia).
      rewrite !Z.max_r by lia. apply Z.div_mul. lia.
    - assert (total / 60000 < 0) by (apply Z.div_lt_upper_bound; lia).
      rewrite !Z.max_l by lia. reflexivity. }
  split; [apply formatTime_same_label_iff; exact M|]. split; [reflexivity|].
  intros Ht E. apply formatTime_same_label_iff in E.
  rewrite M in E. rewrite (Z.max_r 0 (targetMinutes cfg * 60000)) in E by lia.
  rewrite Z.div_mul in E by lia.
  rewrite Z.geb_leb. apply Z.leb_le.
  destruct (Z.le_gt_cases 0 total) as [P|N].
  - rewrite Z.max_r in E by lia. lia.
  - rewrite Z.max_l in E by lia. change (0 / 60000) with 0 in E. lia.
Qed.
End GoalCard.

(** ** Moving through the periods *)

Section Navigation.
Variable tza : Z.

Lemma MakeDate_fields day time :
  0 <= time < msPerDay ->
  Day (MakeDate day time) = day /\ TimeWithinDay (MakeDate day time) = time.
Proof.
  intros H. unfold MakeDate, Day, TimeWithinDay. split.
  - rewrite Z.add_comm, Z.div_add by discriminate. rewrite Z.div_small by assumption. lia.
  - rewrite Z.add_comm, Z.mod_add by discriminate. apply Z.mod_small. assumption.
Qed.

Lemma MakeDay_normal y m d : MakeDay y m d = MakeDay (y + m / 12) (m mod 12) d.
Proof.
  unfold MakeDay. rewrite (Z.div_small (m mod 12)), Z.mod_mod, Z.add_0_r; [reflexivity | lia |].
  apply Z.mod_pos_bound. lia.
Qed.

(** The local fields after the day has been set from a year, a month and
    a day of the month that this month has. *)
Lemma set_fields t y m t' :
  t' = UTC tza (MakeDate (MakeDay y m (DateFromTime (LocalTime tza t)))
                         (TimeWithinDay (LocalTime tza t))) ->
  DateFromTime (LocalTime tza t) <= DaysInMonth (y + m / 12) (m mod 12) ->
  getFullYear tza t' = y + m / 12 /\ getMonth tza t' = m mod 12
  /\ getDate tza t' = getDate tza t
  /\ TimeWithinDay (LocalTime tza t') = TimeWithinDay (LocalTime tza t).
Proof.
  intros Et H. pose proof (TimeWithinDay_range (LocalTime tza t)) as R.
  pose proof (DateFromTime_range (LocalTime tza t)) as Dr.
  assert (LocalTime tza t' = MakeDate (MakeDay y m (DateFromTime (LocalTime tza t)))
                                      (TimeWithinDay (LocalTime tza t))) as L
    by (rewrite Et; unfold LocalTime, UTC; lia).
  destruct (MakeDate_fields (MakeDay y m (DateFromTime (LocalTime tza t)))
              (TimeWithinDay (LocalTime tza t)) R) as [Dd Tw].
  rewrite <- L in Dd, Tw. rewrite MakeDay_normal in Dd.
  destruct (MakeDay_decompose (y + m / 12) (m mod 12) (DateFromTime (LocalTime tza t))
              (LocalTime tza t')) as (A & B & C);
    [pose proof (Z.mod_pos_bound m 12); lia | lia | exact Dd |].
  unfold getFullYear, getMonth, getDate. tauto.
Qed.

Lemma same_fields_same_time t t' :
  getFullYear tza t' = getFullYear tza t -> getMonth tza t' = getMonth tza t ->
  getDate tza t' = getDate tza t ->
  TimeWithinDay (LocalTime tza t') = TimeWithinDay (LocalTime tza t) -> t' = t.
Proof.
  unfold getFullYear, getMonth, getDate. intros Y M D T.
  pose proof (MakeDay_of_time (LocalTime tza t) 0) as A.
  pose proof (MakeDay_of_time (LocalTime tza t') 0) as B.
  rewrite Z.add_0_r in A, B. rewrite Y, M, D, A in B.
  pose proof (day_decomposition (LocalTime tza t)) as Dt.
  pose proof (day_decomposition (LocalTime tza t')) as Dt'.
  unfold LocalTime in *. lia.
Qed.

(** X26. In a zone of constant offset, navigatePeriod moves currentDate by
    direction days of 86400000 ms in the day view and by 7 direction days in
    the week view; the week move keeps the weekday and shifts getWeekStart
    by the same amount, the day move shifts getDayStart likewise, and moving
    by direction and then by -direction returns to the same instant. *)
Theorem navigatePeriod_days date direction :
  navigatePeriod tza "day" date direction = date + direction * msPerDay
  /\ navigatePeriod tza "week" date direction = date + direction * (7 * msPerDay)
  /\ getDay tza (navigatePeriod tza "week" date direction) = getDay tza date
  /\ getWeekStart tza (navigatePeriod tza "week" date direction)
     = getWeekStart tza date + direction * (7 * msPerDay)
  /\ getDayStart tza (navigatePeriod tza "day" date direction)
     = getDayStart tza date + direction * msPerDay
  /\ (forall period, period = "day" \/ period = "week" ->
       navigatePeriod tza period (navigatePeriod tza period date direction) (- direction) = date).
Proof.
  assert (navigatePeriod tza "day" date direction = date + direction * msPerDay) as Dn
    by (unfold navigatePeriod; simpl; apply setDate_shift).
  assert (forall t k, navigatePeriod tza "week" t k = t + k * (7 * msPerDay)) as Wn
    by (intros t k; unfold navigatePeriod; simpl; rewrite setDate_shift; lia).
  assert (forall t k, Day (LocalTime tza (t + k * msPerDay)) = Day (LocalTime tza t) + k) as Ds.
  { intros t k. unfold LocalTime, Day.
    replace (t + k * msPerDay + tza) with (t + tza + k * msPerDay) by lia.
    apply Z.div_add. discriminate. }
  assert (getDay tza (date + direction * (7 * msPerDay)) = getDay tza date) as Wd.
  { unfold getDay, WeekDay.
    replace (direction * (7 * msPerDay)) with (direction * 7 * msPerDay) by lia.
    rewrite Ds. replace (Day (LocalTime tza date) + direction * 7 + 4)
      with (Day (LocalTime tza date) + 4 + direction * 7) by lia.
    apply Z.mod_add. discriminate. }
  split; [exact Dn|]. split; [apply Wn|]. split; [rewrite Wn; exact Wd|]. split; [|split].
  - rewrite Wn.
    assert (LocalTime tza (getWeekStart tza (date + direction * (7 * msPerDay)))
            = LocalTime tza (getWeekStart tza date + direction * (7 * msPerDay))) as L;
      [|revert L; unfold LocalTime; lia].
    rewrite getWeekStart_local, Wd.
    replace (LocalTime tza (getWeekStart tza date + direction * (7 * msPerDay)))
      with (LocalTime tza (getWeekStart tza date) + direction * (7 * msPerDay))
      by (unfold LocalTime; lia).
    rewrite getWeekStart_local.
    replace (direction * (7 * msPerDay)) with (direction * 7 * msPerDay) by lia.
    rewrite Ds. lia.
  - rewrite Dn.
    assert (LocalTime tza (getDayStart tza (date + direction * msPerDay))
            = LocalTime tza (getDayStart tza date + direction * msPerDay)) as L;
      [|revert L; unfold LocalTime; lia].
    rewrite getDayStart_local, Ds.
    replace (LocalTime tza (getDayStart tza date + direction * msPerDay))
      with (LocalTime tza (getDayStart tza date) + direction * msPerDay)
      by (unfold LocalTime; lia).
    rewrite getDayStart_local. lia.
  - intros period [->| ->].
    + unfold navigatePeriod. simpl. rewrite !setDate_shift. lia.
    + rewrite !Wn. lia.
Qed.

(** X27. In a zone of constant offset: in the month view, from a day of the
    month up to 28, navigatePeriod moves by exactly direction months (12
    year + month grows by direction) keeping the day of the month and the
    time of day, and moving back returns to the same instant; in the year
    view the same holds for every date but February 29. *)
Theorem navigatePeriod_months date direction :
  (getDate tza date <= 28 ->
   let next := navigatePeriod tza "month" date direction in
   12 * getFullYear tza next + getMonth tza next
   = 12 * getFullYear tza date + getMonth tza date + direction
   /\ getDate tza next = getDate tza date
   /\ TimeWithinDay (LocalTime tza next) = TimeWithinDay (LocalTime tza date)
   /\ navigatePeriod tza "month" next (- direction) = date)
  /\ (getMonth tza date <> 1 \/ getDate tza date <= 28 ->
      let next := navigatePeriod tza "year" date direction in
      getFullYear tza next = getFullYear tza date + direction
      /\ getMonth tza next = getMonth tza date
      /\ getDate tza next = getDate tza date
      /\ TimeWithinDay (LocalTime tza next) = TimeWithinDay (LocalTime tza date)
      /\ navigatePeriod tza "year" next (- direction) = date).
Proof.
  assert (forall t k, navigatePeriod tza "month" t k
                      = UTC tza (MakeDate (MakeDay (YearFromTime (LocalTime tza t))
                                                   (getMonth tza t + k)
                                                   (DateFromTime (LocalTime tza t)))
                                          (TimeWithinDay (LocalTime tza t)))) as NavM
    by reflexivity.
  assert (forall t k, navigatePeriod tza "year" t k
                      = UTC tza (MakeDate (MakeDay (getFullYear tza t + k)
                                                   (MonthFromTime (LocalTime tza t))
                                                   (DateFromTime (LocalTime tza t)))
                                          (TimeWithinDay (LocalTime tza t)))) as NavY
    by reflexivity.
  assert (forall y m, 28 <= DaysInMonth y m) as D28 by (intros; apply DaysInMonth_range).
  assert (forall t, 0 <= getMonth tza t <= 11) as Mr
    by (intros t; apply MonthFromTime_range).
  split.
  - intros H. cbv zeta. generalize (NavM date direction).
    generalize (navigatePeriod tza "month" date direction). intros next En.
    destruct (set_fields date _ _ next En) as (Y & M & D & T).
    { pose proof (D28 (YearFromTime (LocalTime tza date)
                       + (getMonth tza date + direction) / 12)
                      ((getMonth tza date + direction) mod 12)).
      unfold getDate in H. lia. }
    assert (12 * getFullYear tza next + getMonth tza next
            = 12 * getFullYear tza date + getMonth tza date + direction) as Sum.
    { rewrite Y, M. unfold getFullYear.
      pose proof (Z.div_mod (getMonth tza date + direction) 12). lia. }
    split; [exact Sum|]. split; [exact D|]. split; [exact T|].
    destruct (set_fields next _ _ _ (NavM next (- direction))) as (Y' & M' & D' & T').
    { pose proof (D28 (YearFromTime (LocalTime tza next)
                       + (getMonth tza next + - direction) / 12)
                      ((getMonth tza next + - direction) mod 12)).
      unfold getDate in H, D. lia. }
    pose proof (Mr date) as Md.
    assert (getMonth tza next + - direction
            = getMonth tza date + (getFullYear tza date - getFullYear tza next) * 12) as Eq
      by lia.
    assert ((getMonth tza next + - direction) / 12 = getFullYear tza date - getFullYear tza next
            /\ (getMonth tza next + - direction) mod 12 = getMonth tza date) as [Q R].
    { rewrite Eq. rewrite Z.div_add, Z.mod_add by lia.
      rewrite Z.div_small, Z.mod_small by lia. lia. }
    apply same_fields_same_time.
    + rewrite Y', Q. unfold getFullYear. lia.
    + rewrite M', R. reflexivity.
    + rewrite D', D. reflexivity.
    + rewrite T', T. reflexivity.
  - intros H. cbv zeta. generalize (NavY date direction).
    generalize (navigatePeriod tza "year" date direction). intros next En.
    pose proof (DateFromTime_range (LocalTime tza date)) as Dr.
    assert (forall y, getDate tza date <= DaysInMonth y (getMonth tza date)) as Dok.
    { intros y. unfold getDate, getMonth in *. revert Dr. unfold DaysInMonth.
      destruct (Z.eqb_spec (MonthFromTime (LocalTime tza date)) 1) as [E|N].
      - destruct (DaysInYear y =? 366); lia.
      - intros Dr. exact (proj2 Dr). }
    assert (forall t, getMonth tza t / 12 = 0 /\ getMonth tza t mod 12 = getMonth tza t) as Mn.
    { intros t. pose proof (Mr t). rewrite Z.div_small, Z.mod_small by lia. auto. }
    destruct (set_fields date _ _ next En) as (Y & M & D & T).
    { destruct (Mn date) as [Q R]. unfold getMonth in Q, R. rewrite Q, R, Z.add_0_r.
      apply Dok. }
    destruct (Mn date) as [Q R]. unfold getMonth in Q, R.
    rewrite Q, Z.add_0_r in Y. rewrite R in M. clear Q R. fold (getMonth tza date) in M.
    split; [exact Y|]. split; [exact M|]. split; [exact D|]. split; [exact T|].
    destruct (set_fields next _ _ _ (NavY next (- direction))) as (Y' & M' & D' & T').
    { destruct (Mn next) as [Q R]. unfold getMonth in Q, R. rewrite Q, R, Z.add_0_r.
      unfold getDate, getMonth in D, M. rewrite D, M. apply Dok. }
    destruct (Mn next) as [Q R]. unfold getMonth in Q, R.
    rewrite Q, Z.add_0_r in Y'. rewrite R in M'. clear Q R. fold (getMonth tza next) in M'.
    apply same_fields_same_time.
    + rewrite Y', Y. lia.
    + rewrite M', M. reflexivity.
    + rewrite D', D. reflexivity.
    + rewrite T', T. reflexivity.
Qed.
End Navigation.

(** ** What the daily progress shows of the requests *)

Section DailyProgress.
Variable tza : Z.

Lemma getDailyProgress_lookup d date id :
  dp_activities (getDailyProgress tza d date) !! id
  = match d !! id with
    | None => None
    | Some activity =>
        Some (if String.eqb (s_type activity) "time"
              then DailyTime id (s_name activity)
                     (Main.calculateTimeInRange (s_entries activity)
                        (getDayStart tza date) (getDayEnd tza date))
                     (isActivityRunning (Some activity))
              else DailyCheck id (s_name activity)
                     (match s_checks activity with
                      | Some c => isChecked c (getISODate date)
                      | None => false
                      end))
    end.
Proof.
  unfold getDailyProgress. simpl. rewrite map_lookup_imap.
  destruct (d !! id) as [a|]; reflexivity.
Qed.

(** No request touches an activity other than its subject. *)
Lemma handle_frame req d rep d' :
  handle req d = Returns (rep, d') ->
  forall other, other <> subject req -> d' !! other = d !! other.
Proof.
  intros H.
  destruct req as [id name type|now aid|now aid|now aid dateStr|aid newName|aid|aid];
    simpl in H;
    unfold createActivity, startActivity, stopActivity, toggleCheck, renameActivity,
      deleteActivity, resetActivity in H;
    repeat match type of H with
      | context [match ?m !! ?i with _ => _ end] => destruct (m !! i) eqn:?
      | context [if ?b then _ else _] => destruct b eqn:?
      | context [match s_entries ?a with _ => _ end] => destruct (s_entries a) eqn:?
      | context [match last ?l with _ => _ end] => destruct (last l) eqn:?
      end;
    inversion H; subst; clear H; simpl; intros other Hne;
    try reflexivity;
    try (apply lookup_insert_ne; congruence);
    try (apply lookup_delete_ne; congruence).
Qed.

(** X28. getDailyProgress reads what the handlers write: after toggle-check
    at an instant of the same UTC date as the requested date, the activity's
    checked flag is the value the handler answered, the negation of the flag
    before; after start-activity at t1 and stop-activity at t2 inside the
    day range the reported time grows by t2 - t1, while a running timer
    shows the old time with running true; a request about one activity
    changes nothing reported of another. *)
Theorem getDailyProgress_after_requests d id a date :
  d !! id = Some a ->
  (s_type a = "check" ->
   forall now, getISODate now = getISODate date ->
   exists rep d' b,
     toggleCheck now id None d = Returns (rep, d')
     /\ Store.checked rep = Some b
     /\ dp_activities (getDailyProgress tza d' date) !! id
        = Some (DailyCheck id (s_name a) b)
     /\ dp_activities (getDailyProgress tza d date) !! id
        = Some (DailyCheck id (s_name a) (negb b)))
  /\ (s_type a = "time" -> isActivityRunning (Some a) = false ->
      forall es t1 t2, s_entries a = Some es ->
      getDayStart tza date <= t1 -> t1 <= t2 -> t2 <= getDayEnd tza date ->
      exists d1 d2 time,
        startActivity t1 id d = Returns (succeeded d1, d1)
        /\ stopActivity t2 id d1 = Returns (succeeded d2, d2)
        /\ dp_activities (getDailyProgress tza d date) !! id
           = Some (DailyTime id (s_name a) time false)
        /\ dp_activities (getDailyProgress tza d1 date) !! id
           = Some (DailyTime id (s_name a) time true)
        /\ dp_activities (getDailyProgress tza d2 date) !! id
           = Some (DailyTime id (s_name a) (time + (t2 - t1)) false))
  /\ (forall other, other <> id ->
      forall req, subject req = id -> forall rep d',
      handle req d = Returns (rep, d') ->
      dp_activities (getDailyProgress tza d' date) !! other
      = dp_activities (getDailyProgress tza d date) !! other).
Proof.
  intros L. split; [|split].
  - intros T now En.
    assert (negb (String.eqb (s_type a) "check") = false) as Tb by (rewrite T; reflexivity).
    assert (String.eqb (s_type a) "time" = false) as Tt by (rewrite T; reflexivity).
    unfold toggleCheck. rewrite L, Tb. eexists _, _, _. split; [reflexivity|].
    split; [reflexivity|]. rewrite !getDailyProgress_lookup, lookup_insert_eq, L. simpl.
    rewrite Tt. rewrite <- En. split.
    + f_equal. f_equal. unfold isChecked at 1. rewrite lookup_insert_eq.
      destruct (isChecked (default ∅ (s_checks a)) (getISODate now)); reflexivity.
    + f_equal. f_equal. rewrite negb_involutive.
      destruct (s_checks a) as [c|]; reflexivity.
  - intros T R es t1 t2 Es Hs H12 He.
    assert (negb (String.eqb (s_type a) "time") = false) as Tb by (rewrite T; reflexivity).
    assert (String.eqb (s_type a) "time" = true) as Tt by (rewrite T; reflexivity).
    set (a1 := mkStored (s_id a) (s_name a) (s_type a) (Some (es ++ [mkEntry t1 None]))
                 (s_checks a)).
    assert (isActivityRunning (Some a1) = true) as R1.
    { unfold isActivityRunning, a1. simpl. rewrite Tb, last_snoc. reflexivity. }
    set (a2 := mkStored (s_id a) (s_name a) (s_type a)
                 (Some (es ++ [mkEntry t1 (Some t2)])) (s_checks a)).
    exists (<[id := a1]> d), (<[id := a2]> (<[id := a1]> d)),
      (Main.calculateTimeInRange (Some es) (getDayStart tza date) (getDayEnd tza date)).
    split; [unfold startActivity; rewrite L, Tb, R, Es; reflexivity|].
    split.
    { unfold stopActivity. rewrite lookup_insert_eq, R1.
      unfold a1. cbn [s_type s_entries s_id s_name s_checks negb]. rewrite Tb.
      rewrite last_snoc, removelast_last. reflexivity. }
    rewrite !getDailyProgress_lookup, !lookup_insert_eq, L.
    change (s_type a1) with (s_type a). change (s_type a2) with (s_type a).
    rewrite Tt, R, R1, Es.
    split; [reflexivity|]. split.
    + f_equal. f_equal. change (s_entries a1) with (Some (es ++ [mkEntry t1 None])).
      rewrite !calculateTimeInRange_sum, sumOverlap_app. unfold sumOverlap at 2. simpl.
      unfold sumZ. simpl. lia.
    + f_equal.
      assert (isActivityRunning (Some a2) = false) as ->.
      { unfold isActivityRunning, a2. simpl. rewrite Tb, last_snoc. reflexivity. }
      f_equal. change (s_entries a2) with (Some (es ++ [mkEntry t1 (Some t2)])).
      rewrite !calculateTimeInRange_sum, sumOverlap_app. unfold sumOverlap at 2. simpl.
      unfold counted, skipTest. simpl.
      destruct (Z.ltb_spec t2 (getDayStart tza date)); [lia|].
      destruct (Z.gtb_spec t1 (getDayEnd tza date)); [lia|].
      simpl. unfold sumZ, overlapTerm. simpl. lia.
  - intros other Ho req Hs rep d' Hh. rewrite !getDailyProgress_lookup.
    rewrite (handle_frame req d rep d' Hh other) by (rewrite Hs; exact Ho). reflexivity.
Qed.
End DailyProgress.

(** ** Instances of the theorems above

    The instant 1704967200000 is 2024-01-11T10:00:00Z, a Thursday; the zone
    offset 7200000 is two hours east of UTC. *)

Lemma getISODate_round_trip_witness :
  parseDate (getISODate 1704967200000) = Some 1704931200000
  /\ getISODate 1704967200000 = getISODate 1704931200000.
Proof.
  destruct (getISODate_round_trip 1704967200000 1704931200000) as [P [_ Q]];
    [vm_compute; split; discriminate | vm_compute; split; discriminate |].
  split; [exact P | apply Q; reflexivity].
Defined.

Lemma getMonth_range_is_local_month_witness :
  getMonthStart 7200000 1704967200000 <= 1704967200000 <= getMonthEnd 7200000 1704967200000
  /\ getDate 7200000 (getMonthEnd 7200000 1704967200000) = 31.
Proof.
  destruct (getMonth_range_is_local_month 7200000 1704967200000)
    as (A & _ & _ & _ & _ & E & _);
    [intros [_ H]; apply H; reflexivity |].
  split; [exact A | exact E].
Defined.

Lemma getYear_range_is_local_year_witness :
  getYearEnd 7200000 1704967200000
  = getYearStart 7200000 1704967200000 + 366 * msPerDay - 1
  /\ getFullYear 7200000 (getYearEnd 7200000 1704967200000) = 2024.
Proof.
  destruct (getYear_range_is_local_year 7200000 1704967200000)
    as (A & B & C & _);
    [intros [_ H]; apply H; reflexivity |].
  split; [exact B|]. apply C. lia.
Defined.

Lemma getPeriodRange_contains_witness :
  fst (getPeriodRange 7200000 "month" 1704967200000) <= 1704967200000
    <= snd (getPeriodRange 7200000 "month" 1704967200000)
  /\ getPeriodRange 7200000 "fortnight" 1704967200000
     = (getDayStart 7200000 1704967200000, getDayEnd 7200000 1704967200000).
Proof.
  split.
  - apply (getPeriodRange_contains 7200000 "month" 1704967200000).
    intros _ [_ H]. apply H. reflexivity.
  - apply (getPeriodRange_contains 7200000 "fortnight" 1704967200000);
      [intros [H|H]; discriminate H | discriminate..].
Defined.

Lemma evaluateGoal_missing_activity_witness :
  exists r,
    Goals.evaluateGoal 0 366 1704967200000
      (mkGoal "streak" (Some (mkConfig (Some "gone") "day" 0 0 5)))
      {[ "work" := mkActivity "time" (Some [mkEntry 1704960000000 (Some 1704963600000)]) None ]}
    = Returns r
    /\ current r = 0 /\ achieved r = false /\ progressPercentage r = Int 0.
Proof.
  destruct (evaluateGoal_missing_activity 0 1704967200000
              {[ "work" := mkActivity "time"
                             (Some [mkEntry 1704960000000 (Some 1704963600000)]) None ]}
              366 (mkGoal "streak" (Some (mkConfig (Some "gone") "day" 0 0 5)))
              (mkConfig (Some "gone") "day" 0 0 5) "gone")
    as (r & E & C & P);
    [lia | reflexivity | reflexivity | discriminate | reflexivity | auto |].
  exists r. split; [exact E|]. split; [exact C|]. apply P.
  vm_compute in E. inversion E. simpl. lia.
Defined.

Lemma evaluateTimeGoal_ordered_entries_witness :
  exists r,
    Goals.evaluateTimeGoal 7200000 1704967200000
      (mkGoal "time" (Some (mkConfig (Some "work") "week" 120 0 0)))
      {[ "work" := mkActivity "time" (Some [mkEntry 1704960000000 (Some 1704963600000)]) None ]}
    = Returns r
    /\ 0 <= current r
    /\ exists p, progressPercentage r = Int p /\ 0 <= p <= 100.
Proof.
  destruct (evaluateTimeGoal_ordered_entries 7200000 1704967200000
              {[ "work" := mkActivity "time"
                             (Some [mkEntry 1704960000000 (Some 1704963600000)]) None ]}
              (mkGoal "time" (Some (mkConfig (Some "work") "week" 120 0 0)))
              (mkConfig (Some "work") "week" 120 0 0))
    as (r & E & C & P).
  - reflexivity.
  - intros [H|H]; discriminate H.
  - intros id a es L He.
    apply lookup_singleton_Some in L as [_ <-]. inversion He.
    constructor; [unfold ordered; simpl; lia | constructor].
  - exists r. split; [exact E|]. split; [exact C|]. apply P.
    + vm_compute in E. inversion E. simpl. lia.
    + simpl. lia.
Defined.

Lemma evaluateCountGoal_bounds_witness :
  exists r,
    Goals.evaluateCountGoal 7200000 367 1704967200000
      (mkGoal "count" (Some (mkConfig (Some "gym") "week" 0 3 0)))
      {[ "gym" := mkActivity "check" None
                    (Some {[ "2024-01-08" := true; "2024-01-10" := true ]}) ]}
    = Returns r
    /\ 0 <= current r <= 7.
Proof.
  destruct (evaluateCountGoal_bounds 7200000 1704967200000
              {[ "gym" := mkActivity "check" None
                            (Some {[ "2024-01-08" := true; "2024-01-10" := true ]}) ]}
              367 (mkGoal "count" (Some (mkConfig (Some "gym") "week" 0 3 0)))
              (mkConfig (Some "gym") "week" 0 3 0) "gym")
    as (r & E & _ & B & W & _);
    [lia | reflexivity | reflexivity | intros [H|H]; discriminate H |].
  exists r. split; [exact E|]. split; [apply B | apply W; reflexivity].
Defined.

Lemma evaluateStreakGoal_bounds_witness :
  exists r,
    Goals.evaluateStreakGoal 0 366 1704967200000
      (mkGoal "streak" (Some (mkConfig (Some "gym") "day" 0 0 400)))
      {[ "gym" := mkActivity "check" None
                    (Some {[ "2024-01-11" := true; "2024-01-10" := true ]}) ]}
    = Returns r
    /\ 0 <= current r <= 366 /\ achieved r = false.
Proof.
  destruct (evaluateStreakGoal_bounds 0 1704967200000
              {[ "gym" := mkActivity "check" None
                            (Some {[ "2024-01-11" := true; "2024-01-10" := true ]}) ]}
              366 (mkGoal "streak" (Some (mkConfig (Some "gym") "day" 0 0 400)))
              (mkConfig (Some "gym") "day" 0 0 400))
    as (r & E & B & _ & _ & A); [lia | reflexivity |].
  exists r. split; [exact E|]. split; [exact B|]. apply A. simpl. lia.
Defined.


Lemma run_ordered_witness :
  run [Create "work" "Work" "time"; Start 1704960000000 "work";
       Stop 1704963600000 "work"; Start 1704967200000 "work"] ∅
  = Returns {[ "work" := mkStored "work" "Work" "time"
                           (Some [mkEntry 1704960000000 (Some 1704963600000);
                                  mkEntry 1704967200000 None]) None ]}
  /\ 0 <= Goals.calculateTimeInRange
            (view <$> {[ "work" := mkStored "work" "Work" "time"
                                     (Some [mkEntry 1704960000000 (Some 1704963600000);
                                            mkEntry 1704967200000 None]) None ]})
            ["work"] 1704931200000 1705017599999.
Proof.
  assert (run [Create "work" "Work" "time"; Start 1704960000000 "work";
               Stop 1704963600000 "work"; Start 1704967200000 "work"] ∅
          = Returns {[ "work" := mkStored "work" "Work" "time"
                                   (Some [mkEntry 1704960000000 (Some 1704963600000);
                                          mkEntry 1704967200000 None]) None ]}) as E
    by (vm_compute; reflexivity).
  split; [exact E|].
  assert (timely 0 [Create "work" "Work" "time"; Start 1704960000000 "work";
                    Stop 1704963600000 "work"; Start 1704967200000 "work"]) as Ht
    by (simpl; lia).
  destruct (run_ordered _ _ _ Ht E) as (_ & N). apply N. lia.
Defined.

Lemma start_then_stop_witness :
  exists d2 a2,
    (rd ← startActivity 1704967200000 "work"
            {[ "work" := mkStored "work" "Work" "time"
                           (Some [mkEntry 1704960000000 (Some 1704963600000)]) None ]};
     stopActivity 1704969000000 "work" (snd rd)) = Returns (succeeded d2, d2)
    /\ d2 !! "work" = Some a2
    /\ s_entries a2 = Some [mkEntry 1704960000000 (Some 1704963600000);
                            mkEntry 1704967200000 (Some 1704969000000)]
    /\ Main.calculateTimeInRange (s_entries a2) 1704931200000 1705017599999
       = 3600000 + 1800000.
Proof.
  destruct (start_then_stop
              {[ "work" := mkStored "work" "Work" "time"
                             (Some [mkEntry 1704960000000 (Some 1704963600000)]) None ]}
              "work"
              (mkStored "work" "Work" "time"
                 (Some [mkEntry 1704960000000 (Some 1704963600000)]) None)
              [mkEntry 1704960000000 (Some 1704963600000)]
              1704967200000 1704969000000)
    as (d1 & d2 & a2 & S1 & _ & _ & _ & S2 & L & Es & _ & _ & T);
    [reflexivity..|].
  exists d2, a2. split; [rewrite S1; exact S2|]. split; [exact L|]. split; [exact Es|].
  rewrite T by lia. reflexivity.
Defined.


Lemma delete_then_evaluate_witness :
  exists d' r,
    deleteActivity "work"
      {[ "work" := mkStored "work" "Work" "time"
                     (Some [mkEntry 1704960000000 (Some 1704963600000)]) None ]}
    = Returns (succeeded d', d')
    /\ Goals.evaluateGoal 0 366 1704967200000
         (mkGoal "time" (Some (mkConfig (Some "work") "day" 60 0 0))) (view <$> d')
       = Returns r
    /\ current r = 0 /\ achieved r = false /\ progressPercentage r = Int 0.
Proof.
  destruct (delete_then_evaluate
              {[ "work" := mkStored "work" "Work" "time"
                             (Some [mkEntry 1704960000000 (Some 1704963600000)]) None ]}
              "work"
              (mkStored "work" "Work" "time"
                 (Some [mkEntry 1704960000000 (Some 1704963600000)]) None)
              0 366 1704967200000
              (mkGoal "time" (Some (mkConfig (Some "work") "day" 60 0 0)))
              (mkConfig (Some "work") "day" 60 0 0))
    as (d' & r & D & _ & _ & E & C & P);
    [reflexivity | lia | reflexivity | reflexivity | auto |].
  exists d', r. split; [exact D|]. split; [exact E|]. split; [exact C|]. apply P.
  assert (d' = ∅) as Hd by (vm_compute in D; inversion D; reflexivity).
  rewrite Hd in E. vm_compute in E. inversion E. simpl. lia.
Defined.

Lemma rename_keeps_records_witness :
  exists d' a',
    renameActivity "work" "Deep work"
      {[ "work" := mkStored "work" "Work" "time" (Some [mkEntry 1704960000000 None]) None ]}
    = Returns (succeeded d', d')
    /\ d' !! "work" = Some a' /\ s_name a' = "Deep work"
    /\ isActivityRunning (Some a') = true.
Proof.
  destruct (rename_keeps_records
              {[ "work" := mkStored "work" "Work" "time"
                             (Some [mkEntry 1704960000000 None]) None ]}
              "work"
              (mkStored "work" "Work" "time" (Some [mkEntry 1704960000000 None]) None)
              "Deep work")
    as (d' & a' & R & L & N & _ & I'); [reflexivity|].
  exists d', a'. split; [exact R|]. split; [exact L|]. split; [exact N|].
  rewrite I'. reflexivity.
Defined.

Lemma calculateTotalTime_parts_witness :
  calculateTotalTime 1704967200000
    (Some [mkEntry 1704956400000 (Some 1704960000000); mkEntry 1704963600000 None])
  = 3600000 + 3600000
  /\ calculateTotalTime 1704967260000
       (Some [mkEntry 1704956400000 (Some 1704960000000); mkEntry 1704963600000 None])
     - calculateTotalTime 1704967200000
         (Some [mkEntry 1704956400000 (Some 1704960000000); mkEntry 1704963600000 None])
     = 60000.
Proof.
  destruct (calculateTotalTime_parts 1704967200000
              [mkEntry 1704956400000 (Some 1704960000000); mkEntry 1704963600000 None]
              1704931200000 1705017599999) as (A & B & _).
  - constructor; [discriminate|]. constructor; [discriminate | constructor].
  - constructor; [simpl; intros entryEnd E; inversion E; lia|].
    constructor; [simpl; intros entryEnd E; discriminate E | constructor].
  - split; [rewrite A; reflexivity | rewrite B; reflexivity].
Defined.

Lemma getGoalProgress_clamped_witness :
  getGoalProgress (Some {| achieved := false; current := -10; target := 60;
                           progressPercentage := Int (-17); unit := "minutes" |})
  = S754_zero false.
Proof.
  destruct (getGoalProgress_clamped
              {| achieved := false; current := -10; target := 60;
                 progressPercentage := Int (-17); unit := "minutes" |})
    as (_ & _ & Z0 & _); [unfold safe; simpl; lia | unfold safe; simpl; lia |].
  apply Z0. simpl. lia.
Defined.

Lemma formatGoalCurrent_time_witness :
  exists r,
    Goals.evaluateGoal 0 0 1704967200000
      (mkGoal "time" (Some (mkConfig (Some "work") "day" 60 0 0)))
      {[ "work" := mkActivity "time"
                     (Some [mkEntry 1704960000000 (Some 1704963599000)]) None ]}
    = Returns r
    /\ formatGoalCurrent (mkGoal "time" (Some (mkConfig (Some "work") "day" 60 0 0))) (Some r)
       = "0h 59m".
Proof.
  destruct (formatGoalCurrent_time 0 1704967200000
              {[ "work" := mkActivity "time"
                             (Some [mkEntry 1704960000000 (Some 1704963599000)]) None ]}
              0 (mkGoal "time" (Some (mkConfig (Some "work") "day" 60 0 0)))
              (mkConfig (Some "work") "day" 60 0 0))
    as (r & E & F & _); [reflexivity | reflexivity |].
  exists r. split; [exact E|]. rewrite F. vm_compute. reflexivity.
Defined.

Lemma getDailyProgress_after_requests_witness :
  exists rep d',
    toggleCheck 1704967200000 "gym" None
      {[ "gym" := mkStored "gym" "Gym" "check" None (Some ∅) ]} = Returns (rep, d')
    /\ dp_activities (getDailyProgress 7200000 d' 1704970800000) !! "gym"
       = Some (DailyCheck "gym" "Gym" true).
Proof.
  destruct (getDailyProgress_after_requests 7200000
              {[ "gym" := mkStored "gym" "Gym" "check" None (Some ∅) ]}
              "gym" (mkStored "gym" "Gym" "check" None (Some ∅)) 1704970800000)
    as (T & _); [reflexivity|].
  destruct (T eq_refl 1704967200000) as (rep & d' & b & E & C & P & Q); [reflexivity|].
  exists rep, d'. split; [exact E|]. rewrite P. f_equal. f_equal.
  rewrite getDailyProgress_lookup in Q. vm_compute in Q. inversion Q as [Hb].
  destruct b; [reflexivity | discriminate Hb].
Defined.
